(** * The evdev device adapter of libinput (src/evdev.c)

    A shallow embedding of the per-device event pipeline: key and button
    reference counting, the pending-event state machine and its flush, the
    seat-slot allocator, the fallback dispatcher, the calibration
    configuration hooks, LED output and capability detection.

    C functions that mutate the device and the seat and call the
    [*_notify_*] entry points are functions in a state monad that also
    collects the notifications in call order and may stop on a failed
    [assert] or on undefined behaviour (array index out of range,
    dereference of a null pointer). Arithmetic on [int] wraps around. *)

From Stdlib Require Import ZArith QArith Bool Lia.
From stdpp Require Import base list gmap.

Local Open Scope Z_scope.

(** ** Constants of linux/input.h

    The header is bundled with the library but is not part of the modelled
    sources; the values are those of the kernel ABI. *)
Module Input.
Definition EV_SYN : Z := 0x00.
Definition EV_KEY : Z := 0x01.
Definition EV_REL : Z := 0x02.
Definition EV_ABS : Z := 0x03.
Definition EV_LED : Z := 0x11.

Definition SYN_REPORT : Z := 0.

Definition REL_X : Z := 0x00.
Definition REL_Y : Z := 0x01.
Definition REL_HWHEEL : Z := 0x06.
Definition REL_WHEEL : Z := 0x08.

Definition ABS_X : Z := 0x00.
Definition ABS_Y : Z := 0x01.
Definition ABS_MT_SLOT : Z := 0x2f.
Definition ABS_MT_POSITION_X : Z := 0x35.
Definition ABS_MT_POSITION_Y : Z := 0x36.
Definition ABS_MT_TRACKING_ID : Z := 0x39.

Definition KEY_ESC : Z := 1.
Definition KEY_MICMUTE : Z := 248.
Definition BTN_MISC : Z := 0x100.
Definition BTN_TOOL_PEN : Z := 0x140.
Definition BTN_TOOL_FINGER : Z := 0x145.
Definition BTN_TOUCH : Z := 0x14a.
Definition BTN_GEAR_UP : Z := 0x151.
Definition KEY_OK : Z := 0x160.
Definition KEY_LIGHTS_TOGGLE : Z := 0x21e.
Definition BTN_DPAD_UP : Z := 0x220.
Definition BTN_TRIGGER_HAPPY40 : Z := 0x2e7.
Definition KEY_MAX : Z := 0x2ff.
Definition KEY_CNT : Z := KEY_MAX + 1.

Definition LED_NUML : Z := 0x00.
Definition LED_CAPSL : Z := 0x01.
Definition LED_SCROLLL : Z := 0x02.

Definition INPUT_PROP_DIRECT : Z := 0x01.
End Input.
Import Input.

(** struct input_event, without its timestamp: the dispatcher receives the
    time already converted to milliseconds. *)
Record input_event := mk_input_event {
  ev_type : Z;   (* __u16 *)
  ev_code : Z;   (* __u16 *)
  ev_value : Z   (* __s32 *)
}.

(** struct input_absinfo, the fields the adapter reads. *)
Record input_absinfo := mk_absinfo {
  minimum : Z;
  maximum : Z;
  resolution : Z
}.

(** ** Constants of libinput.h and evdev.h (headers outside the modelled
    sources) *)
Definition DEFAULT_AXIS_STEP_DISTANCE : Z := 10.

Definition EVDEV_DEVICE_POINTER : Z := 1.   (* 1 << 0 *)
Definition EVDEV_DEVICE_KEYBOARD : Z := 2.  (* 1 << 1 *)
Definition EVDEV_DEVICE_TOUCH : Z := 4.     (* 1 << 2 *)

Definition LIBINPUT_LED_NUM_LOCK : Z := 1.     (* 1 << 0 *)
Definition LIBINPUT_LED_CAPS_LOCK : Z := 2.    (* 1 << 1 *)
Definition LIBINPUT_LED_SCROLL_LOCK : Z := 4.  (* 1 << 2 *)

Inductive evdev_key_type :=
| EVDEV_KEY_TYPE_NONE
| EVDEV_KEY_TYPE_KEY
| EVDEV_KEY_TYPE_BUTTON.

#[global] Instance evdev_key_type_eq_dec : EqDecision evdev_key_type.
Proof. solve_decision. Defined.

Inductive evdev_event_type :=
| EVDEV_NONE
| EVDEV_ABSOLUTE_TOUCH_DOWN
| EVDEV_ABSOLUTE_MOTION
| EVDEV_ABSOLUTE_TOUCH_UP
| EVDEV_ABSOLUTE_MT_DOWN
| EVDEV_ABSOLUTE_MT_MOTION
| EVDEV_ABSOLUTE_MT_UP
| EVDEV_RELATIVE_MOTION.

(** LIBINPUT_KEY_STATE_* and LIBINPUT_BUTTON_STATE_*: RELEASED is 0 and
    PRESSED is 1 in both enumerations. *)
Inductive libinput_key_state :=
| LIBINPUT_KEY_STATE_RELEASED
| LIBINPUT_KEY_STATE_PRESSED.

Inductive libinput_button_state :=
| LIBINPUT_BUTTON_STATE_RELEASED
| LIBINPUT_BUTTON_STATE_PRESSED.

Inductive libinput_pointer_axis :=
| LIBINPUT_POINTER_AXIS_SCROLL_VERTICAL
| LIBINPUT_POINTER_AXIS_SCROLL_HORIZONTAL.

Inductive evdev_dispatch :=
| fallback_dispatch
| touchpad_dispatch.

(** The bounds of [int] and of [uint32_t]. *)
Definition INT_MIN : Z := - 2 ^ 31.
Definition INT_MAX : Z := 2 ^ 31 - 1.
Definition UINT32_MOD : Z := 2 ^ 32.

(** The value an [int] takes for the mathematical result [z]: the 32-bit
    two's-complement wrap-around of the targets the library builds for. *)
Definition to_int (z : Z) : Z := (z - INT_MIN) mod UINT32_MOD + INT_MIN.

(** A C array read or written at index [i]. *)
Definition array_get {A} (l : list A) (i : Z) : option A :=
  if i <? 0 then None else l !! Z.to_nat i.

Definition array_set {A} (l : list A) (i : Z) (a : A) : list A :=
  <[Z.to_nat i := a]> l.

(** ** Floating point and the other collaborators

    The adapter stores and compares single-precision matrix entries and
    hands integers to double-precision collaborators, but does no
    floating-point arithmetic of its own except in the calibration set-up.
    The number formats, the matrix helpers of libinput-util.h and the
    acceleration filter (filter.h gives only its interface) are taken as
    an interface. *)
Class FloatingPoint := {
  float : Type;
  float_eq_dec :: EqDecision float;
  float_zero : float;
  float_one : float;
  double : Type;
  double_of_int : Z -> double;
  (* d == 0.0 *)
  double_is_zero : double -> bool;
  (* a / b, and 1.0 *)
  double_div : double -> double -> double;
  double_one : double
}.

(** struct matrix: float val[3][3], row by row. *)
Record matrix `{FloatingPoint} := mk_matrix {
  val00 : float; val01 : float; val02 : float;
  val10 : float; val11 : float; val12 : float;
  val20 : float; val21 : float; val22 : float
}.

(** A [float[6]] argument of the calibration interface. *)
Record farray6 `{FloatingPoint} := mk_farray6 {
  f0 : float; f1 : float; f2 : float;
  f3 : float; f4 : float; f5 : float
}.

Arguments mk_matrix {_}.
Arguments mk_farray6 {_}.

#[global] Instance matrix_eq_dec `{FloatingPoint} : EqDecision matrix.
Proof. solve_decision. Defined.

#[global] Instance farray6_eq_dec `{FloatingPoint} : EqDecision farray6.
Proof. solve_decision. Defined.

Class Collaborators `{FloatingPoint} := {
  (* libinput-util.h: dest = m1 * m2 *)
  matrix_mult : matrix -> matrix -> matrix;
  (* libinput-util.h: the scaling matrix of (sx, sy), arguments narrowed
     from double *)
  matrix_init_scale : double -> double -> matrix;
  (* libinput-util.h: the translation matrix of (x, y) *)
  matrix_init_translate : double -> double -> matrix;
  (* libinput-util.h: (x, y) replaced by the first two components of
     m * (x, y, 1) *)
  matrix_mult_vec : matrix -> Z -> Z -> Z * Z;
  (* struct motion_filter and filter_dispatch(filter, &motion, data, time):
     the filtered motion and the filter's next state *)
  motion_filter : Type;
  filter_dispatch :
    motion_filter -> double * double -> Z -> double * double * motion_filter
}.

(** ** The device and its seat *)

(** struct mt_slot. *)
Record mt_slot_t := mk_mt_slot {
  slot_seat_slot : Z;   (* int32_t, -1 when the contact has no seat slot *)
  slot_x : Z;           (* int32_t *)
  slot_y : Z
}.

(** The slot range and active slot an mtdev handle reports
    (mtdev->caps.slot). *)
Record mtdev_caps := mk_mtdev_caps {
  mtdev_slot_minimum : Z;
  mtdev_slot_maximum : Z;
  mtdev_slot_value : Z
}.

Section Device.
Context `{Collaborators}.

(** struct evdev_device (evdev.h), the nested structs [abs], [mt], [rel]
    and [pointer] flattened with their name as a prefix. *)
Record evdev_device := mk_evdev_device {
  dispatch : option evdev_dispatch;
  fd : Z;
  absinfo_x : option input_absinfo;   (* abs.absinfo_x, a pointer that may be null *)
  absinfo_y : option input_absinfo;
  fake_resolution : bool;
  abs_x : Z;   (* abs.x, abs.y: int32_t *)
  abs_y : Z;
  abs_seat_slot : Z;
  apply_calibration : bool;
  calibration : matrix;
  default_calibration : matrix;
  usermatrix : matrix;
  mt_slot : Z;   (* mt.slot, the current slot *)
  mt_slots : list mt_slot_t;   (* mt.slots; mt.slots_len is its length *)
  mtdev : option mtdev_caps;
  rel_dx : Z;   (* rel.dx, rel.dy: int *)
  rel_dy : Z;
  pending_event : evdev_event_type;
  seat_caps : Z;
  is_mt : bool;
  pointer_filter : option motion_filter;   (* pointer.filter, may be null *)
  key_mask : Z;   (* the bitmap over key codes *)
  key_count : list Z   (* uint8_t key_count[KEY_CNT] *)
}.

Definition set_dispatch (v : option evdev_dispatch) (d : evdev_device)
    : evdev_device :=
  {| dispatch := v; fd := fd d; absinfo_x := absinfo_x d;
     absinfo_y := absinfo_y d; fake_resolution := fake_resolution d;
     abs_x := abs_x d; abs_y := abs_y d; abs_seat_slot := abs_seat_slot d;
     apply_calibration := apply_calibration d; calibration := calibration d;
     default_calibration := default_calibration d;
     usermatrix := usermatrix d; mt_slot := mt_slot d;
     mt_slots := mt_slots d; mtdev := mtdev d; rel_dx := rel_dx d;
     rel_dy := rel_dy d; pending_event := pending_event d;
     seat_caps := seat_caps d; is_mt := is_mt d;
     pointer_filter := pointer_filter d; key_mask := key_mask d;
     key_count := key_count d |}.

Definition set_fd (v : Z) (d : evdev_device)
    : evdev_device :=
  {| dispatch := dispatch d; fd := v; absinfo_x := absinfo_x d;
     absinfo_y := absinfo_y d; fake_resolution := fake_resolution d;
     abs_x := abs_x d; abs_y := abs_y d; abs_seat_slot := abs_seat_slot d;
     apply_calibration := apply_calibration d; calibration := calibration d;
     default_calibration := default_calibration d;
     usermatrix := usermatrix d; mt_slot := mt_slot d;
     mt_slots := mt_slots d; mtdev := mtdev d; rel_dx := rel_dx d;
     rel_dy := rel_dy d; pending_event := pending_event d;
     seat_caps := seat_caps d; is_mt := is_mt d;
     pointer_filter := pointer_filter d; key_mask := key_mask d;
     key_count := key_count d |}.

Definition set_absinfo_x (v : option input_absinfo) (d : evdev_device)
    : evdev_device :=
  {| dispatch := dispatch d; fd := fd d; absinfo_x := v;
     absinfo_y := absinfo_y d; fake_resolution := fake_resolution d;
     abs_x := abs_x d; abs_y := abs_y d; abs_seat_slot := abs_seat_slot d;
     apply_calibration := apply_calibration d; calibration := calibration d;
     default_calibration := default_calibration d;
     usermatrix := usermatrix d; mt_slot := mt_slot d;
     mt_slots := mt_slots d; mtdev := mtdev d; rel_dx := rel_dx d;
     rel_dy := rel_dy d; pending_event := pending_event d;
     seat_caps := seat_caps d; is_mt := is_mt d;
     pointer_filter := pointer_filter d; key_mask := key_mask d;
     key_count := key_count d |}.

Definition set_absinfo_y (v : option input_absinfo) (d : evdev_device)
    : evdev_device :=
  {| dispatch := dispatch d; fd := fd d; absinfo_x := absinfo_x d;
     absinfo_y := v; fake_resolution := fake_resolution d; abs_x := abs_x d;
     abs_y := abs_y d; abs_seat_slot := abs_seat_slot d;
     apply_calibration := apply_calibration d; calibration := calibration d;
     default_calibration := default_calibration d;
     usermatrix := usermatrix d; mt_slot := mt_slot d;
     mt_slots := mt_slots d; mtdev := mtdev d; rel_dx := rel_dx d;
     rel_dy := rel_dy d; pending_event := pending_event d;
     seat_caps := seat_caps d; is_mt := is_mt d;
     pointer_filter := pointer_filter d; key_mask := key_mask d;
     key_count := key_count d |}.

Definition set_fake_resolution (v : bool) (d : evdev_device)
    : evdev_device :=
  {| dispatch := dispatch d; fd := fd d; absinfo_x := absinfo_x d;
     absinfo_y := absinfo_y d; fake_resolution := v; abs_x := abs_x d;
     abs_y := abs_y d; abs_seat_slot := abs_seat_slot d;
     apply_calibration := apply_calibration d; calibration := calibration d;
     default_calibration := default_calibration d;
     usermatrix := usermatrix d; mt_slot := mt_slot d;
     mt_slots := mt_slots d; mtdev := mtdev d; rel_dx := rel_dx d;
     rel_dy := rel_dy d; pending_event := pending_event d;
     seat_caps := seat_caps d; is_mt := is_mt d;
     pointer_filter := pointer_filter d; key_mask := key_mask d;
     key_count := key_count d |}.

Definition set_abs_x (v : Z) (d : evdev_device)
    : evdev_device :=
  {| dispatch := dispatch d; fd := fd d; absinfo_x := absinfo_x d;
     absinfo_y := absinfo_y d; fake_resolution := fake_resolution d;
     abs_x := v; abs_y := abs_y d; abs_seat_slot := abs_seat_slot d;
     apply_calibration := apply_calibration d; calibration := calibration d;
     default_calibration := default_calibration d;
     usermatrix := usermatrix d; mt_slot := mt_slot d;
     mt_slots := mt_slots d; mtdev := mtdev d; rel_dx := rel_dx d;
     rel_dy := rel_dy d; pending_event := pending_event d;
     seat_caps := seat_caps d; is_mt := is_mt d;
     pointer_filter := pointer_filter d; key_mask := key_mask d;
     key_count := key_count d |}.

Definition set_abs_y (v : Z) (d : evdev_device)
    : evdev_device :=
  {| dispatch := dispatch d; fd := fd d; absinfo_x := absinfo_x d;
     absinfo_y := absinfo_y d; fake_resolution := fake_resolution d;
     abs_x := abs_x d; abs_y := v; abs_seat_slot := abs_seat_slot d;
     apply_calibration := apply_calibration d; calibration := calibration d;
     default_calibration := default_calibration d;
     usermatrix := usermatrix d; mt_slot := mt_slot d;
     mt_slots := mt_slots d; mtdev := mtdev d; rel_dx := rel_dx d;
     rel_dy := rel_dy d; pending_event := pending_event d;
     seat_caps := seat_caps d; is_mt := is_mt d;
     pointer_filter := pointer_filter d; key_mask := key_mask d;
     key_count := key_count d |}.

Definition set_abs_seat_slot (v : Z) (d : evdev_device)
    : evdev_device :=
  {| dispatch := dispatch d; fd := fd d; absinfo_x := absinfo_x d;
     absinfo_y := absinfo_y d; fake_resolution := fake_resolution d;
     abs_x := abs_x d; abs_y := abs_y d; abs_seat_slot := v;
     apply_calibration := apply_calibration d; calibration := calibration d;
     default_calibration := default_calibration d;
     usermatrix := usermatrix d; mt_slot := mt_slot d;
     mt_slots := mt_slots d; mtdev := mtdev d; rel_dx := rel_dx d;
     rel_dy := rel_dy d; pending_event := pending_event d;
     seat_caps := seat_caps d; is_mt := is_mt d;
     pointer_filter := pointer_filter d; key_mask := key_mask d;
     key_count := key_count d |}.

Definition set_apply_calibration (v : bool) (d : evdev_device)
    : evdev_device :=
  {| dispatch := dispatch d; fd := fd d; absinfo_x := absinfo_x d;
     absinfo_y := absinfo_y d; fake_resolution := fake_resolution d;
     abs_x := abs_x d; abs_y := abs_y d; abs_seat_slot := abs_seat_slot d;
     apply_calibration := v; calibration := calibration d;
     default_calibration := default_calibration d;
     usermatrix := usermatrix d; mt_slot := mt_slot d;
     mt_slots := mt_slots d; mtdev := mtdev d; rel_dx := rel_dx d;
     rel_dy := rel_dy d; pending_event := pending_event d;
     seat_caps := seat_caps d; is_mt := is_mt d;
     pointer_filter := pointer_filter d; key_mask := key_mask d;
     key_count := key_count d |}.

Definition set_calibration (v : matrix) (d : evdev_device)
    : evdev_device :=
  {| dispatch := dispatch d; fd := fd d; absinfo_x := absinfo_x d;
     absinfo_y := absinfo_y d; fake_resolution := fake_resolution d;
     abs_x := abs_x d; abs_y := abs_y d; abs_seat_slot := abs_seat_slot d;
     apply_calibration := apply_calibration d; calibration := v;
     default_calibration := default_calibration d;
     usermatrix := usermatrix d; mt_slot := mt_slot d;
     mt_slots := mt_slots d; mtdev := mtdev d; rel_dx := rel_dx d;
     rel_dy := rel_dy d; pending_event := pending_event d;
     seat_caps := seat_caps d; is_mt := is_mt d;
     pointer_filter := pointer_filter d; key_mask := key_mask d;
     key_count := key_count d |}.

Definition set_default_calibration (v : matrix) (d : evdev_device)
    : evdev_device :=
  {| dispatch := dispatch d; fd := fd d; absinfo_x := absinfo_x d;
     absinfo_y := absinfo_y d; fake_resolution := fake_resolution d;
     abs_x := abs_x d; abs_y := abs_y d; abs_seat_slot := abs_seat_slot d;
     apply_calibration := apply_calibration d; calibration := calibration d;
     default_calibration := v; usermatrix := usermatrix d;
     mt_slot := mt_slot d; mt_slots := mt_slots d; mtdev := mtdev d;
     rel_dx := rel_dx d; rel_dy := rel_dy d;
     pending_event := pending_event d; seat_caps := seat_caps d;
     is_mt := is_mt d; pointer_filter := pointer_filter d;
     key_mask := key_mask d; key_count := key_count d |}.

Definition set_usermatrix (v : matrix) (d : evdev_device)
    : evdev_device :=
  {| dispatch := dispatch d; fd := fd d; absinfo_x := absinfo_x d;
     absinfo_y := absinfo_y d; fake_resolution := fake_resolution d;
     abs_x := abs_x d; abs_y := abs_y d; abs_seat_slot := abs_seat_slot d;
     apply_calibration := apply_calibration d; calibration := calibration d;
     default_calibration := default_calibration d; usermatrix := v;
     mt_slot := mt_slot d; mt_slots := mt_slots d; mtdev := mtdev d;
     rel_dx := rel_dx d; rel_dy := rel_dy d;
     pending_event := pending_event d; seat_caps := seat_caps d;
     is_mt := is_mt d; pointer_filter := pointer_filter d;
     key_mask := key_mask d; key_count := key_count d |}.

Definition set_mt_slot (v : Z) (d : evdev_device)
    : evdev_device :=
  {| dispatch := dispatch d; fd := fd d; absinfo_x := absinfo_x d;
     absinfo_y := absinfo_y d; fake_resolution := fake_resolution d;
     abs_x := abs_x d; abs_y := abs_y d; abs_seat_slot := abs_seat_slot d;
     apply_calibration := apply_calibration d; calibration := calibration d;
     default_calibration := default_calibration d;
     usermatrix := usermatrix d; mt_slot := v; mt_slots := mt_slots d;
     mtdev := mtdev d; rel_dx := rel_dx d; rel_dy := rel_dy d;
     pending_event := pending_event d; seat_caps := seat_caps d;
     is_mt := is_mt d; pointer_filter := pointer_filter d;
     key_mask := key_mask d; key_count := key_count d |}.

Definition set_mt_slots (v : list mt_slot_t) (d : evdev_device)
    : evdev_device :=
  {| dispatch := dispatch d; fd := fd d; absinfo_x := absinfo_x d;
     absinfo_y := absinfo_y d; fake_resolution := fake_resolution d;
     abs_x := abs_x d; abs_y := abs_y d; abs_seat_slot := abs_seat_slot d;
     apply_calibration := apply_calibration d; calibration := calibration d;
     default_calibration := default_calibration d;
     usermatrix := usermatrix d; mt_slot := mt_slot d; mt_slots := v;
     mtdev := mtdev d; rel_dx := rel_dx d; rel_dy := rel_dy d;
     pending_event := pending_event d; seat_caps := seat_caps d;
     is_mt := is_mt d; pointer_filter := pointer_filter d;
     key_mask := key_mask d; key_count := key_count d |}.

Definition set_mtdev (v : option mtdev_caps) (d : evdev_device)
    : evdev_device :=
  {| dispatch := dispatch d; fd := fd d; absinfo_x := absinfo_x d;
     absinfo_y := absinfo_y d; fake_resolution := fake_resolution d;
     abs_x := abs_x d; abs_y := abs_y d; abs_seat_slot := abs_seat_slot d;
     apply_calibration := apply_calibration d; calibration := calibration d;
     default_calibration := default_calibration d;
     usermatrix := usermatrix d; mt_slot := mt_slot d;
     mt_slots := mt_slots d; mtdev := v; rel_dx := rel_dx d;
     rel_dy := rel_dy d; pending_event := pending_event d;
     seat_caps := seat_caps d; is_mt := is_mt d;
     pointer_filter := pointer_filter d; key_mask := key_mask d;
     key_count := key_count d |}.

Definition set_rel_dx (v : Z) (d : evdev_device)
    : evdev_device :=
  {| dispatch := dispatch d; fd := fd d; absinfo_x := absinfo_x d;
     absinfo_y := absinfo_y d; fake_resolution := fake_resolution d;
     abs_x := abs_x d; abs_y := abs_y d; abs_seat_slot := abs_seat_slot d;
     apply_calibration := apply_calibration d; calibration := calibration d;
     default_calibration := default_calibration d;
     usermatrix := usermatrix d; mt_slot := mt_slot d;
     mt_slots := mt_slots d; mtdev := mtdev d; rel_dx := v;
     rel_dy := rel_dy d; pending_event := pending_event d;
     seat_caps := seat_caps d; is_mt := is_mt d;
     pointer_filter := pointer_filter d; key_mask := key_mask d;
     key_count := key_count d |}.

Definition set_rel_dy (v : Z) (d : evdev_device)
    : evdev_device :=
  {| dispatch := dispatch d; fd := fd d; absinfo_x := absinfo_x d;
     absinfo_y := absinfo_y d; fake_resolution := fake_resolution d;
     abs_x := abs_x d; abs_y := abs_y d; abs_seat_slot := abs_seat_slot d;
     apply_calibration := apply_calibration d; calibration := calibration d;
     default_calibration := default_calibration d;
     usermatrix := usermatrix d; mt_slot := mt_slot d;
     mt_slots := mt_slots d; mtdev := mtdev d; rel_dx := rel_dx d;
     rel_dy := v; pending_event := pending_event d; seat_caps := seat_caps d;
     is_mt := is_mt d; pointer_filter := pointer_filter d;
     key_mask := key_mask d; key_count := key_count d |}.

Definition set_pending_event (v : evdev_event_type) (d : evdev_device)
    : evdev_device :=
  {| dispatch := dispatch d; fd := fd d; absinfo_x := absinfo_x d;
     absinfo_y := absinfo_y d; fake_resolution := fake_resolution d;
     abs_x := abs_x d; abs_y := abs_y d; abs_seat_slot := abs_seat_slot d;
     apply_calibration := apply_calibration d; calibration := calibration d;
     default_calibration := default_calibration d;
     usermatrix := usermatrix d; mt_slot := mt_slot d;
     mt_slots := mt_slots d; mtdev := mtdev d; rel_dx := rel_dx d;
     rel_dy := rel_dy d; pending_event := v; seat_caps := seat_caps d;
     is_mt := is_mt d; pointer_filter := pointer_filter d;
     key_mask := key_mask d; key_count := key_count d |}.

Definition set_seat_caps (v : Z) (d : evdev_device)
    : evdev_device :=
  {| dispatch := dispatch d; fd := fd d; absinfo_x := absinfo_x d;
     absinfo_y := absinfo_y d; fake_resolution := fake_resolution d;
     abs_x := abs_x d; abs_y := abs_y d; abs_seat_slot := abs_seat_slot d;
     apply_calibration := apply_calibration d; calibration := calibration d;
     default_calibration := default_calibration d;
     usermatrix := usermatrix d; mt_slot := mt_slot d;
     mt_slots := mt_slots d; mtdev := mtdev d; rel_dx := rel_dx d;
     rel_dy := rel_dy d; pending_event := pending_event d; seat_caps := v;
     is_mt := is_mt d; pointer_filter := pointer_filter d;
     key_mask := key_mask d; key_count := key_count d |}.

Definition set_is_mt (v : bool) (d : evdev_device)
    : evdev_device :=
  {| dispatch := dispatch d; fd := fd d; absinfo_x := absinfo_x d;
     absinfo_y := absinfo_y d; fake_resolution := fake_resolution d;
     abs_x := abs_x d; abs_y := abs_y d; abs_seat_slot := abs_seat_slot d;
     apply_calibration := apply_calibration d; calibration := calibration d;
     default_calibration := default_calibration d;
     usermatrix := usermatrix d; mt_slot := mt_slot d;
     mt_slots := mt_slots d; mtdev := mtdev d; rel_dx := rel_dx d;
     rel_dy := rel_dy d; pending_event := pending_event d;
     seat_caps := seat_caps d; is_mt := v;
     pointer_filter := pointer_filter d; key_mask := key_mask d;
     key_count := key_count d |}.

Definition set_pointer_filter (v : option motion_filter) (d : evdev_device)
    : evdev_device :=
  {| dispatch := dispatch d; fd := fd d; absinfo_x := absinfo_x d;
     absinfo_y := absinfo_y d; fake_resolution := fake_resolution d;
     abs_x := abs_x d; abs_y := abs_y d; abs_seat_slot := abs_seat_slot d;
     apply_calibration := apply_calibration d; calibration := calibration d;
     default_calibration := default_calibration d;
     usermatrix := usermatrix d; mt_slot := mt_slot d;
     mt_slots := mt_slots d; mtdev := mtdev d; rel_dx := rel_dx d;
     rel_dy := rel_dy d; pending_event := pending_event d;
     seat_caps := seat_caps d; is_mt := is_mt d; pointer_filter := v;
     key_mask := key_mask d; key_count := key_count d |}.

Definition set_key_mask (v : Z) (d : evdev_device)
    : evdev_device :=
  {| dispatch := dispatch d; fd := fd d; absinfo_x := absinfo_x d;
     absinfo_y := absinfo_y d; fake_resolution := fake_resolution d;
     abs_x := abs_x d; abs_y := abs_y d; abs_seat_slot := abs_seat_slot d;
     apply_calibration := apply_calibration d; calibration := calibration d;
     default_calibration := default_calibration d;
     usermatrix := usermatrix d; mt_slot := mt_slot d;
     mt_slots := mt_slots d; mtdev := mtdev d; rel_dx := rel_dx d;
     rel_dy := rel_dy d; pending_event := pending_event d;
     seat_caps := seat_caps d; is_mt := is_mt d;
     pointer_filter := pointer_filter d; key_mask := v;
     key_count := key_count d |}.

Definition set_key_count (v : list Z) (d : evdev_device)
    : evdev_device :=
  {| dispatch := dispatch d; fd := fd d; absinfo_x := absinfo_x d;
     absinfo_y := absinfo_y d; fake_resolution := fake_resolution d;
     abs_x := abs_x d; abs_y := abs_y d; abs_seat_slot := abs_seat_slot d;
     apply_calibration := apply_calibration d; calibration := calibration d;
     default_calibration := default_calibration d;
     usermatrix := usermatrix d; mt_slot := mt_slot d;
     mt_slots := mt_slots d; mtdev := mtdev d; rel_dx := rel_dx d;
     rel_dy := rel_dy d; pending_event := pending_event d;
     seat_caps := seat_caps d; is_mt := is_mt d;
     pointer_filter := pointer_filter d; key_mask := key_mask d;
     key_count := v |}.

(** struct libinput_seat, as far as the device code reads and writes it
    while it processes events: the bitmap of allocated seat slots
    (uint32_t). The reference count of the seat and its list of devices,
    which only evdev_device_create, evdev_device_destroy and
    evdev_device_remove touch, are no part of this state. *)
Record libinput_seat := mk_seat {
  slot_map : Z
}.

Record state := mk_state {
  device : evdev_device;
  seat : libinput_seat
}.

(** ** Notifications

    One constructor per notification entry point of the library, with the
    arguments of the call. Integer arguments that the callee takes as
    [double] are kept as the integers they were converted from. *)
Inductive notification :=
| pointer_notify_motion (time : Z) (dx dy : double)
| pointer_notify_motion_absolute (time x y : Z)
| pointer_notify_button (time button : Z) (st : libinput_button_state)
| pointer_notify_axis (time : Z) (axis : libinput_pointer_axis) (value : Z)
| keyboard_notify_key (time key : Z) (st : libinput_key_state)
| touch_notify_touch_down (time slot seat_slot x y : Z)
| touch_notify_touch_motion (time slot seat_slot x y : Z)
| touch_notify_touch_up (time slot seat_slot : Z)
| touch_notify_frame (time : Z).

Definition is_touch_notification (n : notification) : bool :=
  match n with
  | touch_notify_touch_down _ _ _ _ _
  | touch_notify_touch_motion _ _ _ _ _
  | touch_notify_touch_up _ _ _ => true
  | _ => false
  end.

Definition is_frame_notification (n : notification) : bool :=
  match n with
  | touch_notify_frame _ => true
  | _ => false
  end.

(** ** The monad of device code *)

Inductive fault :=
| AssertionFailure      (* assert() aborted the process *)
| UndefinedBehaviour.   (* the C standard gives the step no meaning *)

Inductive outcome (A : Type) :=
| Returns (a : A) (s : state) (out : list notification)
| Stops (f : fault).
Arguments Returns {A}.
Arguments Stops {A}.

Definition M (A : Type) : Type := state -> outcome A.

Definition ret {A} (a : A) : M A := fun s => Returns a s [].

Definition bind {A B} (m : M A) (k : A -> M B) : M B := fun s =>
  match m s with
  | Returns a s1 o1 =>
      match k a s1 with
      | Returns b s2 o2 => Returns b s2 (o1 ++ o2)
      | Stops f => Stops f
      end
  | Stops f => Stops f
  end.

Definition stop {A} (f : fault) : M A := fun _ => Stops f.

(** The monad is used through stdpp's notations [x ← m; k] and [m ;; k]. *)
#[global] Instance M_ret : MRet M := @ret.
#[global] Instance M_bind : MBind M := fun A B k m => bind m k.
#[global] Instance M_throw : MThrow fault M := @stop.

Definition get_device : M evdev_device := fun s => Returns (device s) s [].

Definition get_seat : M libinput_seat := fun s => Returns (seat s) s [].

Definition modify_device (f : evdev_device -> evdev_device) : M unit :=
  fun s => Returns tt (mk_state (f (device s)) (seat s)) [].

Definition put_slot_map (m : Z) : M unit :=
  fun s => Returns tt (mk_state (device s) (mk_seat m)) [].

Definition notify (n : notification) : M unit := fun s => Returns tt s [n].

Definition assert (b : bool) : M unit :=
  if b then ret tt else stop AssertionFailure.

(** A value that exists only when the C expression is defined. *)
Definition defined {A} (o : option A) : M A :=
  match o with
  | Some a => ret a
  | None => stop UndefinedBehaviour
  end.

(** log_bug_kernel, log_bug_libinput, log_info: diagnostics go to the log
    handler and are no notification. *)
Definition log_bug_kernel : M unit := ret tt.
Definition log_bug_libinput : M unit := ret tt.

End Device.

Arguments Returns {_ _ _}.
Arguments Stops {_ _ _}.


Section Evdev.
Context `{Collaborators}.

Definition requires (b : bool) : M unit :=
  if b then mret tt else stop UndefinedBehaviour.

Definition to_uint32 (z : Z) : Z := z mod UINT32_MOD.

Definition UINT8_MOD : Z := 2 ^ 8.

Definition to_uint8 (z : Z) : Z := z mod UINT8_MOD.

(** [seat_caps & cap] of the source, as a truth value. *)
Definition has_seat_cap (d : evdev_device) (cap : Z) : bool :=
  negb (Z.land (seat_caps d) cap =? 0).

(** ** Key bitmap and press counts *)

Definition in_key_range (code : Z) : bool := (0 <=? code) && (code <? KEY_CNT).

(** Modelled from the spec: the bit helpers of libinput-util.h
    ([long_set_bit_state], [long_bit_is_set]) are the set-bit(c, v) and
    test-bit(c) of a bitmap over key codes; the array of longs that holds
    the [KEY_CNT] bits is one integer here. *)
Definition long_set_bit_state (mask bit state : Z) : Z :=
  if state =? 0 then Z.clearbit mask bit else Z.setbit mask bit.

Definition long_bit_is_set (mask bit : Z) : bool := Z.testbit mask bit.

Definition set_key_down (code pressed : Z) : M unit :=
  requires (in_key_range code);;
  modify_device
    (λ d, set_key_mask (long_set_bit_state (key_mask d) code pressed) d).

Definition is_key_down (code : Z) : M bool :=
  requires (in_key_range code);;
  d ← get_device;
  mret (long_bit_is_set (key_mask d) code).

Definition get_key_down_count (code : Z) : M Z :=
  d ← get_device;
  defined (array_get (key_count d) code).

(** [key_count] is declared in evdev.h, which is not among the sources
    here, as [uint8_t key_count[KEY_CNT]]: [++] and [--] store their result
    in eight bits, so that the count after 255 is 0, and [key_count], an
    [int], is the value stored. *)
Definition update_key_down_count (code pressed : Z) : M Z :=
  assert ((0 <=? code) && (code <? KEY_CNT));;
  d ← get_device;
  old ← defined (array_get (key_count d) code);
  count ←
    (if negb (pressed =? 0) then
       mret (to_uint8 (old + 1))
     else
       assert (0 <? old);;
       mret (to_uint8 (old - 1)));
  modify_device (λ d, set_key_count (array_set (key_count d) code count) d);;
  (if 32 <? count then log_bug_libinput else mret tt);;
  mret count.

Definition key_state_value (st : libinput_key_state) : Z :=
  match st with
  | LIBINPUT_KEY_STATE_RELEASED => 0
  | LIBINPUT_KEY_STATE_PRESSED => 1
  end.

Definition button_state_value (st : libinput_button_state) : Z :=
  match st with
  | LIBINPUT_BUTTON_STATE_RELEASED => 0
  | LIBINPUT_BUTTON_STATE_PRESSED => 1
  end.

(** The [time] parameter is uint32_t in both notify wrappers. *)
Definition evdev_keyboard_notify_key
    (time key : Z) (st : libinput_key_state) : M unit :=
  down_count ← update_key_down_count key (key_state_value st);
  if match st with
     | LIBINPUT_KEY_STATE_PRESSED => down_count =? 1
     | LIBINPUT_KEY_STATE_RELEASED => down_count =? 0
     end
  then notify (keyboard_notify_key time key st)
  else mret tt.

Definition evdev_pointer_notify_button
    (time button : Z) (st : libinput_button_state) : M unit :=
  down_count ← update_key_down_count button (button_state_value st);
  if match st with
     | LIBINPUT_BUTTON_STATE_PRESSED => down_count =? 1
     | LIBINPUT_BUTTON_STATE_RELEASED => down_count =? 0
     end
  then notify (pointer_notify_button time button st)
  else mret tt.

(** ** LED output

    The only effect of [evdev_device_led_update] is its call of write(2):
    the result is the list of the calls it makes, each with the file
    descriptor and the events of the buffer (the timestamps, zeroed by
    memset, are not part of [input_event] here). *)
Definition led_map : list (Z * Z) :=
  [ (LIBINPUT_LED_NUM_LOCK, LED_NUML);
    (LIBINPUT_LED_CAPS_LOCK, LED_CAPSL);
    (LIBINPUT_LED_SCROLL_LOCK, LED_SCROLLL) ].

Definition evdev_device_led_update
    (d : evdev_device) (leds : Z) : list (Z * list input_event) :=
  if negb (has_seat_cap d EVDEV_DEVICE_KEYBOARD) then []
  else
    let ev :=
      map (λ m : Z * Z,
             mk_input_event EV_LED (snd m)
               (if Z.land leds (fst m) =? 0 then 0 else 1))
          led_map
      ++ [mk_input_event EV_SYN SYN_REPORT 0] in
    [(fd d, ev)].

(** ** Calibration applied to a coordinate pair *)
Definition transform_absolute (x y : Z) : M (Z * Z) :=
  d ← get_device;
  if negb (apply_calibration d) then mret (x, y)
  else mret (matrix_mult_vec (calibration d) x y).

(** ** Seat slots *)

(** ffs(3): the position of the least significant set bit of an [int],
    counted from 1, and 0 when no bit is set. *)
Fixpoint ffs_from (fuel : nat) (i : Z) (w : Z) : Z :=
  match fuel with
  | O => 0
  | S fuel' => if Z.testbit w i then i + 1 else ffs_from fuel' (i + 1) w
  end.

Definition ffs (w : Z) : Z := ffs_from 32 0 w.

(** [~m] on uint32_t. *)
Definition uint32_not (m : Z) : Z := Z.land (Z.lnot m) (UINT32_MOD - 1).

(** [1 << n] on int: defined for 0 <= n < 32 (for n = 31 the compilers the
    library builds with give the sign bit, which the conversion to uint32_t
    of the slot map turns into bit 31). *)
Definition shift_one (n : Z) : M Z :=
  requires ((0 <=? n) && (n <? 32));;
  mret (Z.shiftl 1 n).

Definition set_slot_seat_slot (v : Z) (s : mt_slot_t) : mt_slot_t :=
  mk_mt_slot v (slot_x s) (slot_y s).

Definition set_slot_x (v : Z) (s : mt_slot_t) : mt_slot_t :=
  mk_mt_slot (slot_seat_slot s) v (slot_y s).

Definition set_slot_y (v : Z) (s : mt_slot_t) : mt_slot_t :=
  mk_mt_slot (slot_seat_slot s) (slot_x s) v.

(** ** The flush of the pending event *)
Definition evdev_flush_pending_event (time : Z) : M unit :=
  d ← get_device;
  seat ← get_seat;
  let slot := mt_slot d in
  match pending_event d with
  | EVDEV_NONE => mret tt
  | pending =>
    match pending with
    | EVDEV_NONE => mret tt
    | EVDEV_RELATIVE_MOTION =>
        let motion := (double_of_int (rel_dx d), double_of_int (rel_dy d)) in
        modify_device (λ d, set_rel_dy 0 (set_rel_dx 0 d));;
        (* Apply pointer acceleration. *)
        filter ← defined (pointer_filter d);
        let '(dx, dy, filter') := filter_dispatch filter motion time in
        modify_device (set_pointer_filter (Some filter'));;
        if double_is_zero dx && double_is_zero dy then mret tt
        else notify (pointer_notify_motion time dx dy)
    | EVDEV_ABSOLUTE_MT_DOWN =>
        if negb (has_seat_cap d EVDEV_DEVICE_TOUCH) then mret tt
        else
          s ← defined (array_get (mt_slots d) slot);
          if negb (slot_seat_slot s =? -1) then log_bug_kernel
          else
            let seat_slot := ffs (uint32_not (slot_map seat)) - 1 in
            modify_device
              (set_mt_slots
                 (array_set (mt_slots d) slot (set_slot_seat_slot seat_slot s)));;
            if seat_slot =? -1 then mret tt
            else
              bit ← shift_one seat_slot;
              put_slot_map (Z.lor (slot_map seat) bit);;
              '(x, y) ← transform_absolute (slot_x s) (slot_y s);
              notify (touch_notify_touch_down time slot seat_slot x y)
    | EVDEV_ABSOLUTE_MT_MOTION =>
        if negb (has_seat_cap d EVDEV_DEVICE_TOUCH) then mret tt
        else
          s ← defined (array_get (mt_slots d) slot);
          let seat_slot := slot_seat_slot s in
          if seat_slot =? -1 then mret tt
          else
            '(x, y) ← transform_absolute (slot_x s) (slot_y s);
            notify (touch_notify_touch_motion time slot seat_slot x y)
    | EVDEV_ABSOLUTE_MT_UP =>
        if negb (has_seat_cap d EVDEV_DEVICE_TOUCH) then mret tt
        else
          s ← defined (array_get (mt_slots d) slot);
          let seat_slot := slot_seat_slot s in
          modify_device
            (set_mt_slots
               (array_set (mt_slots d) slot (set_slot_seat_slot (-1) s)));;
          if seat_slot =? -1 then mret tt
          else
            bit ← shift_one seat_slot;
            put_slot_map (Z.land (slot_map seat) (Z.lnot bit));;
            notify (touch_notify_touch_up time slot seat_slot)
    | EVDEV_ABSOLUTE_TOUCH_DOWN =>
        if negb (has_seat_cap d EVDEV_DEVICE_TOUCH) then mret tt
        else if negb (abs_seat_slot d =? -1) then log_bug_kernel
        else
          let seat_slot := ffs (uint32_not (slot_map seat)) - 1 in
          modify_device (set_abs_seat_slot seat_slot);;
          if seat_slot =? -1 then mret tt
          else
            bit ← shift_one seat_slot;
            put_slot_map (Z.lor (slot_map seat) bit);;
            '(cx, cy) ← transform_absolute (abs_x d) (abs_y d);
            notify (touch_notify_touch_down time (-1) seat_slot cx cy)
    | EVDEV_ABSOLUTE_MOTION =>
        '(x, y) ← transform_absolute (abs_x d) (abs_y d);
        if has_seat_cap d EVDEV_DEVICE_TOUCH then
          let seat_slot := abs_seat_slot d in
          if seat_slot =? -1 then mret tt
          else notify (touch_notify_touch_motion time (-1) seat_slot x y)
        else if has_seat_cap d EVDEV_DEVICE_POINTER then
          notify (pointer_notify_motion_absolute time x y)
        else mret tt
    | EVDEV_ABSOLUTE_TOUCH_UP =>
        if negb (has_seat_cap d EVDEV_DEVICE_TOUCH) then mret tt
        else
          let seat_slot := abs_seat_slot d in
          modify_device (set_abs_seat_slot (-1));;
          if seat_slot =? -1 then mret tt
          else
            bit ← shift_one seat_slot;
            put_slot_map (Z.land (slot_map seat) (Z.lnot bit));;
            notify (touch_notify_touch_up time (-1) seat_slot)
    end;;
    modify_device (set_pending_event EVDEV_NONE)
  end.

(** ** Event processing of the fallback dispatcher *)

Definition get_key_type (code : Z) : evdev_key_type :=
  if code =? BTN_TOUCH then EVDEV_KEY_TYPE_NONE
  else if (KEY_ESC <=? code) && (code <=? KEY_MICMUTE) then EVDEV_KEY_TYPE_KEY
  else if (BTN_MISC <=? code) && (code <=? BTN_GEAR_UP) then
    EVDEV_KEY_TYPE_BUTTON
  else if (KEY_OK <=? code) && (code <=? KEY_LIGHTS_TOGGLE) then
    EVDEV_KEY_TYPE_KEY
  else if (BTN_DPAD_UP <=? code) && (code <=? BTN_TRIGGER_HAPPY40) then
    EVDEV_KEY_TYPE_BUTTON
  else EVDEV_KEY_TYPE_NONE.

Definition evdev_process_touch_button (time value : Z) : M unit :=
  d ← get_device;
  (match pending_event d with
   | EVDEV_NONE | EVDEV_ABSOLUTE_MOTION => mret tt
   | _ => evdev_flush_pending_event time
   end);;
  modify_device
    (set_pending_event
       (if negb (value =? 0) then EVDEV_ABSOLUTE_TOUCH_DOWN
        else EVDEV_ABSOLUTE_TOUCH_UP)).

Definition evdev_process_key (e : input_event) (time : Z) : M unit :=
  (* ignore kernel key repeat *)
  if ev_value e =? 2 then mret tt
  else if ev_code e =? BTN_TOUCH then
    d ← get_device;
    if negb (is_mt d) then evdev_process_touch_button time (ev_value e)
    else mret tt
  else
    evdev_flush_pending_event time;;
    let type := get_key_type (ev_code e) in
    (* Ignore key release events from the kernel for keys that libinput
       never got a pressed event for. *)
    ignored ←
      (if ev_value e =? 0 then
         match type with
         | EVDEV_KEY_TYPE_NONE => mret false
         | EVDEV_KEY_TYPE_KEY | EVDEV_KEY_TYPE_BUTTON =>
             down ← is_key_down (ev_code e);
             mret (negb down)
         end
       else mret false);
    if ignored : bool then mret tt
    else
      set_key_down (ev_code e) (ev_value e);;
      match type with
      | EVDEV_KEY_TYPE_NONE => mret tt
      | EVDEV_KEY_TYPE_KEY =>
          evdev_keyboard_notify_key (to_uint32 time) (ev_code e)
            (if negb (ev_value e =? 0) then LIBINPUT_KEY_STATE_PRESSED
             else LIBINPUT_KEY_STATE_RELEASED)
      | EVDEV_KEY_TYPE_BUTTON =>
          evdev_pointer_notify_button (to_uint32 time) (ev_code e)
            (if negb (ev_value e =? 0) then LIBINPUT_BUTTON_STATE_PRESSED
             else LIBINPUT_BUTTON_STATE_RELEASED)
      end.

Definition evdev_process_touch (e : input_event) (time : Z) : M unit :=
  if ev_code e =? ABS_MT_SLOT then
    evdev_flush_pending_event time;;
    modify_device (set_mt_slot (ev_value e))
  else if ev_code e =? ABS_MT_TRACKING_ID then
    d ← get_device;
    (match pending_event d with
     | EVDEV_NONE | EVDEV_ABSOLUTE_MT_MOTION => mret tt
     | _ => evdev_flush_pending_event time
     end);;
    modify_device
      (set_pending_event
         (if 0 <=? ev_value e then EVDEV_ABSOLUTE_MT_DOWN
          else EVDEV_ABSOLUTE_MT_UP))
  else if ev_code e =? ABS_MT_POSITION_X then
    d ← get_device;
    s ← defined (array_get (mt_slots d) (mt_slot d));
    modify_device
      (set_mt_slots
         (array_set (mt_slots d) (mt_slot d) (set_slot_x (ev_value e) s)));;
    match pending_event d with
    | EVDEV_NONE => modify_device (set_pending_event EVDEV_ABSOLUTE_MT_MOTION)
    | _ => mret tt
    end
  else if ev_code e =? ABS_MT_POSITION_Y then
    d ← get_device;
    s ← defined (array_get (mt_slots d) (mt_slot d));
    modify_device
      (set_mt_slots
         (array_set (mt_slots d) (mt_slot d) (set_slot_y (ev_value e) s)));;
    match pending_event d with
    | EVDEV_NONE => modify_device (set_pending_event EVDEV_ABSOLUTE_MT_MOTION)
    | _ => mret tt
    end
  else mret tt.

Definition evdev_process_absolute_motion (e : input_event) : M unit :=
  if ev_code e =? ABS_X then
    modify_device (set_abs_x (ev_value e));;
    d ← get_device;
    match pending_event d with
    | EVDEV_NONE => modify_device (set_pending_event EVDEV_ABSOLUTE_MOTION)
    | _ => mret tt
    end
  else if ev_code e =? ABS_Y then
    modify_device (set_abs_y (ev_value e));;
    d ← get_device;
    match pending_event d with
    | EVDEV_NONE => modify_device (set_pending_event EVDEV_ABSOLUTE_MOTION)
    | _ => mret tt
    end
  else mret tt.

Definition evdev_process_relative (e : input_event) (time : Z) : M unit :=
  if ev_code e =? REL_X then
    d ← get_device;
    (match pending_event d with
     | EVDEV_RELATIVE_MOTION => mret tt
     | _ => evdev_flush_pending_event time
     end);;
    modify_device (λ d, set_rel_dx (to_int (rel_dx d + ev_value e)) d);;
    modify_device (set_pending_event EVDEV_RELATIVE_MOTION)
  else if ev_code e =? REL_Y then
    d ← get_device;
    (match pending_event d with
     | EVDEV_RELATIVE_MOTION => mret tt
     | _ => evdev_flush_pending_event time
     end);;
    modify_device (λ d, set_rel_dy (to_int (rel_dy d + ev_value e)) d);;
    modify_device (set_pending_event EVDEV_RELATIVE_MOTION)
  else if ev_code e =? REL_WHEEL then
    evdev_flush_pending_event time;;
    notify
      (pointer_notify_axis time LIBINPUT_POINTER_AXIS_SCROLL_VERTICAL
         (to_int (to_int (-1 * ev_value e) * DEFAULT_AXIS_STEP_DISTANCE)))
  else if ev_code e =? REL_HWHEEL then
    evdev_flush_pending_event time;;
    if (ev_value e =? -1) || (ev_value e =? 1) then
      notify
        (pointer_notify_axis time LIBINPUT_POINTER_AXIS_SCROLL_HORIZONTAL
           (to_int (ev_value e * DEFAULT_AXIS_STEP_DISTANCE)))
    else mret tt
  else mret tt.

Definition evdev_process_absolute (e : input_event) (time : Z) : M unit :=
  d ← get_device;
  if is_mt d then evdev_process_touch e time
  else evdev_process_absolute_motion e.

Definition evdev_need_touch_frame (d : evdev_device) : bool :=
  if negb (has_seat_cap d EVDEV_DEVICE_TOUCH) then false
  else
    match pending_event d with
    | EVDEV_NONE | EVDEV_RELATIVE_MOTION => false
    | EVDEV_ABSOLUTE_MT_DOWN
    | EVDEV_ABSOLUTE_MT_MOTION
    | EVDEV_ABSOLUTE_MT_UP
    | EVDEV_ABSOLUTE_TOUCH_DOWN
    | EVDEV_ABSOLUTE_TOUCH_UP
    | EVDEV_ABSOLUTE_MOTION => true
    end.

Definition fallback_process (event : input_event) (time : Z) : M unit :=
  if ev_type event =? EV_REL then evdev_process_relative event time
  else if ev_type event =? EV_ABS then evdev_process_absolute event time
  else if ev_type event =? EV_KEY then evdev_process_key event time
  else if ev_type event =? EV_SYN then
    d ← get_device;
    let need_frame := evdev_need_touch_frame d in
    evdev_flush_pending_event time;;
    if need_frame then notify (touch_notify_frame time) else mret tt
  else mret tt.

(** ** Calibration *)

(** Modelled from the spec: the matrix helpers of libinput-util.h that do
    no arithmetic. identity-init; from-6-floats (row-major a, b, c, d, e, f
    with implicit bottom row [0, 0, 1]); to-6-floats; is-identity (bit-exact
    check against identity). *)
Definition matrix_init_identity : matrix :=
  mk_matrix float_one float_zero float_zero
            float_zero float_one float_zero
            float_zero float_zero float_one.

Definition matrix_from_farray6 (values : farray6) : matrix :=
  mk_matrix (f0 values) (f1 values) (f2 values)
            (f3 values) (f4 values) (f5 values)
            float_zero float_zero float_one.

Definition matrix_to_farray6 (m : matrix) : farray6 :=
  mk_farray6 (val00 m) (val01 m) (val02 m) (val10 m) (val11 m) (val12 m).

Definition matrix_is_identity (m : matrix) : bool :=
  bool_decide (m = matrix_init_identity).

Definition LIBINPUT_CONFIG_STATUS_SUCCESS : Z := 0.

Definition evdev_device_calibrate (calibration : farray6) : M unit :=
  let transform := matrix_from_farray6 calibration in
  let apply := negb (matrix_is_identity transform) in
  modify_device (set_apply_calibration apply);;
  if negb apply then
    modify_device (set_calibration matrix_init_identity)
  else
    d ← get_device;
    ax ← defined (absinfo_x d);
    ay ← defined (absinfo_y d);
    let sx := double_of_int (to_int (to_int (maximum ax - minimum ax) + 1)) in
    let sy := double_of_int (to_int (to_int (maximum ay - minimum ay) + 1)) in
    (* back up the user matrix so we can return it on request *)
    modify_device (set_usermatrix (matrix_from_farray6 calibration));;
    (* Un-Normalize *)
    let translate :=
      matrix_init_translate (double_of_int (minimum ax))
                            (double_of_int (minimum ay)) in
    let scale := matrix_init_scale sx sy in
    let scale := matrix_mult translate scale in
    (* Calibration *)
    let transform := matrix_mult scale transform in
    (* Normalize *)
    let translate :=
      matrix_init_translate
        (double_div (double_of_int (to_int (- minimum ax))) sx)
        (double_div (double_of_int (to_int (- minimum ay))) sy) in
    let scale :=
      matrix_init_scale (double_div double_one sx) (double_div double_one sy) in
    let scale := matrix_mult translate scale in
    (* store final matrix in device *)
    modify_device (set_calibration (matrix_mult transform scale)).

Definition evdev_calibration_has_matrix (d : evdev_device) : bool :=
  bool_decide (is_Some (absinfo_x d)) && bool_decide (is_Some (absinfo_y d)).

Definition evdev_calibration_set_matrix (matrix : farray6) : M Z :=
  evdev_device_calibrate matrix;;
  mret LIBINPUT_CONFIG_STATUS_SUCCESS.

(** The out-parameter [matrix] and the returned truth value. *)
Definition evdev_calibration_get_matrix : M (farray6 * bool) :=
  d ← get_device;
  mret (matrix_to_farray6 (usermatrix d),
        negb (matrix_is_identity (usermatrix d))).

Definition evdev_calibration_get_default_matrix : M (farray6 * bool) :=
  d ← get_device;
  mret (matrix_to_farray6 (default_calibration d),
        negb (matrix_is_identity (default_calibration d))).

Definition evdev_device_set_default_calibration (calibration : farray6)
    : M unit :=
  modify_device (set_default_calibration (matrix_from_farray6 calibration));;
  evdev_device_calibrate calibration.

(** ** Capability detection and device creation *)

(** What the libevdev handle of the device answers. *)
Record libevdev := mk_libevdev {
  libevdev_has_event_type : Z → bool;
  libevdev_has_event_code : Z → Z → bool;
  libevdev_has_property : Z → bool;
  libevdev_get_abs_info : Z → option input_absinfo;
  libevdev_get_num_slots : Z;
  libevdev_get_current_slot : Z
}.

(** The outcome of every call that can fail for lack of a resource, and
    the touchpad dispatcher (outside the modelled sources), which is given
    the device and leaves it as it likes, or fails. *)
Record environment := mk_environment {
  open_restricted : Z;                      (* the descriptor, or < 0 *)
  zalloc_device : bool;                     (* zalloc(sizeof *device) *)
  libevdev_new_from_fd : option libevdev;   (* None: rc != 0 *)
  mtdev_new_open : option mtdev_caps;
  calloc_slots : bool;
  create_pointer_accelator_filter : option motion_filter;
  evdev_mt_touchpad_create : evdev_device → option evdev_device;
  malloc_dispatch : bool;                   (* in fallback_dispatch_create *)
  libinput_add_fd : bool
}.

(** The absinfo an axis has once a zero resolution has been replaced by 1
    (libevdev_set_abs_info writes the slot the stored pointer aliases). *)
Definition fixed_resolution (a : input_absinfo) : input_absinfo :=
  if resolution a =? 0 then mk_absinfo (minimum a) (maximum a) 1 else a.

Definition note_fake_resolution (a : input_absinfo) : M unit :=
  if resolution a =? 0 then modify_device (set_fake_resolution true)
  else mret tt.

(** The loop over [0, KEY_MAX): (has_keyboard, has_button). *)
Definition scan_key_codes (evdev : libevdev) : bool * bool :=
  foldl
    (λ (acc : bool * bool) (i : Z),
       if libevdev_has_event_code evdev EV_KEY i then
         match get_key_type i with
         | EVDEV_KEY_TYPE_NONE => acc
         | EVDEV_KEY_TYPE_KEY => (true, snd acc)
         | EVDEV_KEY_TYPE_BUTTON => (fst acc, true)
         end
       else acc)
    (false, false) (seqZ 0 KEY_MAX).

Definition configure_pointer_acceleration (env : environment) : M Z :=
  modify_device (set_pointer_filter (create_pointer_accelator_filter env));;
  match create_pointer_accelator_filter env with
  | None => mret (-1)
  | Some _ => mret 0
  end.

(** The EV_ABS block: [None] when it returns -1, else
    (has_abs, has_mt, has_touch). *)
Definition configure_absolute (evdev : libevdev) (env : environment)
    : M (option (bool * bool * bool)) :=
  if negb (libevdev_has_event_type evdev EV_ABS) then
    mret (Some (false, false, false))
  else
    has_abs_x ←
      match libevdev_get_abs_info evdev ABS_X with
      | Some absinfo =>
          note_fake_resolution absinfo;;
          modify_device (set_absinfo_x (Some (fixed_resolution absinfo)));;
          mret true
      | None => mret false
      end;
    has_abs_y ←
      match libevdev_get_abs_info evdev ABS_Y with
      | Some absinfo =>
          note_fake_resolution absinfo;;
          modify_device (set_absinfo_y (Some (fixed_resolution absinfo)));;
          mret true
      | None => mret false
      end;
    let has_abs := has_abs_x || has_abs_y in
    (* We only handle the slotted Protocol B. Devices with
       ABS_MT_POSITION_* but not ABS_MT_SLOT require mtdev for conversion. *)
    if libevdev_has_event_code evdev EV_ABS ABS_MT_POSITION_X &&
       libevdev_has_event_code evdev EV_ABS ABS_MT_POSITION_Y then
      absinfo ← defined (libevdev_get_abs_info evdev ABS_MT_POSITION_X);
      note_fake_resolution absinfo;;
      modify_device (set_absinfo_x (Some (fixed_resolution absinfo)));;
      absinfo ← defined (libevdev_get_abs_info evdev ABS_MT_POSITION_Y);
      note_fake_resolution absinfo;;
      modify_device (set_absinfo_y (Some (fixed_resolution absinfo)));;
      modify_device (set_is_mt true);;
      slots_info ←
        (if negb (libevdev_has_event_code evdev EV_ABS ABS_MT_SLOT) then
           modify_device (set_mtdev (mtdev_new_open env));;
           match mtdev_new_open env with
           | None => mret None
           | Some caps =>
               let num_slots := mtdev_slot_maximum caps in
               if (mtdev_slot_minimum caps <? 0) || (num_slots <=? 0) then
                 mret None
               else mret (Some (num_slots, mtdev_slot_value caps))
           end
         else
           mret (Some (libevdev_get_num_slots evdev,
                       libevdev_get_current_slot evdev)));
      match slots_info with
      | None => mret None
      | Some (num_slots, active_slot) =>
          (* calloc(num_slots, sizeof(struct mt_slot)): a negative count is
             a huge size_t and cannot be served *)
          if negb (calloc_slots env) || (num_slots <? 0) then mret None
          else
            modify_device
              (set_mt_slots (replicate (Z.to_nat num_slots) (mk_mt_slot (-1) 0 0)));;
            modify_device (set_mt_slot active_slot);;
            mret (Some (has_abs, true, true))
      end
    else mret (Some (has_abs, false, false)).

Definition evdev_configure_device (evdev : libevdev) (env : environment)
    : M Z :=
  abs ← configure_absolute evdev env;
  match abs with
  | None => mret (-1)
  | Some (has_abs, has_mt, has_touch) =>
    let has_rel :=
      libevdev_has_event_code evdev EV_REL REL_X ||
      libevdev_has_event_code evdev EV_REL REL_Y in
    if libevdev_has_event_type evdev EV_KEY &&
       (negb (libevdev_has_property evdev INPUT_PROP_DIRECT) &&
        libevdev_has_event_code evdev EV_KEY BTN_TOOL_FINGER &&
        negb (libevdev_has_event_code evdev EV_KEY BTN_TOOL_PEN) &&
        (has_abs || has_mt))
    then
      d ← get_device;
      match evdev_mt_touchpad_create env d with
      | Some d' =>
          modify_device (λ _, set_dispatch (Some touchpad_dispatch) d');;
          mret 0
      | None => mret (-1)
      end
    else
      let '(has_keyboard, has_button) :=
        if libevdev_has_event_type evdev EV_KEY then scan_key_codes evdev
        else (false, false) in
      let has_touch :=
        has_touch ||
        (libevdev_has_event_type evdev EV_KEY &&
         libevdev_has_event_code evdev EV_KEY BTN_TOUCH) in
      let has_keyboard :=
        has_keyboard || libevdev_has_event_type evdev EV_LED in
      rc ←
        (if (has_abs || has_rel) && has_button then
           rc ← configure_pointer_acceleration env;
           if rc =? -1 then mret (-1)
           else
             modify_device
               (λ d, set_seat_caps (Z.lor (seat_caps d) EVDEV_DEVICE_POINTER) d);;
             mret 0
         else mret 0);
      if rc =? -1 then mret (-1)
      else
        (if has_keyboard then
           modify_device
             (λ d, set_seat_caps (Z.lor (seat_caps d) EVDEV_DEVICE_KEYBOARD) d)
         else mret tt);;
        (if has_touch && negb has_button then
           modify_device
             (λ d, set_seat_caps (Z.lor (seat_caps d) EVDEV_DEVICE_TOUCH) d)
         else mret tt);;
        mret 0
  end.

(** What evdev_device_create returns: the device, or one of the two
    sentinels. *)
Inductive created :=
| Created
| EVDEV_UNHANDLED_DEVICE
| NULL.

(** The device as zalloc returns it. *)
Definition zeroed_device : evdev_device :=
  let zero := mk_matrix float_zero float_zero float_zero
                        float_zero float_zero float_zero
                        float_zero float_zero float_zero in
  {| dispatch := None; fd := 0; absinfo_x := None; absinfo_y := None;
     fake_resolution := false; abs_x := 0; abs_y := 0; abs_seat_slot := 0;
     apply_calibration := false; calibration := zero;
     default_calibration := zero; usermatrix := zero;
     mt_slot := 0; mt_slots := []; mtdev := None; rel_dx := 0; rel_dy := 0;
     pending_event := EVDEV_NONE; seat_caps := 0; is_mt := false;
     pointer_filter := None; key_mask := 0;
     key_count := replicate (Z.to_nat KEY_CNT) 0 |}.

(** The assignments of evdev_device_create between libevdev_new_from_fd
    and evdev_configure_device. *)
Definition initialised_device (fd : Z) : evdev_device :=
  set_default_calibration matrix_init_identity
    (set_usermatrix matrix_init_identity
      (set_calibration matrix_init_identity
        (set_pending_event EVDEV_NONE
          (set_fd fd
            (set_dispatch None
              (set_abs_seat_slot (-1)
                (set_rel_dy 0
                  (set_rel_dx 0
                    (set_mtdev None
                      (set_is_mt false
                        (set_seat_caps 0 zeroed_device))))))))))).

Definition fallback_dispatch_create (env : environment)
    : option evdev_dispatch :=
  if malloc_dispatch env then Some fallback_dispatch else None.

(** The created device is the device of the final state when the result is
    [Created]; on the other results it has been destroyed. This is the
    function as far as it sets up the device. Its calls into the library
    around the device are not modelled here: libinput_device_init and
    libinput_seat_ref after zalloc, close_restricted and
    evdev_device_destroy (which gives the reference to the seat back) on
    the error paths, and notify_added_device for a device that is returned;
    the insertion of that device into the list of its seat is modelled on
    the store of list structs, as [devices_list_insert]. *)
Definition evdev_device_create (env : environment) : M created :=
  let fd := open_restricted env in
  if fd <? 0 then mret NULL
  else if negb (zalloc_device env) then mret NULL
  else
    match libevdev_new_from_fd env with
    | None => mret NULL
    | Some evdev =>
        modify_device (λ _, initialised_device fd);;
        rc ← evdev_configure_device evdev env;
        if rc =? -1 then mret NULL
        else
          d ← get_device;
          if seat_caps d =? 0 then mret EVDEV_UNHANDLED_DEVICE
          else
            (* If the dispatch was not set up use the fallback. *)
            (match dispatch d with
             | None => modify_device (set_dispatch (fallback_dispatch_create env))
             | Some _ => mret tt
             end);;
            d ← get_device;
            match dispatch d with
            | None => mret NULL
            | Some _ =>
                if negb (libinput_add_fd env) then mret NULL
                else mret Created
            end
    end.

End Evdev.

(** ** A concrete environment

    Exact rational arithmetic in place of the two floating-point formats,
    the matrix helpers written over it, and a filter that passes every
    motion through. It makes the model run on concrete inputs. *)
Module Exact.

#[global] Instance Q_eq_dec : EqDecision Q.
Proof. solve_decision. Defined.

#[global] Instance exact_floating_point : FloatingPoint := {|
  float := Q;
  float_zero := 0%Q;
  float_one := 1%Q;
  double := Q;
  double_of_int := inject_Z;
  double_is_zero := λ q, Qnum q =? 0;
  double_div := Qdiv;
  double_one := 1%Q
|}.

Definition dot3 (a1 a2 a3 b1 b2 b3 : Q) : Q :=
  Qred (a1 * b1 + a2 * b2 + a3 * b3)%Q.

Definition exact_matrix_mult (a b : matrix) : matrix :=
  mk_matrix
    (dot3 (val00 a) (val01 a) (val02 a) (val00 b) (val10 b) (val20 b))
    (dot3 (val00 a) (val01 a) (val02 a) (val01 b) (val11 b) (val21 b))
    (dot3 (val00 a) (val01 a) (val02 a) (val02 b) (val12 b) (val22 b))
    (dot3 (val10 a) (val11 a) (val12 a) (val00 b) (val10 b) (val20 b))
    (dot3 (val10 a) (val11 a) (val12 a) (val01 b) (val11 b) (val21 b))
    (dot3 (val10 a) (val11 a) (val12 a) (val02 b) (val12 b) (val22 b))
    (dot3 (val20 a) (val21 a) (val22 a) (val00 b) (val10 b) (val20 b))
    (dot3 (val20 a) (val21 a) (val22 a) (val01 b) (val11 b) (val21 b))
    (dot3 (val20 a) (val21 a) (val22 a) (val02 b) (val12 b) (val22 b)).

(** Conversion to [int] truncates toward zero. *)
Definition truncate (q : Q) : Z := Z.quot (Qnum q) (Z.pos (Qden q)).

#[global] Instance exact_collaborators : Collaborators := {|
  matrix_mult := exact_matrix_mult;
  matrix_init_scale := λ sx sy : Q,
    mk_matrix sx 0%Q 0%Q  0%Q sy 0%Q  0%Q 0%Q 1%Q;
  matrix_init_translate := λ x y : Q,
    mk_matrix 1%Q 0%Q x  0%Q 1%Q y  0%Q 0%Q 1%Q;
  matrix_mult_vec := λ m x y,
    (truncate (dot3 (inject_Z x) (inject_Z y) 1 (val00 m) (val01 m) (val02 m)),
     truncate (dot3 (inject_Z x) (inject_Z y) 1 (val10 m) (val11 m) (val12 m)));
  motion_filter := unit;
  filter_dispatch := λ filter motion time, (motion, filter)
|}.

End Exact.

(** ** Device removal (src/evdev.c, release_pressed_keys) *)
Section Removal.
Context `{Collaborators}.

(** struct timespec, as clock_gettime fills it. *)
Record timespec := mk_timespec {
  tv_sec : Z;    (* time_t *)
  tv_nsec : Z    (* long *)
}.

Definition UINT64_MOD : Z := 2 ^ 64.

Definition to_uint64 (z : Z) : Z := z mod UINT64_MOD.

(** [ts.tv_sec * 1000ULL + ts.tv_nsec / 1000000]: the product and the sum
    are taken in unsigned long long, the quotient in long. *)
Definition timespec_to_ms (ts : timespec) : Z :=
  to_uint64 (to_uint64 (to_uint64 (tv_sec ts) * 1000)
             + to_uint64 (Z.quot (tv_nsec ts) 1000000)).

(** The body of the loop of release_pressed_keys, for one code. The
    notification entry points are called directly: the press counts stay
    as they are. *)
Definition release_pressed_key (time code : Z) : M unit :=
  count ← get_key_down_count code;
  if 0 <? count then
    match get_key_type code with
    | EVDEV_KEY_TYPE_NONE => mret tt
    | EVDEV_KEY_TYPE_KEY =>
        notify (keyboard_notify_key time code LIBINPUT_KEY_STATE_RELEASED)
    | EVDEV_KEY_TYPE_BUTTON =>
        notify (pointer_notify_button time code LIBINPUT_BUTTON_STATE_RELEASED)
    end
  else mret tt.

(** [for (code = first; ...; code++) body(code)] over the codes of the
    list. *)
Fixpoint for_each_code (codes : list Z) (body : Z → M unit) : M unit :=
  match codes with
  | [] => mret tt
  | code :: codes' => body code;; for_each_code codes' body
  end.

(** [clock] is what clock_gettime(CLOCK_MONOTONIC, &ts) gives: [None] when
    it fails. *)
Definition release_pressed_keys (clock : option timespec) : M unit :=
  match clock with
  | None => log_bug_libinput
  | Some ts =>
      for_each_code (seqZ 0 KEY_CNT) (release_pressed_key (timespec_to_ms ts))
  end.

End Removal.

(** * The list of libinput-util.c

    A doubly-linked list threaded through [struct list] members. The
    structs live in a store from addresses to nodes; a pointer is an
    address or NULL, and a read or a write through a pointer that is NULL or
    addresses no struct is undefined. *)
Module LibinputUtil.

(** struct list; a pointer is an address, or None for NULL. *)
Record list_t := mk_list {
  prev : option Z;
  next : option Z
}.

Definition set_prev (v : option Z) (l : list_t) : list_t := mk_list v (next l).
Definition set_next (v : option Z) (l : list_t) : list_t := mk_list (prev l) v.

(** The struct [*p], and the assignment [p->field = v]. *)
Definition deref (p : option Z) (h : gmap Z list_t) : option list_t :=
  a ← p; h !! a.

Definition assign (p : option Z) (f : list_t → list_t) (h : gmap Z list_t)
    : option (gmap Z list_t) :=
  a ← p; l ← h !! a; Some (<[a := f l]> h).

Definition list_init (list : option Z) (h : gmap Z list_t)
    : option (gmap Z list_t) :=
  h ← assign list (set_prev list) h;
  assign list (set_next list) h.

Definition list_insert (list elm : option Z) (h : gmap Z list_t)
    : option (gmap Z list_t) :=
  h ← assign elm (set_prev list) h;
  l ← deref list h;
  h ← assign elm (set_next (next l)) h;
  h ← assign list (set_next elm) h;
  e ← deref elm h;
  assign (next e) (set_prev elm) h.

Definition list_remove (elm : option Z) (h : gmap Z list_t)
    : option (gmap Z list_t) :=
  e ← deref elm h;
  h ← assign (prev e) (set_next (next e)) h;
  e ← deref elm h;
  h ← assign (next e) (set_prev (prev e)) h;
  h ← assign elm (set_next None) h;
  assign elm (set_prev None) h.

Definition list_empty (list : option Z) (h : gmap Z list_t) : option bool :=
  l ← deref list h;
  Some (bool_decide (next l = list)).

End LibinputUtil.


(** ** Vocabulary of the statements *)

(** Unfolds the operations of the monad. *)
Ltac unfold_M :=
  unfold assert, defined, requires, log_bug_kernel,
    log_bug_libinput, get_device, get_seat, modify_device, put_slot_map,
    notify, mbind, mret, M_bind, M_ret, bind, ret, stop.

Section Vocabulary.
Context `{Collaborators}.

(** A press or release update of a key or button count, as the two notify
    wrappers receive it. *)
Inductive key_update :=
| update_key (key : Z) (st : libinput_key_state)
| update_button (button : Z) (st : libinput_button_state).

Definition update_code (u : key_update) : Z :=
  match u with
  | update_key key _ => key
  | update_button button _ => button
  end.

Definition apply_update (time : Z) (u : key_update) : M unit :=
  match u with
  | update_key key st => evdev_keyboard_notify_key time key st
  | update_button button st => evdev_pointer_notify_button time button st
  end.

Fixpoint apply_updates (us : list (Z * key_update)) : M unit :=
  match us with
  | [] => mret tt
  | (time, u) :: us' => apply_update time u;; apply_updates us'
  end.

Definition pressed_notification (time : Z) (u : key_update) : notification :=
  match u with
  | update_key key _ => keyboard_notify_key time key LIBINPUT_KEY_STATE_PRESSED
  | update_button button _ =>
      pointer_notify_button time button LIBINPUT_BUTTON_STATE_PRESSED
  end.

Definition released_notification (time : Z) (u : key_update) : notification :=
  match u with
  | update_key key _ => keyboard_notify_key time key LIBINPUT_KEY_STATE_RELEASED
  | update_button button _ =>
      pointer_notify_button time button LIBINPUT_BUTTON_STATE_RELEASED
  end.

(** What a run gave: its value when it returned, and the state and the
    notifications it left (the given state and none when it stopped). *)
Definition value_of {A} (r : outcome A) : option A :=
  match r with
  | Returns a _ _ => Some a
  | Stops _ => None
  end.

Definition state_of {A} (r : outcome A) (s : state) : state :=
  match r with
  | Returns _ s' _ => s'
  | Stops _ => s
  end.

Definition output_of {A} (r : outcome A) : list notification :=
  match r with
  | Returns _ _ o => o
  | Stops _ => []
  end.

Definition count_at (s : state) (code : Z) : option Z :=
  array_get (key_count (device s)) code.

(** Every press count is a value of its type, uint8_t. *)
Definition counts_in_uint8 (s : state) : Prop :=
  Forall (λ n, 0 ≤ n < UINT8_MOD) (key_count (device s)).

Definition is_press (u : key_update) : bool :=
  match u with
  | update_key _ LIBINPUT_KEY_STATE_PRESSED
  | update_button _ LIBINPUT_BUTTON_STATE_PRESSED => true
  | _ => false
  end.

(** The state with the press count of [code] set to [v]. *)
Definition with_key_count (code v : Z) (s : state) : state :=
  mk_state
    (set_key_count (array_set (key_count (device s)) code v) (device s))
    (seat s).

(** Every seat slot is taken, and [k] is the lowest free seat slot, in the
    slot map [m] of 32 bits. *)
Definition all_slots_busy (m : Z) : Prop :=
  ∀ j, 0 ≤ j < 32 → Z.testbit m j = true.

Definition lowest_free_slot (m k : Z) : Prop :=
  0 ≤ k < 32 ∧ Z.testbit m k = false ∧
  ∀ j, 0 ≤ j < k → Z.testbit m j = true.

(** The events of a device in the order it reads them, each with its
    time in milliseconds, through the fallback dispatcher. *)
Fixpoint process_events (events : list (input_event * Z)) : M unit :=
  match events with
  | [] => mret tt
  | (event, time) :: events' =>
      fallback_process event time;; process_events events'
  end.

(** Every notification of every returning run of [m] satisfies [P]. *)
Definition emits (P : notification → Prop) {A} (m : M A) : Prop :=
  ∀ s a s' o, m s = Returns a s' o → Forall P o.

(** The identity matrix as six floats. *)
Definition identity6 : farray6 :=
  mk_farray6 float_one float_zero float_zero float_zero float_one float_zero.

(** What a device advertises, as evdev_configure_device probes it: the
    flags has_abs, has_mt, has_rel, has_button, has_keyboard and has_touch
    of the source, and the condition under which the touchpad dispatcher
    takes the device. *)
Definition advertises_key_class
    (evdev : libevdev) (class : evdev_key_type) : bool :=
  libevdev_has_event_type evdev EV_KEY &&
  existsb
    (λ code, libevdev_has_event_code evdev EV_KEY code &&
             bool_decide (get_key_type code = class))
    (seqZ 0 KEY_MAX).

Definition probed_has_abs (evdev : libevdev) : bool :=
  libevdev_has_event_type evdev EV_ABS &&
  (match libevdev_get_abs_info evdev ABS_X with Some _ => true | None => false end
   || match libevdev_get_abs_info evdev ABS_Y with
      | Some _ => true
      | None => false
      end).

Definition probed_has_mt (evdev : libevdev) : bool :=
  libevdev_has_event_type evdev EV_ABS &&
  (libevdev_has_event_code evdev EV_ABS ABS_MT_POSITION_X &&
   libevdev_has_event_code evdev EV_ABS ABS_MT_POSITION_Y).

Definition probed_has_rel (evdev : libevdev) : bool :=
  libevdev_has_event_code evdev EV_REL REL_X ||
  libevdev_has_event_code evdev EV_REL REL_Y.

Definition probed_has_button (evdev : libevdev) : bool :=
  advertises_key_class evdev EVDEV_KEY_TYPE_BUTTON.

Definition probed_has_keyboard (evdev : libevdev) : bool :=
  advertises_key_class evdev EVDEV_KEY_TYPE_KEY ||
  libevdev_has_event_type evdev EV_LED.

Definition probed_has_touch (evdev : libevdev) : bool :=
  probed_has_mt evdev ||
  (libevdev_has_event_type evdev EV_KEY &&
   libevdev_has_event_code evdev EV_KEY BTN_TOUCH).

Definition selects_touchpad (evdev : libevdev) : bool :=
  libevdev_has_event_type evdev EV_KEY &&
  (negb (libevdev_has_property evdev INPUT_PROP_DIRECT) &&
   libevdev_has_event_code evdev EV_KEY BTN_TOOL_FINGER &&
   negb (libevdev_has_event_code evdev EV_KEY BTN_TOOL_PEN) &&
   (probed_has_abs evdev || probed_has_mt evdev)).

(** Every returning run of [m] returns a value that satisfies [Q]. *)
Definition yields {A} (Q : A → Prop) (m : M A) : Prop :=
  ∀ s a s' o, m s = Returns a s' o → Q a.

(** [c | cap] when [b] holds, as in [if (b) seat_caps |= cap]. *)
Definition or_if (b : bool) (cap c : Z) : Z := if b then Z.lor c cap else c.

(** Every returning run of [m] leaves the observation [f] of the state
    as it was. *)
Definition preserves {X} (f : state → X) {A} (m : M A) : Prop :=
  ∀ s a s' o, m s = Returns a s' o → f s' = f s.

Definition is_key_notification (n : notification) : bool :=
  match n with
  | keyboard_notify_key _ _ _ | pointer_notify_button _ _ _ => true
  | _ => false
  end.

(** The pending events for which evdev_need_touch_frame asks for a frame
    on a TOUCH-capable device. *)
Definition pending_is_absolute (pending : evdev_event_type) : bool :=
  match pending with
  | EVDEV_NONE | EVDEV_RELATIVE_MOTION => false
  | _ => true
  end.

(** What the flush of a device in state [s] may notify: never a frame, and
    a touch notification only on a TOUCH-capable device with an absolute
    event pending. *)
Definition flush_notification (s : state) (n : notification) : Prop :=
  is_frame_notification n = false ∧
  (is_touch_notification n = true →
   has_seat_cap (device s) EVDEV_DEVICE_TOUCH = true ∧
   pending_is_absolute (pending_event (device s)) = true).

(** The states in which every C expression of the flush is defined: the
    acceleration filter exists when a relative motion is pending; on a
    TOUCH device the current slot lies in the slot table when an MT event
    is pending, and a seat slot to release is -1 or a bit index of the slot
    map. *)
Definition flush_defined (s : state) : bool :=
  let d := device s in
  let touch := has_seat_cap d EVDEV_DEVICE_TOUCH in
  let releasable (seat_slot : Z) := (-1 <=? seat_slot) && (seat_slot <? 32) in
  match pending_event d with
  | EVDEV_RELATIVE_MOTION =>
      match pointer_filter d with Some _ => true | None => false end
  | EVDEV_ABSOLUTE_MT_DOWN | EVDEV_ABSOLUTE_MT_MOTION =>
      negb touch ||
      match array_get (mt_slots d) (mt_slot d) with
      | Some _ => true
      | None => false
      end
  | EVDEV_ABSOLUTE_MT_UP =>
      negb touch ||
      match array_get (mt_slots d) (mt_slot d) with
      | Some sl => releasable (slot_seat_slot sl)
      | None => false
      end
  | EVDEV_ABSOLUTE_TOUCH_UP => negb touch || releasable (abs_seat_slot d)
  | _ => true
  end.

(** What a run that flushes the pending event of state [s] comes to: it
    returns exactly when the flush is defined in [s], and then no event is
    pending; otherwise it is undefined. *)
Definition flushed (s : state) (r : outcome unit) : Prop :=
  match r with
  | Returns _ s' _ =>
      flush_defined s = true ∧ pending_event (device s') = EVDEV_NONE
  | Stops f => flush_defined s = false ∧ f = UndefinedBehaviour
  end.

(** The coordinates transform_absolute gives on device [d]. *)
Definition calibrated (d : evdev_device) (x y : Z) : Z * Z :=
  if apply_calibration d then matrix_mult_vec (calibration d) x y else (x, y).

End Vocabulary.

(** ** Sample inputs, in the concrete environment *)
Module Sample.

Definition code_in (codes : list Z) (code : Z) : bool :=
  bool_decide (code ∈ codes).

(** An environment in which no allocation fails; the touchpad dispatcher
    is not available in it. *)
Definition no_failure (evdev : libevdev) : environment :=
  {| open_restricted := 3;
     zalloc_device := true;
     libevdev_new_from_fd := Some evdev;
     mtdev_new_open := None;
     calloc_slots := true;
     create_pointer_accelator_filter := Some tt;
     evdev_mt_touchpad_create := λ _, None;
     malloc_dispatch := true;
     libinput_add_fd := true |}.

(** The state evdev_device_create starts from: no device yet, and a seat
    with no slot in use. *)
Definition boot : state := mk_state zeroed_device (mk_seat 0).

Definition create (env : environment) : state :=
  state_of (evdev_device_create env boot) boot.

(** A multi-touch touchscreen with ten slots (the device of
    test/litest-device-calibrated-touchscreen.c). *)
Definition touchscreen_evdev : libevdev :=
  {| libevdev_has_event_type := code_in [EV_SYN; EV_KEY; EV_ABS];
     libevdev_has_event_code := λ type code,
       if type =? EV_ABS then
         code_in [ABS_X; ABS_Y; ABS_MT_SLOT; ABS_MT_POSITION_X;
                  ABS_MT_POSITION_Y; ABS_MT_TRACKING_ID] code
       else if type =? EV_KEY then code_in [BTN_TOUCH] code
       else false;
     libevdev_has_property := code_in [INPUT_PROP_DIRECT];
     libevdev_get_abs_info := λ code,
       if code_in [ABS_X; ABS_MT_POSITION_X] code then
         Some (mk_absinfo 0 1500 0)
       else if code_in [ABS_Y; ABS_MT_POSITION_Y] code then
         Some (mk_absinfo 0 2500 0)
       else None;
     libevdev_get_num_slots := 10;
     libevdev_get_current_slot := 0 |}.

Definition touchscreen : state := create (no_failure touchscreen_evdev).

(** The same touchscreen with a button, BTN_LEFT = 0x110. *)
Definition button_screen_evdev : libevdev :=
  {| libevdev_has_event_type := code_in [EV_SYN; EV_KEY; EV_ABS];
     libevdev_has_event_code := λ type code,
       if type =? EV_KEY then code_in [BTN_TOUCH; 0x110] code
       else libevdev_has_event_code touchscreen_evdev type code;
     libevdev_has_property := code_in [INPUT_PROP_DIRECT];
     libevdev_get_abs_info := libevdev_get_abs_info touchscreen_evdev;
     libevdev_get_num_slots := 10;
     libevdev_get_current_slot := 0 |}.

Definition button_screen : state := create (no_failure button_screen_evdev).

(** A keyboard with a pointing stick: the keys KEY_ESC .. KEY_MICMUTE, the
    three lock LEDs, REL_X, REL_Y and BTN_LEFT. *)
Definition keyboard_mouse_evdev : libevdev :=
  {| libevdev_has_event_type := code_in [EV_SYN; EV_KEY; EV_REL; EV_LED];
     libevdev_has_event_code := λ type code,
       if type =? EV_KEY then
         (KEY_ESC <=? code) && (code <=? KEY_MICMUTE) || (code =? 0x110)
       else if type =? EV_REL then code_in [REL_X; REL_Y] code
       else if type =? EV_LED then
         code_in [LED_NUML; LED_CAPSL; LED_SCROLLL] code
       else false;
     libevdev_has_property := λ _, false;
     libevdev_get_abs_info := λ _, None;
     libevdev_get_num_slots := -1;
     libevdev_get_current_slot := -1 |}.

Definition keyboard_mouse : state := create (no_failure keyboard_mouse_evdev).

(** A device that advertises nothing but EV_SYN. *)
Definition bare_evdev : libevdev :=
  {| libevdev_has_event_type := code_in [EV_SYN];
     libevdev_has_event_code := λ _ _, false;
     libevdev_has_property := λ _, false;
     libevdev_get_abs_info := λ _, None;
     libevdev_get_num_slots := -1;
     libevdev_get_current_slot := -1 |}.

(** The environment in which only the creation of the acceleration filter
    fails. *)
Definition no_filter (evdev : libevdev) : environment :=
  {| open_restricted := 3;
     zalloc_device := true;
     libevdev_new_from_fd := Some evdev;
     mtdev_new_open := None;
     calloc_slots := true;
     create_pointer_accelator_filter := None;
     evdev_mt_touchpad_create := λ _, None;
     malloc_dispatch := true;
     libinput_add_fd := true |}.

(** The device evdev_device_create hands to evdev_configure_device. *)
Definition initialised : state := mk_state (initialised_device 3) (mk_seat 0).

(** The user calibration of the litest device, 1.2 3.4 5.6 7.8 9.10 11.12. *)
Definition user_calibration : farray6 :=
  mk_farray6 (6 # 5) (17 # 5) (28 # 5) (39 # 5) (91 # 10) (278 # 25).

Definition calibrated : state :=
  state_of (evdev_calibration_set_matrix user_calibration touchscreen)
    touchscreen.

Definition calibration_reset : state :=
  state_of (evdev_calibration_set_matrix identity6 calibrated) calibrated.

Definition abs_event (code value : Z) : input_event :=
  mk_input_event EV_ABS code value.

Definition syn_report : input_event := mk_input_event EV_SYN SYN_REPORT 0.

(** The state a run of the events leaves. *)
Definition after (events : list (input_event * Z)) (s : state) : state :=
  state_of (process_events events s) s.

Definition with_slot_map (m : Z) (s : state) : state :=
  mk_state (device s) (mk_seat m).

(** The touchscreen after the coordinate of a contact that was never put
    down. *)
Definition motion_without_contact : state :=
  after [(abs_event ABS_MT_POSITION_X 100, 4)] touchscreen.

(** The touchscreen with a touch-down pending in slot 0, at (100, 200), on
    a seat where other devices hold the seat slots 0 and 2. *)
Definition touch_down_pending : state :=
  with_slot_map 5
    (after [(abs_event ABS_MT_TRACKING_ID 77, 1);
            (abs_event ABS_MT_POSITION_X 100, 1);
            (abs_event ABS_MT_POSITION_Y 200, 1)] touchscreen).

(** The touchscreen with a button after a new tracking id in slot 0. *)
Definition button_screen_down_pending : state :=
  after [(abs_event ABS_MT_TRACKING_ID 7, 4)] button_screen.

(** On the touchscreen: a contact goes down in slot 0 and takes seat slot
    0; then a second tracking id arrives for the same slot. *)
Definition repeated_touch_down : list (input_event * Z) :=
  [(abs_event ABS_MT_TRACKING_ID 7, 4);
   (syn_report, 4);
   (abs_event ABS_MT_TRACKING_ID 8, 5)].

Definition touch_down_repeated : state := after repeated_touch_down touchscreen.

(** The keyboard with pointing stick after the stick moved by 3. *)
Definition stick_moved : state :=
  after [(mk_input_event EV_REL REL_X 3, 4)] keyboard_mouse.

(** The release of key 30 (KEY_A), which is not down. *)
Definition key_30_released : input_event := mk_input_event EV_KEY 30 0.

(** Key 30 goes down at time 10 and up at time 20. *)
Definition key_30_press : list (Z * key_update) :=
  [(10, update_key 30 LIBINPUT_KEY_STATE_PRESSED)].

Definition key_30_release : key_update :=
  update_key 30 LIBINPUT_KEY_STATE_RELEASED.

Definition key_30_down : state :=
  state_of (apply_updates key_30_press keyboard_mouse) keyboard_mouse.

End Sample.

(** ** Vocabulary of the statements about event sequences and removal *)
Section Sequences.
Context `{Collaborators}.

(** A run of [m] stops on undefined behaviour only: no assertion of [m]
    fails, in any state. *)
Definition never_aborts {A} (m : M A) : Prop :=
  ∀ s f, m s = Stops f → f = UndefinedBehaviour.

(** The run failed no assertion: it returned, in a state that satisfies
    [P], or it stopped on undefined behaviour. *)
Definition returns_in (P : state → Prop) {A} (r : outcome A) : Prop :=
  match r with
  | Returns _ s' _ => P s'
  | Stops f => f = UndefinedBehaviour
  end.

(** Every returning run of [m] from a state that satisfies [I] ends in a
    state that satisfies [I]. *)
Definition maintains (I : state → Prop) {A} (m : M A) : Prop :=
  ∀ s a s' o, I s → m s = Returns a s' o → I s'.

(** No axis range the device stores has resolution 0. *)
Definition resolutions_usable (s : state) : Prop :=
  (∀ a, absinfo_x (device s) = Some a → resolution a ≠ 0) ∧
  (∀ a, absinfo_y (device s) = Some a → resolution a ≠ 0).

(** Every returning run of [m] leaves the fake-resolution flag set when
    it was set or [b] holds, and clear otherwise. *)
Definition raises_fake_resolution (b : bool) {A} (m : M A) : Prop :=
  ∀ s a s' o,
    m s = Returns a s' o →
    fake_resolution (device s') = fake_resolution (device s) || b.

(** The kernel reports resolution 0 for the axis; and it does so for one
    of the axes evdev_configure_device consults: ABS_X and ABS_Y when the
    device has EV_ABS, and the two MT position axes when it has both. *)
Definition reports_no_resolution (evdev : libevdev) (axis : Z) : bool :=
  match libevdev_get_abs_info evdev axis with
  | Some a => resolution a =? 0
  | None => false
  end.

Definition probed_fake_resolution (evdev : libevdev) : bool :=
  libevdev_has_event_type evdev EV_ABS &&
  (reports_no_resolution evdev ABS_X || reports_no_resolution evdev ABS_Y ||
   (libevdev_has_event_code evdev EV_ABS ABS_MT_POSITION_X &&
    libevdev_has_event_code evdev EV_ABS ABS_MT_POSITION_Y &&
    (reports_no_resolution evdev ABS_MT_POSITION_X ||
     reports_no_resolution evdev ABS_MT_POSITION_Y))).

(** The press or release update an EV_KEY event makes, by the class of its
    code: none for a code that is neither key nor button. *)
Definition key_event_update (e : input_event) : option key_update :=
  match get_key_type (ev_code e) with
  | EVDEV_KEY_TYPE_NONE => None
  | EVDEV_KEY_TYPE_KEY =>
      Some (update_key (ev_code e)
              (if ev_value e =? 0 then LIBINPUT_KEY_STATE_RELEASED
               else LIBINPUT_KEY_STATE_PRESSED))
  | EVDEV_KEY_TYPE_BUTTON =>
      Some (update_button (ev_code e)
              (if ev_value e =? 0 then LIBINPUT_BUTTON_STATE_RELEASED
               else LIBINPUT_BUTTON_STATE_PRESSED))
  end.

(** The release of a key or button whose bit is clear in the bitmap of
    device [d]. *)
Definition release_is_dropped (e : input_event) (d : evdev_device) : bool :=
  (ev_value e =? 0) &&
  negb (bool_decide (get_key_type (ev_code e) = EVDEV_KEY_TYPE_NONE)) &&
  negb (long_bit_is_set (key_mask d) (ev_code e)).

(** An EV_KEY event that reaches the key bitmap: no repeat, and not
    BTN_TOUCH. *)
Definition is_key_event (e : input_event) : bool :=
  (ev_type e =? EV_KEY) && negb (ev_value e =? 2) &&
  negb (ev_code e =? BTN_TOUCH).

(** 1 when [e] is a press that reaches the press count of [code] (an
    EV_KEY event of the code, no repeat and no release), and 0 otherwise;
    and the number of such presses among [events]. *)
Definition press_of (code : Z) (e : input_event) : Z :=
  if is_key_event e && (ev_code e =? code) && negb (ev_value e =? 0)
  then 1 else 0.

Definition presses (code : Z) (events : list (input_event * Z)) : Z :=
  foldr (λ et acc, press_of code et.1 + acc) 0 events.

(** The presses of [events] fit the press counts of [s], which are eight
    bits wide: with the presses of its code among the events, no count
    exceeds 255. *)
Definition presses_fit (events : list (input_event * Z)) (s : state) : Prop :=
  ∀ code n, count_at s code = Some n → n + presses code events ≤ 255.

(** The state with the bit of [code] set as set_key_down sets it. *)
Definition with_key_down (code pressed : Z) (s : state) : state :=
  mk_state
    (set_key_mask (long_set_bit_state (key_mask (device s)) code pressed)
       (device s))
    (seat s).

(** Every key or button code whose bit is set in the bitmap has a positive
    press count, and every press count is a value of uint8_t. *)
Definition keys_consistent (s : state) : Prop :=
  counts_in_uint8 s ∧
  ∀ code n,
    get_key_type code ≠ EVDEV_KEY_TYPE_NONE →
    long_bit_is_set (key_mask (device s)) code = true →
    count_at s code = Some n →
    0 < n.

(** +1 for a PRESSED and -1 for a RELEASED notification of [code], 0 for
    every other notification; and their sum over a list of notifications:
    the number of PRESSED less the number of RELEASED notifications of the
    code. *)
Definition key_edge (code : Z) (n : notification) : Z :=
  match n with
  | keyboard_notify_key _ key st =>
      if key =? code then
        match st with
        | LIBINPUT_KEY_STATE_PRESSED => 1
        | LIBINPUT_KEY_STATE_RELEASED => -1
        end
      else 0
  | pointer_notify_button _ button st =>
      if button =? code then
        match st with
        | LIBINPUT_BUTTON_STATE_PRESSED => 1
        | LIBINPUT_BUTTON_STATE_RELEASED => -1
        end
      else 0
  | _ => 0
  end.

Definition key_balance (code : Z) (o : list notification) : Z :=
  foldr (λ n acc, key_edge code n + acc) 0 o.

(** 1 when the press count says the code is down, else 0. *)
Definition down (count : Z) : Z := if 0 <? count then 1 else 0.

(** A RELEASED notification with the given time: a keyboard notification
    of a key code, or a pointer-button notification of a button code. *)
Definition is_release_at (time : Z) (n : notification) : Prop :=
  match n with
  | keyboard_notify_key t key LIBINPUT_KEY_STATE_RELEASED =>
      t = time ∧ get_key_type key = EVDEV_KEY_TYPE_KEY
  | pointer_notify_button t button LIBINPUT_BUTTON_STATE_RELEASED =>
      t = time ∧ get_key_type button = EVDEV_KEY_TYPE_BUTTON
  | _ => False
  end.

(** The code a key or button notification names. *)
Definition notified_code (n : notification) : option Z :=
  match n with
  | keyboard_notify_key _ key _ => Some key
  | pointer_notify_button _ button _ => Some button
  | _ => None
  end.

(** The keys and buttons that are down by their press counts: the codes
    release_pressed_keys has to release. *)
Definition is_down (s : state) (code : Z) : bool :=
  match count_at s code with
  | Some n =>
      (0 <? n) && negb (bool_decide (get_key_type code = EVDEV_KEY_TYPE_NONE))
  | None => false
  end.

(** The seat slots the contacts of the device hold: that of the single
    contact, then those of the slot table, -1 for a contact that holds
    none. *)
Definition held_seat_slots (s : state) : list Z :=
  abs_seat_slot (device s) :: map slot_seat_slot (mt_slots (device s)).

(** No two contacts hold the same seat slot, and every seat slot a contact
    holds is a bit index of the slot map [m] whose bit is set. *)
Definition slots_consistent (held : list Z) (m : Z) : Prop :=
  (∀ (i j : nat) k, i ≠ j → held !! i = Some k → held !! j = Some k → k = -1) ∧
  (∀ (i : nat) k,
     held !! i = Some k → k ≠ -1 → 0 ≤ k < 32 ∧ Z.testbit m k = true).

Definition seat_slots_consistent (s : state) : Prop :=
  slots_consistent (held_seat_slots s) (slot_map (seat s)).

(** Seat slot [k] is in use on the seat, and not by a contact of this
    device. *)
Definition foreign_seat_slot (held : list Z) (m : Z) (k : Z) : Prop :=
  Z.testbit m k = true ∧ k ∉ held.

(** What one flush does to the seat slots: nothing; or, on a TOUCH device,
    a contact without seat slot takes a free one, or a contact gives its
    seat slot back. *)
Definition slot_step (touch : bool) (held : list Z) (m : Z)
    (held' : list Z) (m' : Z) : Prop :=
  (held' = held ∧ m' = m) ∨
  (touch = true ∧
   ∃ (j : nat) k,
     held !! j = Some (-1) ∧ 0 ≤ k < 32 ∧ Z.testbit m k = false ∧
     held' = <[j := k]> held ∧ m' = Z.lor m (Z.shiftl 1 k)) ∨
  (touch = true ∧
   ∃ (j : nat) k,
     held !! j = Some k ∧ 0 ≤ k < 32 ∧
     held' = <[j := -1]> held ∧ m' = Z.land m (Z.lnot (Z.shiftl 1 k))).

(** The steps of [m] leave the seat slots and the seat alone and notify
    neither a touch nor a frame. *)
Definition quiet {A} (m : M A) : Prop :=
  preserves (λ s, (held_seat_slots s, seat s)) m ∧
  emits (λ n, is_touch_notification n = false ∧
              is_frame_notification n = false) m.

(** The shape of a run of the fallback dispatcher on one event: at most
    one flush, of what was pending on entry, and then steps that leave the
    seat slots alone and notify no touch, and a frame only when
    evdev_need_touch_frame asked for one on entry. *)
Definition flush_then_quiet (time : Z) (s s' : state)
    (o : list notification) : Prop :=
  ∃ s1 o1 o2,
    (evdev_flush_pending_event time s = Returns tt s1 o1 ∨ s1 = s ∧ o1 = []) ∧
    o = o1 ++ o2 ∧
    held_seat_slots s' = held_seat_slots s1 ∧
    seat s' = seat s1 ∧
    Forall (λ n, is_touch_notification n = false ∧
                 (is_frame_notification n = true →
                  evdev_need_touch_frame (device s) = true)) o2.

(** The device has nothing to report and holds nothing: no event is
    pending, no motion is accumulated, no key or button is down by the
    bitmap or by the press counts (an array of KEY_CNT zeros), and no
    contact holds a seat slot. *)
Definition starts_idle (s : state) : Prop :=
  let d := device s in
  pending_event d = EVDEV_NONE ∧
  rel_dx d = 0 ∧ rel_dy d = 0 ∧
  key_mask d = 0 ∧
  key_count d = replicate (Z.to_nat KEY_CNT) 0 ∧
  Forall (λ k, k = -1) (held_seat_slots s).

(** A REL_X or REL_Y event, and the sum of the values of the events of
    one axis. *)
Definition is_relative_motion (e : input_event) : bool :=
  (ev_type e =? EV_REL) && ((ev_code e =? REL_X) || (ev_code e =? REL_Y)).

Definition moved (axis : Z) (events : list (input_event * Z)) : Z :=
  foldr (λ et acc, (if ev_code et.1 =? axis then ev_value et.1 else 0) + acc)
    0 events.

(** What the acceleration filter [f] makes of the motion accumulated over
    the events, at the time of the flush. *)
Definition filtered (f : motion_filter) (events : list (input_event * Z))
    (time : Z) : double * double * motion_filter :=
  filter_dispatch f
    (double_of_int (to_int (moved REL_X events)),
     double_of_int (to_int (moved REL_Y events)))
    time.

(** The time a key or button notification carries, if it is one. *)
Definition key_time (n : notification) : option Z :=
  match n with
  | keyboard_notify_key time _ _ | pointer_notify_button time _ _ => Some time
  | _ => None
  end.

(** What event processing never changes: the capabilities and the
    dispatcher, the axis ranges, the calibration, the descriptor and the
    size of the array of press counts. *)
Definition configuration (s : state) :=
  let d := device s in
  (seat_caps d, is_mt d, dispatch d, fd d, mtdev d,
   (absinfo_x d, absinfo_y d, fake_resolution d),
   (apply_calibration d, calibration d, default_calibration d, usermatrix d),
   length (key_count d)).

End Sequences.

(** ** Sample event sequences *)
Module Scenario.

Definition key_event (code value : Z) : input_event :=
  mk_input_event EV_KEY code value.

(** On the keyboard with pointing stick: key 30 goes down, the kernel
    repeats it, the left button (0x110) goes down, key 30 goes up, and the
    stick moves while the button is held. *)
Definition typing : list (input_event * Z) :=
  [(key_event 30 1, 10); (Sample.syn_report, 10);
   (key_event 30 2, 40);
   (key_event 0x110 1, 50); (Sample.syn_report, 50);
   (key_event 30 0, 60); (Sample.syn_report, 60);
   (mk_input_event EV_REL REL_X 3, 70);
   (mk_input_event EV_REL REL_Y (-2), 70);
   (mk_input_event EV_REL REL_X 4, 70)].

Definition typed : state := Sample.after typing Sample.keyboard_mouse.

(** The stick moves three times within one frame. *)
Definition stick : list (input_event * Z) :=
  [(mk_input_event EV_REL REL_X 3, 70);
   (mk_input_event EV_REL REL_Y (-2), 70);
   (mk_input_event EV_REL REL_X 4, 70)].

(** Two fingers tap the touchscreen: the contacts go down in slots 0 and
    1, move, and go up again. *)
Definition two_finger_tap : list (input_event * Z) :=
  [(Sample.abs_event ABS_MT_SLOT 0, 100);
   (Sample.abs_event ABS_MT_TRACKING_ID 77, 100);
   (Sample.abs_event ABS_MT_POSITION_X 100, 100);
   (Sample.abs_event ABS_MT_POSITION_Y 200, 100);
   (Sample.abs_event ABS_MT_SLOT 1, 100);
   (Sample.abs_event ABS_MT_TRACKING_ID 78, 100);
   (Sample.abs_event ABS_MT_POSITION_X 300, 100);
   (Sample.abs_event ABS_MT_POSITION_Y 400, 100);
   (Sample.syn_report, 100);
   (Sample.abs_event ABS_MT_POSITION_X 310, 110);
   (Sample.syn_report, 110);
   (Sample.abs_event ABS_MT_SLOT 0, 120);
   (Sample.abs_event ABS_MT_TRACKING_ID (-1), 120);
   (Sample.syn_report, 120)].

(** The touchscreen on a seat where other devices hold the seat slots 0
    and 2. *)
Definition shared_seat : state := Sample.with_slot_map 5 Sample.touchscreen.

Definition tapped : state := Sample.after two_finger_tap shared_seat.

(** A single-touch touchscreen: ABS_X, ABS_Y and BTN_TOUCH; on a seat
    where other devices hold the seat slots 0 and 2. *)
Definition single_touch_evdev : libevdev :=
  {| libevdev_has_event_type := Sample.code_in [EV_SYN; EV_KEY; EV_ABS];
     libevdev_has_event_code := λ type code,
       if type =? EV_ABS then Sample.code_in [ABS_X; ABS_Y] code
       else if type =? EV_KEY then Sample.code_in [BTN_TOUCH] code
       else false;
     libevdev_has_property := Sample.code_in [INPUT_PROP_DIRECT];
     libevdev_get_abs_info := λ code,
       if Sample.code_in [ABS_X] code then Some (mk_absinfo 0 1500 10)
       else if Sample.code_in [ABS_Y] code then Some (mk_absinfo 0 2500 10)
       else None;
     libevdev_get_num_slots := -1;
     libevdev_get_current_slot := -1 |}.

Definition single_touch : state :=
  Sample.with_slot_map 5 (Sample.create (Sample.no_failure single_touch_evdev)).

(** The clock at removal: 2 s and 5 ms. *)
Definition removal_time : timespec := mk_timespec 2 5000000.

End Scenario.

(** ** Vocabulary of the statements about the list *)
Module Links.
Import LibinputUtil.

(** [a->next] and [a->prev] in the store [h], when a struct is at [a]. *)
Definition next_of (h : gmap Z list_t) (a : Z) : option Z := l ← h !! a; next l.
Definition prev_of (h : gmap Z list_t) (a : Z) : option Z := l ← h !! a; prev l.

(** The structs at the addresses [nodes] are linked into rings: each has a
    successor and a predecessor among them, it is the predecessor of its
    successor and the successor of its predecessor. *)
Definition linked (h : gmap Z list_t) (nodes : gset Z) : Prop :=
  ∀ a, a ∈ nodes →
    ∃ p n,
      prev_of h a = Some p ∧ next_of h a = Some n ∧
      p ∈ nodes ∧ n ∈ nodes ∧
      next_of h p = Some a ∧ prev_of h n = Some a.

(** A store with a list head at address 1, initialised and empty, and a
    struct at address 2 that is in no list. *)
Definition sample_store : gmap Z list_t :=
  {[ 1 := mk_list (Some 1) (Some 1); 2 := mk_list None None ]}.

(** The same store once the struct at address 2 is in the list. *)
Definition sample_list : gmap Z list_t :=
  {[ 1 := mk_list (Some 2) (Some 2); 2 := mk_list (Some 1) (Some 1) ]}.

End Links.

(** * Properties *)

Section MonadFacts.
Context `{Collaborators}.

Lemma bind_returns {A B} (m : M A) (k : A → M B) s b s2 o :
  (m ≫= k) s = Returns b s2 o →
  ∃ a s1 o1 o2, m s = Returns a s1 o1 ∧ k a s1 = Returns b s2 o2 ∧ o = o1 ++ o2.
Proof.
  unfold mbind, M_bind, bind. intros Hb.
  destruct (m s) as [a s1 o1|f]; [|discriminate].
  destruct (k a s1) as [b' s2' o2|f] eqn:Hk; [|discriminate].
  inversion Hb; subst. by exists a, s1, o1, o2.
Qed.

Lemma outcome_eta {A} (r : outcome A) (a : A) (s : state) :
  value_of r = Some a → r = Returns a (state_of r s) (output_of r).
Proof. destruct r; simpl; [by intros [= ->]|done]. Qed.

Lemma array_get_set_eq {A} (l : list A) i a b :
  array_get l i = Some a → array_get (array_set l i b) i = Some b.
Proof.
  unfold array_get, array_set. destruct (i <? 0); [discriminate|].
  intros Hi. apply list_lookup_insert_eq. by eapply lookup_lt_Some.
Qed.

Lemma array_get_nonneg {A} (l : list A) i a : array_get l i = Some a → 0 ≤ i.
Proof. unfold array_get. destruct (i <? 0) eqn:Hi; [discriminate|lia]. Qed.

End MonadFacts.

Section KeyCounts.
Context `{Collaborators}.

Lemma to_uint8_range z : 0 ≤ to_uint8 z < UINT8_MOD.
Proof. unfold to_uint8. apply Z.mod_pos_bound. by compute. Qed.

Lemma to_uint8_small z : 0 ≤ z < UINT8_MOD → to_uint8 z = z.
Proof. apply Z.mod_small. Qed.

(** What an update of a press count does, in full: the assertions, the
    count stored and the notification. *)
Lemma apply_update_run time u s :
  apply_update time u s =
    if negb (in_key_range (update_code u)) then Stops AssertionFailure
    else
      match count_at s (update_code u) with
      | None => Stops UndefinedBehaviour
      | Some old =>
          if is_press u then
            Returns tt (with_key_count (update_code u) (to_uint8 (old + 1)) s)
              (if to_uint8 (old + 1) =? 1 then [pressed_notification time u]
               else [])
          else if 0 <? old then
            Returns tt (with_key_count (update_code u) (to_uint8 (old - 1)) s)
              (if to_uint8 (old - 1) =? 0 then [released_notification time u]
               else [])
          else Stops AssertionFailure
      end.
Proof.
  unfold count_at, in_key_range, with_key_count.
  destruct u as [code st|code st]; destruct st; simpl;
    unfold evdev_keyboard_notify_key, evdev_pointer_notify_button,
      update_key_down_count; unfold_M;
    destruct ((0 <=? code) && (code <? KEY_CNT)); simpl; try done;
    destruct (array_get (key_count (device s)) code) as [old|]; simpl;
    try done.
  all: try (destruct (0 <? old) eqn:Hold; simpl; [|done]).
  all: repeat match goal with
       | |- context [32 <? ?a] => destruct (32 <? a); simpl
       | |- context [?a =? ?b] => destruct (Z.eqb_spec a b); simpl
       end; first [done | lia].
Qed.

Lemma counts_in_uint8_at s code n :
  counts_in_uint8 s → count_at s code = Some n → 0 ≤ n < UINT8_MOD.
Proof.
  unfold counts_in_uint8, count_at, array_get. intros Hs.
  destruct (code <? 0); [done|]. intros Hn.
  by eapply Forall_lookup_1 in Hs; [|exact Hn].
Qed.

Lemma counts_in_uint8_with_key_count s code v :
  0 ≤ v < UINT8_MOD → counts_in_uint8 s →
  counts_in_uint8 (with_key_count code v s).
Proof.
  unfold counts_in_uint8, with_key_count, array_set. simpl.
  intros Hv Hs. by apply Forall_insert.
Qed.

(** The count an update leaves when it starts from a value of uint8_t:
    a press takes 255 to 0, and a release at 0 fails the assertion. *)
Lemma apply_update_run_uint8 time u s old :
  in_key_range (update_code u) = true →
  count_at s (update_code u) = Some old →
  0 ≤ old < UINT8_MOD →
  apply_update time u s =
    if is_press u then
      Returns tt
        (with_key_count (update_code u) (if old =? 255 then 0 else old + 1) s)
        (if old =? 0 then [pressed_notification time u] else [])
    else if old =? 0 then Stops AssertionFailure
    else
      Returns tt (with_key_count (update_code u) (old - 1) s)
        (if old =? 1 then [released_notification time u] else []).
Proof.
  intros Hrange Hold Hbound. rewrite apply_update_run, Hrange, Hold.
  cbn [negb]. unfold UINT8_MOD in Hbound.
  destruct (is_press u).
  - destruct (Z.eqb_spec old 255) as [->|Hwrap]; [done|].
    rewrite to_uint8_small by (unfold UINT8_MOD; lia).
    by destruct (Z.eqb_spec old 0), (Z.eqb_spec (old + 1) 1); try lia.
  - destruct (Z.eqb_spec old 0) as [->|Hzero]; [done|].
    replace (0 <? old) with true by lia.
    rewrite to_uint8_small by (unfold UINT8_MOD; lia).
    by destruct (Z.eqb_spec old 1), (Z.eqb_spec (old - 1) 0); try lia.
Qed.

Lemma apply_update_uint8 time u s s' o :
  counts_in_uint8 s →
  apply_update time u s = Returns tt s' o →
  counts_in_uint8 s'.
Proof.
  intros Hs. rewrite apply_update_run.
  destruct (in_key_range (update_code u)); [|done]. cbn [negb].
  destruct (count_at s (update_code u)) as [old|]; [|done].
  destruct (is_press u); [|destruct (0 <? old); [|done]].
  all: intros Hr; inversion Hr; subst.
  all: apply counts_in_uint8_with_key_count; [apply to_uint8_range|done].
Qed.

Lemma apply_updates_uint8 us s s' o :
  counts_in_uint8 s →
  apply_updates us s = Returns tt s' o →
  counts_in_uint8 s'.
Proof.
  revert s o. induction us as [|[time u] us IH]; simpl; intros s o Hs Hr.
  - revert Hr. unfold_M. by intros [= <- _].
  - apply bind_returns in Hr as ([] & s1 & o1 & o2 & Hu & Hus & ->).
    eapply IH; [|exact Hus]. by eapply apply_update_uint8.
Qed.

(** C3. Along every sequence of press and release updates of the key and
    button counts, started with every count a value of uint8_t, the type
    of the counts: the count [old] of a code is never negative, and the
    next update of the code takes it to [new], which is old + 1 for a press
    (0 after 255, the counts being eight bits wide) and old - 1 for a
    release, while a release at count 0 fails the assertion of
    update_key_down_count. The update that returns leaves every other
    count and the rest of the state as they were, and it notifies PRESSED
    exactly when the count goes from 0 to 1, RELEASED exactly when it goes
    from 1 to 0, and nothing when the count moves between other values. *)
Theorem key_count_edge_notifications
    (s0 : state) (us : list (Z * key_update)) (s1 : state)
    (o1 : list notification) (time : Z) (u : key_update) (old : Z) :
  counts_in_uint8 s0 →
  apply_updates us s0 = Returns tt s1 o1 →
  in_key_range (update_code u) = true →
  count_at s1 (update_code u) = Some old →
  let new :=
    if is_press u then (if old =? 255 then 0 else old + 1) else old - 1 in
  0 ≤ old ≤ 255 ∧
  apply_update time u s1 =
    if negb (is_press u) && (old =? 0) then Stops AssertionFailure
    else
      Returns tt (with_key_count (update_code u) new s1)
        (if (old =? 0) && (new =? 1) then [pressed_notification time u]
         else if (old =? 1) && (new =? 0)
              then [released_notification time u]
         else []).
Proof.
  intros Hs0 Hus Hrange Hold new.
  pose proof (apply_updates_uint8 _ _ _ _ Hs0 Hus) as Hs1.
  pose proof (counts_in_uint8_at _ _ _ Hs1 Hold) as Hbound.
  rewrite (apply_update_run_uint8 _ _ _ _ Hrange Hold Hbound).
  unfold UINT8_MOD in Hbound. subst new.
  split; [lia|].
  destruct (is_press u); cbn [negb andb].
  - destruct (Z.eqb_spec old 255) as [->|?]; [done|].
    by destruct (Z.eqb_spec old 0), (Z.eqb_spec (old + 1) 1),
      (Z.eqb_spec old 1), (Z.eqb_spec (old + 1) 0); try lia.
  - destruct (Z.eqb_spec old 0) as [->|?]; [done|].
    by destruct (Z.eqb_spec old 1), (Z.eqb_spec (old - 1) 1),
      (Z.eqb_spec (old - 1) 0); try lia.
Qed.

End KeyCounts.

Lemma key_count_edge_notifications_witness :
  0 ≤ 1 ≤ 255 ∧
  apply_update 20 Sample.key_30_release Sample.key_30_down =
    Returns tt (with_key_count 30 0 Sample.key_30_down)
      [released_notification 20 Sample.key_30_release].
Proof.
  exact (key_count_edge_notifications Sample.keyboard_mouse Sample.key_30_press
           Sample.key_30_down
           (output_of (apply_updates Sample.key_30_press Sample.keyboard_mouse))
           20 Sample.key_30_release 1
           ltac:(unfold counts_in_uint8; compute_done)
           (outcome_eta
              (apply_updates Sample.key_30_press Sample.keyboard_mouse) tt
              Sample.keyboard_mouse ltac:(vm_compute; reflexivity))
           ltac:(vm_compute; reflexivity)
           ltac:(vm_compute; reflexivity)).
Defined.

Section Flush.
Context `{Collaborators}.

Lemma bind_get_device {A} (k : evdev_device → M A) s :
  (get_device ≫= k) s = k (device s) s.
Proof. unfold_M. by destruct (k (device s) s). Qed.

Lemma bind_get_seat {A} (k : libinput_seat → M A) s :
  (get_seat ≫= k) s = k (seat s) s.
Proof. unfold_M. by destruct (k (seat s) s). Qed.

Lemma bind_stops {A B} (m : M A) (k : A → M B) s f :
  m s = Stops f → (m ≫= k) s = Stops f.
Proof. unfold_M. by intros ->. Qed.

Lemma bind_step {A B} (m : M A) (k : A → M B) s a s1 o1 :
  m s = Returns a s1 o1 →
  (m ≫= k) s =
    match k a s1 with
    | Returns b s2 o2 => Returns b s2 (o1 ++ o2)
    | Stops f => Stops f
    end.
Proof. unfold_M. by intros ->. Qed.

Lemma then_set_pending_event {A} (m : M A) v s s' o :
  (m;; modify_device (set_pending_event v)) s = Returns tt s' o →
  pending_event (device s') = v ∧ ∃ a s1, m s = Returns a s1 o.
Proof.
  intros Hb. apply bind_returns in Hb as (a & s1 & o1 & o2 & Hm & Hs & ->).
  revert Hs. unfold_M. intros [= <- <-]. rewrite app_nil_r. eauto.
Qed.

Lemma ffs_from_range n i w :
  ffs_from n i w = 0 ∨ i < ffs_from n i w ≤ i + Z.of_nat n.
Proof.
  revert i. induction n as [|n IH]; intros i; simpl; [by left|].
  destruct (Z.testbit w i); [right; lia|].
  destruct (IH (i + 1)) as [->|?]; [by left|right; lia].
Qed.

Lemma ffs_seat_slot w :
  ffs w - 1 = -1 ∨
  (ffs w - 1 =? -1) = false ∧ (0 <=? ffs w - 1) && (ffs w - 1 <? 32) = true.
Proof.
  unfold ffs. destruct (ffs_from_range 32 0 w) as [->|Hrange]; [by left|].
  right. split; [lia|]. apply andb_true_iff. lia.
Qed.

(** The flush returns in every state in which its C expressions are
    defined. *)
Lemma flush_returns time s :
  flush_defined s = true →
  ∃ s' o, evdev_flush_pending_event time s = Returns tt s' o.
Proof.
  unfold flush_defined, evdev_flush_pending_event.
  rewrite bind_get_device, bind_get_seat.
  pose proof (ffs_seat_slot (uint32_not (slot_map (seat s)))) as Hffs.
  destruct (pending_event (device s));
    destruct (has_seat_cap (device s) EVDEV_DEVICE_TOUCH);
    cbn [negb orb]; unfold transform_absolute, shift_one; unfold_M;
    cbn [negb]; intros Hdefined.
  all: repeat match goal with
       | |- context [array_get ?l ?i] => destruct (array_get l i)
       | |- context [pointer_filter ?d] => destruct (pointer_filter d)
       | |- context [filter_dispatch ?f ?m ?t] =>
           destruct (filter_dispatch f m t) as [[? ?] ?]
       end; try done; simpl.
  all: repeat match goal with
       | |- context [ffs ?w - 1] =>
           destruct Hffs as [-> | [-> Hshift]];
           [|simpl in Hshift; try rewrite Hshift]
       | |- context [negb (?a =? ?b)] => destruct (Z.eqb_spec a b); simpl
       | |- context [?a =? -1] => destruct (Z.eqb_spec a (-1)); simpl
       | |- context [double_is_zero ?a && double_is_zero ?b] =>
           destruct (double_is_zero a && double_is_zero b); simpl
       | |- context [has_seat_cap ?d ?c] => destruct (has_seat_cap d c); simpl
       | |- context [apply_calibration ?d] =>
           destruct (apply_calibration d); simpl
       | |- context [matrix_mult_vec ?m ?x ?y] =>
           destruct (matrix_mult_vec m x y); simpl
       end; eauto.
  all: match goal with
       | Hd : (-1 <=? ?x) && (?x <? 32) = true, Hn : ?x ≠ -1 |- _ =>
           replace ((0 <=? x) && (x <? 32)) with true
             by (apply andb_true_iff in Hd; symmetry; apply andb_true_iff; lia)
       end; simpl; eauto.
Qed.


(** In every other state the flush evaluates an expression that the C
    standard gives no meaning. *)
Lemma flush_stops time s :
  flush_defined s = false →
  evdev_flush_pending_event time s = Stops UndefinedBehaviour.
Proof.
  unfold flush_defined, evdev_flush_pending_event.
  rewrite bind_get_device, bind_get_seat.
  destruct (pending_event (device s));
    destruct (has_seat_cap (device s) EVDEV_DEVICE_TOUCH);
    cbn [negb orb]; unfold transform_absolute, shift_one; unfold_M;
    cbn [negb]; intros Hdefined; try done.
  all: repeat match goal with
       | H : context [array_get ?l ?i] |- _ => destruct (array_get l i)
       | H : context [pointer_filter ?d] |- _ => destruct (pointer_filter d)
       end; try done; simpl.
  all: apply andb_false_iff in Hdefined.
  all: match goal with
       | |- context [?x =? -1] =>
           replace (x =? -1) with false by lia;
           replace ((0 <=? x) && (x <? 32)) with false
             by (symmetry; apply andb_false_iff; lia)
       end; done.
Qed.

Lemma flush_pending_none time s s' o :
  evdev_flush_pending_event time s = Returns tt s' o →
  pending_event (device s') = EVDEV_NONE.
Proof.
  unfold evdev_flush_pending_event.
  rewrite bind_get_device, bind_get_seat.
  destruct (pending_event (device s)) eqn:Hp.
  1: { unfold_M. by intros [= <- _]. }
  all: intros Hr; by apply then_set_pending_event in Hr as [? _].
Qed.

(** C4. evdev_flush_pending_event returns in exactly the states in which
    every C expression it evaluates is defined ([flush_defined]: the
    acceleration filter exists when a relative motion is pending, the
    current slot lies in the slot table and a seat slot to release is -1 or
    a bit index when a touch event is pending on a TOUCH device), and
    whatever the pending event was on entry, it is EVDEV_NONE when the
    flush has returned; in the other states the flush is undefined. The
    same holds of the fallback dispatcher processing any EV_SYN event. *)
Theorem flush_leaves_no_pending_event (time : Z) (s : state) :
  flushed s (evdev_flush_pending_event time s) ∧
  ∀ code value : Z,
    flushed s (fallback_process (mk_input_event EV_SYN code value) time s).
Proof.
  assert (Hflush : flushed s (evdev_flush_pending_event time s)).
  { unfold flushed. destruct (flush_defined s) eqn:Hdefined.
    - destruct (flush_returns time s Hdefined) as (s' & o & Hr).
      rewrite Hr. split; [done|]. by eapply flush_pending_none.
    - by rewrite (flush_stops time s Hdefined). }
  split; [exact Hflush|].
  intros code value. unfold flushed, fallback_process in *. cbn [ev_type].
  change (EV_SYN =? EV_REL) with false.
  change (EV_SYN =? EV_ABS) with false.
  change (EV_SYN =? EV_KEY) with false.
  change (EV_SYN =? EV_SYN) with true. cbv iota.
  rewrite bind_get_device.
  destruct (evdev_flush_pending_event time s) as [[] s' o|] eqn:Hr.
  - erewrite bind_step by exact Hr.
    destruct (evdev_need_touch_frame (device s)); unfold_M; eauto.
  - by erewrite bind_stops.
Qed.

Lemma ffs_from_none n i w :
  (∀ j, i ≤ j < i + Z.of_nat n → Z.testbit w j = false) →
  ffs_from n i w = 0.
Proof.
  revert i. induction n as [|n IH]; simpl; intros i Hw; [done|].
  rewrite Hw by lia. apply IH. intros j Hj. apply Hw. lia.
Qed.

Lemma ffs_from_found n i w k :
  i ≤ k < i + Z.of_nat n →
  Z.testbit w k = true →
  (∀ j, i ≤ j < k → Z.testbit w j = false) →
  ffs_from n i w = k + 1.
Proof.
  revert i. induction n as [|n IH]; simpl; intros i Hk Hset Hclear; [lia|].
  destruct (Z.eq_dec i k) as [->|Hne].
  - by rewrite Hset.
  - rewrite Hclear by lia. apply IH; [lia|done|].
    intros j Hj. apply Hclear. lia.
Qed.

Lemma uint32_not_testbit m j :
  0 ≤ j < 32 → Z.testbit (uint32_not m) j = negb (Z.testbit m j).
Proof.
  intros Hj. unfold uint32_not.
  change (UINT32_MOD - 1) with (Z.ones 32).
  rewrite Z.land_spec, Z.lnot_spec, Z.ones_spec_low by lia.
  apply andb_true_r.
Qed.

Lemma ffs_all_slots_busy m : all_slots_busy m → ffs (uint32_not m) - 1 = -1.
Proof.
  intros Hm. unfold ffs. rewrite ffs_from_none; [done|].
  intros j Hj. rewrite uint32_not_testbit by lia. rewrite Hm; [done|lia].
Qed.

Lemma ffs_lowest_free_slot m k :
  lowest_free_slot m k → ffs (uint32_not m) - 1 = k.
Proof.
  intros (Hk & Hfree & Hbusy). unfold ffs.
  rewrite (ffs_from_found _ _ _ k); [lia|lia| |].
  - rewrite uint32_not_testbit by lia. by rewrite Hfree.
  - intros j Hj. rewrite uint32_not_testbit by lia. rewrite Hbusy; [done|lia].
Qed.

(** C5 (amended). On a TOUCH-capable device, flushing a touch-down of a
    contact that holds no seat slot (the current slot of the slot table for
    multi-touch, the device's single contact otherwise) takes the lowest
    clear bit of the seat's slot map: the bit is set, the contact records
    its index and one touch-down is notified with it; when all 32 bits are
    set the contact records -1, the map is unchanged and nothing is
    notified. On a device without the TOUCH capability, and when the
    contact already holds a seat slot, the flush only resets the pending
    event: it takes no seat slot, leaves the slot map and the contact as
    they were, and notifies nothing. *)
Theorem touch_down_acquires_lowest_free_seat_slot (time : Z) (s : state) :
  let d := device s in
  let m := slot_map (seat s) in
  let nothing_acquired :=
    Returns tt (mk_state (set_pending_event EVDEV_NONE d) (seat s)) [] in
  (pending_event d = EVDEV_ABSOLUTE_MT_DOWN →
   (has_seat_cap d EVDEV_DEVICE_TOUCH = false →
    evdev_flush_pending_event time s = nothing_acquired) ∧
   (has_seat_cap d EVDEV_DEVICE_TOUCH = true →
    ∀ sl, array_get (mt_slots d) (mt_slot d) = Some sl →
    (slot_seat_slot sl ≠ -1 →
     evdev_flush_pending_event time s = nothing_acquired) ∧
    (slot_seat_slot sl = -1 →
     (all_slots_busy m →
      evdev_flush_pending_event time s =
        Returns tt
          (mk_state
             (set_pending_event EVDEV_NONE
                (set_mt_slots
                   (array_set (mt_slots d) (mt_slot d)
                      (set_slot_seat_slot (-1) sl)) d))
             (seat s))
          []) ∧
     (∀ k, lowest_free_slot m k →
      evdev_flush_pending_event time s =
        Returns tt
          (mk_state
             (set_pending_event EVDEV_NONE
                (set_mt_slots
                   (array_set (mt_slots d) (mt_slot d)
                      (set_slot_seat_slot k sl)) d))
             (mk_seat (Z.setbit m k)))
          [touch_notify_touch_down time (mt_slot d) k
             (fst (calibrated d (slot_x sl) (slot_y sl)))
             (snd (calibrated d (slot_x sl) (slot_y sl)))])))) ∧
  (pending_event d = EVDEV_ABSOLUTE_TOUCH_DOWN →
   (has_seat_cap d EVDEV_DEVICE_TOUCH = false →
    evdev_flush_pending_event time s = nothing_acquired) ∧
   (has_seat_cap d EVDEV_DEVICE_TOUCH = true →
    (abs_seat_slot d ≠ -1 →
     evdev_flush_pending_event time s = nothing_acquired) ∧
    (abs_seat_slot d = -1 →
     (all_slots_busy m →
      evdev_flush_pending_event time s =
        Returns tt
          (mk_state (set_pending_event EVDEV_NONE (set_abs_seat_slot (-1) d))
             (seat s))
          []) ∧
     (∀ k, lowest_free_slot m k →
      evdev_flush_pending_event time s =
        Returns tt
          (mk_state (set_pending_event EVDEV_NONE (set_abs_seat_slot k d))
             (mk_seat (Z.setbit m k)))
          [touch_notify_touch_down time (-1) k
             (fst (calibrated d (abs_x d) (abs_y d)))
             (snd (calibrated d (abs_x d) (abs_y d)))])))).
Proof.
  intros d m nothing_acquired. subst d m nothing_acquired.
  assert (Hshift : ∀ k, lowest_free_slot (slot_map (seat s)) k →
            (k =? -1) = false ∧ (0 <=? k) && (k <? 32) = true).
  { intros k (Hk & _). split; [lia|]. apply andb_true_iff. lia. }
  split; intros Hp; (split; [intros Htouch|intros Htouch]).
  - unfold evdev_flush_pending_event.
    rewrite bind_get_device, bind_get_seat, Hp, Htouch. by unfold_M.
  - intros sl Hsl. split; [intros Hheld|intros Hnone; split].
    + unfold evdev_flush_pending_event.
      rewrite bind_get_device, bind_get_seat, Hp, Htouch. cbv iota.
      unfold_M. rewrite Hsl.
      by replace (slot_seat_slot sl =? -1) with false by lia.
    + intros Hbusy. unfold evdev_flush_pending_event.
      rewrite bind_get_device, bind_get_seat, Hp, Htouch. cbv iota.
      rewrite (ffs_all_slots_busy _ Hbusy).
      unfold_M. rewrite Hsl, Hnone. reflexivity.
    + intros k Hk. unfold evdev_flush_pending_event.
      rewrite bind_get_device, bind_get_seat, Hp, Htouch. cbv iota.
      rewrite (ffs_lowest_free_slot _ _ Hk).
      destruct (Hshift k Hk) as [Hne Hin].
      unfold transform_absolute, shift_one, calibrated. unfold_M.
      rewrite Hsl, Hnone, Hne, Hin. simpl.
      destruct (apply_calibration (device s)); simpl; [|done].
      by destruct (matrix_mult_vec _ _ _).
  - unfold evdev_flush_pending_event.
    rewrite bind_get_device, bind_get_seat, Hp, Htouch. by unfold_M.
  - split; [intros Hheld|intros Hnone; split].
    + unfold evdev_flush_pending_event.
      rewrite bind_get_device, bind_get_seat, Hp, Htouch. cbv iota.
      unfold_M.
      by replace (abs_seat_slot (device s) =? -1) with false by lia.
    + intros Hbusy. unfold evdev_flush_pending_event.
      rewrite bind_get_device, bind_get_seat, Hp, Htouch. cbv iota.
      rewrite (ffs_all_slots_busy _ Hbusy).
      unfold_M. rewrite Hnone. reflexivity.
    + intros k Hk. unfold evdev_flush_pending_event.
      rewrite bind_get_device, bind_get_seat, Hp, Htouch. cbv iota.
      rewrite (ffs_lowest_free_slot _ _ Hk).
      destruct (Hshift k Hk) as [Hne Hin].
      unfold transform_absolute, shift_one, calibrated. unfold_M.
      rewrite Hnone, Hne, Hin. simpl.
      destruct (apply_calibration (device s)); simpl; [|done].
      by destruct (matrix_mult_vec _ _ _).
Qed.

Lemma emits_bind P {A B} (m : M A) (k : A → M B) :
  emits P m → (∀ a, emits P (k a)) → emits P (m ≫= k).
Proof.
  intros Hm Hk s b s' o Hr.
  apply bind_returns in Hr as (a & s1 & o1 & o2 & H1 & H2 & ->).
  apply Forall_app. split; [by eapply Hm|by eapply Hk].
Qed.

Lemma emits_silent P {A} (m : M A) :
  (∀ s a s' o, m s = Returns a s' o → o = []) → emits P m.
Proof. intros Hm s a s' o Hr. by rewrite (Hm _ _ _ _ Hr). Qed.

Lemma emits_notify (P : notification → Prop) n : P n → emits P (notify n).
Proof.
  intros Hn s a s' o. unfold_M. intros Hr. inversion Hr. by constructor.
Qed.

Lemma emits_mret P {A} (a : A) : emits P (mret a).
Proof. apply emits_silent. unfold_M. intros ???? Hr. by inversion Hr. Qed.

Lemma emits_modify_device P f : emits P (modify_device f).
Proof. apply emits_silent. unfold_M. intros ???? Hr. by inversion Hr. Qed.

Lemma emits_put_slot_map P m : emits P (put_slot_map m).
Proof. apply emits_silent. unfold_M. intros ???? Hr. by inversion Hr. Qed.

Lemma emits_get_device P : emits P get_device.
Proof. apply emits_silent. unfold_M. intros ???? Hr. by inversion Hr. Qed.

Lemma emits_get_seat P : emits P get_seat.
Proof. apply emits_silent. unfold_M. intros ???? Hr. by inversion Hr. Qed.

Lemma emits_defined P {A} (x : option A) : emits P (defined x).
Proof.
  apply emits_silent. unfold_M. destruct x; [|done].
  intros ???? Hr. by inversion Hr.
Qed.

Lemma emits_requires P b : emits P (requires b).
Proof.
  apply emits_silent. unfold_M. destruct b; [|done].
  intros ???? Hr. by inversion Hr.
Qed.

Lemma emits_assert P b : emits P (assert b).
Proof.
  apply emits_silent. unfold_M. destruct b; [|done].
  intros ???? Hr. by inversion Hr.
Qed.

Lemma emits_log_bug_kernel P : emits P log_bug_kernel.
Proof. apply emits_mret. Qed.

Lemma emits_log_bug_libinput P : emits P log_bug_libinput.
Proof. apply emits_mret. Qed.

End Flush.

Ltac emits_step :=
  first
    [ apply emits_bind; [|intros ?]
    | apply emits_mret
    | apply emits_modify_device
    | apply emits_put_slot_map
    | apply emits_get_device
    | apply emits_get_seat
    | apply emits_defined
    | apply emits_requires
    | apply emits_assert
    | apply emits_log_bug_kernel
    | apply emits_log_bug_libinput
    | match goal with
      | |- emits _ (if ?b then _ else _) => destruct b eqn:?
      | |- emits _ (match ?x with _ => _ end) => destruct x eqn:?
      end ].

Section Frames.
Context `{Collaborators}.

Lemma emits_transform_absolute P x y : emits P (transform_absolute x y).
Proof. unfold transform_absolute. repeat emits_step. Qed.

Lemma emits_shift_one P n : emits P (shift_one n).
Proof. unfold shift_one. repeat emits_step. Qed.

Lemma flush_output time s s' o :
  evdev_flush_pending_event time s = Returns tt s' o →
  Forall (flush_notification s) o.
Proof.
  unfold evdev_flush_pending_event.
  rewrite bind_get_device, bind_get_seat.
  destruct (pending_event (device s)) eqn:Hp.
  1: { unfold_M. intros Hr. inversion Hr. constructor. }
  all: destruct (has_seat_cap (device s) EVDEV_DEVICE_TOUCH) eqn:Hcap;
    simpl negb; cbv iota.
  all: match goal with
       | |- ?m ?s0 = _ → _ =>
           assert (Hm : emits (flush_notification s0) m); [|by apply Hm]
       end.
  all: repeat first
         [ emits_step
         | apply emits_transform_absolute
         | apply emits_shift_one
         | apply emits_notify; split; [done|]; simpl; rewrite ?Hp, ?Hcap; done ].
Qed.

Lemma flush_notifications s o :
  Forall (flush_notification s) o →
  existsb is_frame_notification o = false ∧
  (existsb is_touch_notification o = true →
   has_seat_cap (device s) EVDEV_DEVICE_TOUCH &&
   pending_is_absolute (pending_event (device s)) = true).
Proof.
  induction 1 as [|n o [Hframe Htouch] _ [IHframe IHtouch]]; simpl; [done|].
  rewrite Hframe. split; [done|].
  destruct (is_touch_notification n); simpl; [|done].
  intros _. destruct Htouch as [-> ->]; done.
Qed.

Lemma need_touch_frame_pending d :
  evdev_need_touch_frame d =
  has_seat_cap d EVDEV_DEVICE_TOUCH && pending_is_absolute (pending_event d).
Proof.
  unfold evdev_need_touch_frame.
  by destruct (has_seat_cap d EVDEV_DEVICE_TOUCH), (pending_event d).
Qed.

Lemma fallback_process_syn code value time s :
  fallback_process (mk_input_event EV_SYN code value) time s =
  (evdev_flush_pending_event time;;
   if evdev_need_touch_frame (device s) then notify (touch_notify_frame time)
   else mret tt) s.
Proof.
  unfold fallback_process. cbn [ev_type].
  change (EV_SYN =? EV_REL) with false.
  change (EV_SYN =? EV_ABS) with false.
  change (EV_SYN =? EV_KEY) with false.
  change (EV_SYN =? EV_SYN) with true. cbv iota.
  by rewrite bind_get_device.
Qed.

(** C1 (amended). A SYN_REPORT processed by the fallback dispatcher
    notifies what the flush of the pending event notifies, which never
    contains a touch-frame, and then one touch-frame exactly when the
    device is TOUCH-capable and the pending event on entry is one of MT
    down, MT motion, MT up, touch down, touch up and absolute motion. So
    whenever the flush produced a touch notification a touch-frame follows
    it. (The converse is not part of what the code does: the frame is
    decided before the flush, from the kind of the pending event.) *)
Theorem syn_report_touch_frame
    (code value time : Z) (s s' : state) (o : list notification) :
  fallback_process (mk_input_event EV_SYN code value) time s
    = Returns tt s' o →
  ∃ flushed,
    evdev_flush_pending_event time s = Returns tt s' flushed ∧
    existsb is_frame_notification flushed = false ∧
    o = flushed ++
        (if has_seat_cap (device s) EVDEV_DEVICE_TOUCH &&
            pending_is_absolute (pending_event (device s))
         then [touch_notify_frame time] else []) ∧
    (existsb is_touch_notification flushed = true →
     has_seat_cap (device s) EVDEV_DEVICE_TOUCH &&
     pending_is_absolute (pending_event (device s)) = true).
Proof.
  rewrite fallback_process_syn, need_touch_frame_pending. intros Hr.
  apply bind_returns in Hr as ([] & s1 & flushed & o2 & Hflush & Hframe & ->).
  pose proof (flush_output _ _ _ _ Hflush) as Hout.
  apply flush_notifications in Hout as [Hnoframe Htouch].
  exists flushed.
  destruct (has_seat_cap (device s) EVDEV_DEVICE_TOUCH &&
            pending_is_absolute (pending_event (device s)));
    revert Hframe; unfold_M; intros Hr; inversion Hr; subst; auto.
Qed.

End Frames.

Lemma syn_report_touch_frame_witness :
  ∃ flushed,
    evdev_flush_pending_event 1 Sample.touch_down_pending =
      Returns tt
        (state_of (fallback_process Sample.syn_report 1 Sample.touch_down_pending)
           Sample.touch_down_pending)
        flushed ∧
    existsb is_frame_notification flushed = false ∧
    output_of (fallback_process Sample.syn_report 1 Sample.touch_down_pending) =
      flushed ++
      (if has_seat_cap (device Sample.touch_down_pending) EVDEV_DEVICE_TOUCH &&
          pending_is_absolute (pending_event (device Sample.touch_down_pending))
       then [touch_notify_frame 1] else []) ∧
    (existsb is_touch_notification flushed = true →
     has_seat_cap (device Sample.touch_down_pending) EVDEV_DEVICE_TOUCH &&
     pending_is_absolute (pending_event (device Sample.touch_down_pending))
     = true).
Proof.
  apply (syn_report_touch_frame SYN_REPORT 0 1 Sample.touch_down_pending).
  apply (outcome_eta
           (fallback_process Sample.syn_report 1 Sample.touch_down_pending)).
  vm_compute. reflexivity.
Defined.

(** C1, as stated, fails: on the sample touchscreen a coordinate arrives for
    a contact that holds no seat slot; the SYN_REPORT that follows flushes
    the pending MT motion without any touch notification and still
    notifies a touch-frame. *)
Lemma touch_frame_without_touch_notification :
  value_of (process_events [(Sample.abs_event ABS_MT_POSITION_X 100, 4)]
              Sample.touchscreen) = Some tt ∧
  value_of (fallback_process Sample.syn_report 5 Sample.motion_without_contact)
    = Some tt ∧
  existsb is_touch_notification
    (output_of (evdev_flush_pending_event 5 Sample.motion_without_contact))
    = false ∧
  existsb is_touch_notification
    (output_of (fallback_process Sample.syn_report 5
                  Sample.motion_without_contact)) = false ∧
  existsb is_frame_notification
    (output_of (fallback_process Sample.syn_report 5
                  Sample.motion_without_contact)) = true.
Proof. repeat split; vm_compute; reflexivity. Qed.

Lemma flush_leaves_no_pending_event_witness :
  pending_event (device Sample.touch_down_pending) = EVDEV_ABSOLUTE_MT_DOWN ∧
  ∃ s' o,
    evdev_flush_pending_event 1 Sample.touch_down_pending = Returns tt s' o ∧
    pending_event (device s') = EVDEV_NONE.
Proof.
  split; [vm_compute; reflexivity|].
  assert (Hreturned : ∀ s r,
            flushed s r → flush_defined s = true →
            ∃ s' o, r = Returns tt s' o ∧
                    pending_event (device s') = EVDEV_NONE).
  { intros s [[] s' o|f] Hr Hdefined; [|destruct Hr; congruence].
    exists s', o. split; [reflexivity|apply Hr]. }
  exact (Hreturned Sample.touch_down_pending
           (evdev_flush_pending_event 1 Sample.touch_down_pending)
           (proj1 (flush_leaves_no_pending_event 1 Sample.touch_down_pending))
           ltac:(vm_compute; reflexivity)).
Defined.

Lemma touch_down_acquires_lowest_free_seat_slot_witness :
  evdev_flush_pending_event 1 Sample.touch_down_pending =
    Returns tt
      (mk_state
         (set_pending_event EVDEV_NONE
            (set_mt_slots
               (array_set (mt_slots (device Sample.touch_down_pending))
                  (mt_slot (device Sample.touch_down_pending))
                  (set_slot_seat_slot 1 (mk_mt_slot (-1) 100 200)))
               (device Sample.touch_down_pending)))
         (mk_seat (Z.setbit (slot_map (seat Sample.touch_down_pending)) 1)))
      [touch_notify_touch_down 1 (mt_slot (device Sample.touch_down_pending)) 1
         (fst (calibrated (device Sample.touch_down_pending)
                 (slot_x (mk_mt_slot (-1) 100 200))
                 (slot_y (mk_mt_slot (-1) 100 200))))
         (snd (calibrated (device Sample.touch_down_pending)
                 (slot_x (mk_mt_slot (-1) 100 200))
                 (slot_y (mk_mt_slot (-1) 100 200))))].
Proof.
  refine (proj2
            (proj2
               (proj2
                  (proj1
                     (touch_down_acquires_lowest_free_seat_slot 1
                        Sample.touch_down_pending)
                     _)
                  _ (mk_mt_slot (-1) 100 200) _)
               _)
            1 _).
  - vm_compute. reflexivity.
  - vm_compute. reflexivity.
  - vm_compute. reflexivity.
  - reflexivity.
  - split; [lia|]. split; [vm_compute; reflexivity|].
    intros j Hj. assert (j = 0) as -> by lia. vm_compute. reflexivity.
Defined.

(** C5, as stated, fails. The sample touchscreen with a button is a pointer
    and not a TOUCH device: the touch-down pending after a new tracking id
    is flushed with seat slot 0 free, and the flush takes no seat slot, sets
    no bit and records nothing. And on the sample touchscreen a second
    tracking id for the contact that holds seat slot 0 leaves a touch-down
    pending whose flush does not take the free seat slot 1 either. *)
Lemma touch_down_without_seat_slot :
  (value_of (process_events [(Sample.abs_event ABS_MT_TRACKING_ID 7, 4)]
               Sample.button_screen) = Some tt ∧
   pending_event (device Sample.button_screen_down_pending)
     = EVDEV_ABSOLUTE_MT_DOWN ∧
   slot_map (seat Sample.button_screen_down_pending) = 0 ∧
   value_of (evdev_flush_pending_event 5 Sample.button_screen_down_pending)
     = Some tt ∧
   slot_map
     (seat (state_of
              (evdev_flush_pending_event 5 Sample.button_screen_down_pending)
              Sample.button_screen_down_pending)) = 0 ∧
   slot_seat_slot <$>
     array_get
       (mt_slots
          (device
             (state_of
                (evdev_flush_pending_event 5 Sample.button_screen_down_pending)
                Sample.button_screen_down_pending))) 0 = Some (-1) ∧
   length
     (output_of
        (evdev_flush_pending_event 5 Sample.button_screen_down_pending))
     = 0%nat) ∧
  (value_of (process_events Sample.repeated_touch_down Sample.touchscreen)
     = Some tt ∧
   has_seat_cap (device Sample.touch_down_repeated) EVDEV_DEVICE_TOUCH = true ∧
   pending_event (device Sample.touch_down_repeated)
     = EVDEV_ABSOLUTE_MT_DOWN ∧
   slot_map (seat Sample.touch_down_repeated) = 1 ∧
   value_of (evdev_flush_pending_event 6 Sample.touch_down_repeated)
     = Some tt ∧
   slot_map
     (seat (state_of (evdev_flush_pending_event 6 Sample.touch_down_repeated)
              Sample.touch_down_repeated)) = 1 ∧
   length
     (output_of (evdev_flush_pending_event 6 Sample.touch_down_repeated))
     = 0%nat).
Proof. repeat split; vm_compute; reflexivity. Qed.

Section Preservation.
Context `{Collaborators}.
Context {X : Type} (f : state → X).

Lemma preserves_bind {A B} (m : M A) (k : A → M B) :
  preserves f m → (∀ a, preserves f (k a)) → preserves f (m ≫= k).
Proof.
  intros Hm Hk s b s' o Hr.
  apply bind_returns in Hr as (a & s1 & o1 & o2 & H1 & H2 & ->).
  rewrite (Hk _ _ _ _ _ H2). by eapply Hm.
Qed.

Lemma preserves_same_state {A} (m : M A) :
  (∀ s a s' o, m s = Returns a s' o → s' = s) → preserves f m.
Proof. intros Hm s a s' o Hr. by rewrite (Hm _ _ _ _ Hr). Qed.

Lemma preserves_mret {A} (a : A) : preserves f (mret a).
Proof.
  apply preserves_same_state. unfold_M. intros ???? Hr. by inversion Hr.
Qed.

Lemma preserves_notify n : preserves f (notify n).
Proof.
  apply preserves_same_state. unfold_M. intros ???? Hr. by inversion Hr.
Qed.

Lemma preserves_get_device : preserves f get_device.
Proof.
  apply preserves_same_state. unfold_M. intros ???? Hr. by inversion Hr.
Qed.

Lemma preserves_get_seat : preserves f get_seat.
Proof.
  apply preserves_same_state. unfold_M. intros ???? Hr. by inversion Hr.
Qed.

Lemma preserves_defined {A} (x : option A) : preserves f (defined x).
Proof.
  apply preserves_same_state. unfold_M. destruct x; [|done].
  intros ???? Hr. by inversion Hr.
Qed.

Lemma preserves_requires b : preserves f (requires b).
Proof.
  apply preserves_same_state. unfold_M. destruct b; [|done].
  intros ???? Hr. by inversion Hr.
Qed.

Lemma preserves_assert b : preserves f (assert b).
Proof.
  apply preserves_same_state. unfold_M. destruct b; [|done].
  intros ???? Hr. by inversion Hr.
Qed.

Lemma preserves_log_bug_kernel : preserves f log_bug_kernel.
Proof. apply preserves_mret. Qed.

Lemma preserves_log_bug_libinput : preserves f log_bug_libinput.
Proof. apply preserves_mret. Qed.

Lemma preserves_modify_device g :
  (∀ s, f (mk_state (g (device s)) (seat s)) = f s) →
  preserves f (modify_device g).
Proof. intros Hg s a s' o. unfold_M. intros Hr. inversion Hr. apply Hg. Qed.

Lemma preserves_put_slot_map m :
  (∀ s, f (mk_state (device s) (mk_seat m)) = f s) →
  preserves f (put_slot_map m).
Proof. intros Hg s a s' o. unfold_M. intros Hr. inversion Hr. apply Hg. Qed.

End Preservation.

Ltac preserves_step :=
  first
    [ apply preserves_bind; [|intros ?]
    | apply preserves_mret
    | apply preserves_notify
    | apply preserves_get_device
    | apply preserves_get_seat
    | apply preserves_defined
    | apply preserves_requires
    | apply preserves_assert
    | apply preserves_log_bug_kernel
    | apply preserves_log_bug_libinput
    | apply preserves_modify_device; intros ?; reflexivity
    | apply preserves_put_slot_map; intros ?; reflexivity
    | match goal with
      | |- preserves _ (if ?b then _ else _) => destruct b eqn:?
      | |- preserves _ (match ?x with _ => _ end) => destruct x eqn:?
      end ].

Section Keys.
Context `{Collaborators}.

Lemma flush_preserves_keys time :
  preserves (λ s, (key_mask (device s), key_count (device s)))
    (evdev_flush_pending_event time).
Proof.
  unfold evdev_flush_pending_event, transform_absolute, shift_one.
  repeat preserves_step.
Qed.

Lemma flush_emits_no_key time :
  emits (λ n, is_key_notification n = false) (evdev_flush_pending_event time).
Proof.
  unfold evdev_flush_pending_event.
  repeat first
    [ emits_step
    | apply emits_transform_absolute
    | apply emits_shift_one
    | by apply emits_notify ].
Qed.

Lemma key_type_in_key_range code :
  get_key_type code ≠ EVDEV_KEY_TYPE_NONE →
  in_key_range code = true ∧ code ≠ BTN_TOUCH.
Proof.
  unfold get_key_type, in_key_range.
  destruct (Z.eqb_spec code BTN_TOUCH); [done|].
  repeat match goal with
         | |- context [(?a <=? ?b) && (?c <=? ?d)] =>
             destruct (Z.leb_spec a b), (Z.leb_spec c d); simpl
         end; try done.
  all: intros _; split; [|done]; apply andb_true_iff;
    unfold KEY_ESC, KEY_MICMUTE, BTN_MISC, BTN_GEAR_UP, KEY_OK,
      KEY_LIGHTS_TOGGLE, BTN_DPAD_UP, BTN_TRIGGER_HAPPY40, KEY_CNT, KEY_MAX
      in *; lia.
Qed.

(** C6 (amended). An EV_KEY event with value 0 whose code classifies as
    KEY or BUTTON and whose bit is clear in key_mask does what the flush of
    the pending event does and nothing else: the notifications are those
    of the flush, none of them a key or button notification, and the press
    counts and the bitmap stay as they were. *)
Theorem release_of_key_not_down_is_dropped
    (e : input_event) (time : Z) (s : state) :
  ev_type e = EV_KEY →
  ev_value e = 0 →
  get_key_type (ev_code e) ≠ EVDEV_KEY_TYPE_NONE →
  long_bit_is_set (key_mask (device s)) (ev_code e) = false →
  fallback_process e time s = evdev_flush_pending_event time s ∧
  ∀ s' o,
    fallback_process e time s = Returns tt s' o →
    key_count (device s') = key_count (device s) ∧
    key_mask (device s') = key_mask (device s) ∧
    Forall (λ n, is_key_notification n = false) o.
Proof.
  intros Htype Hvalue Hclass Hmask.
  apply key_type_in_key_range in Hclass as Hrange.
  destruct Hrange as [Hrange Hcode].
  assert (Heq : fallback_process e time s = evdev_flush_pending_event time s).
  { unfold fallback_process. rewrite Htype.
    change (EV_KEY =? EV_REL) with false.
    change (EV_KEY =? EV_ABS) with false.
    change (EV_KEY =? EV_KEY) with true. cbv iota.
    unfold evdev_process_key. rewrite Hvalue.
    change (0 =? 2) with false. change (0 =? 0) with true. cbv iota.
    destruct (Z.eqb_spec (ev_code e) BTN_TOUCH); [done|].
    destruct (evdev_flush_pending_event time s) as [[] s1 o1|fl] eqn:Hflush;
      [|by erewrite bind_stops].
    erewrite bind_step by exact Hflush.
    pose proof (flush_preserves_keys time _ _ _ _ Hflush) as [= Hm _].
    assert (Hdown : is_key_down (ev_code e) s1 = Returns false s1 []).
    { unfold is_key_down. unfold_M. rewrite Hrange. simpl.
      by rewrite Hm, Hmask. }
    assert (Hignored :
        (is_key_down (ev_code e) ≫= λ down, mret (negb down)) s1
        = Returns true s1 []).
    { by erewrite bind_step by exact Hdown. }
    destruct (get_key_type (ev_code e)); [done| |].
    all: erewrite bind_step by exact Hignored; simpl;
      by rewrite app_nil_r. }
  split; [done|]. rewrite Heq. intros s' o Hflush.
  pose proof (flush_preserves_keys time _ _ _ _ Hflush) as [= Hm Hc].
  pose proof (flush_emits_no_key time _ _ _ _ Hflush). done.
Qed.

End Keys.

Lemma release_of_key_not_down_is_dropped_witness :
  fallback_process Sample.key_30_released 5 Sample.stick_moved
    = evdev_flush_pending_event 5 Sample.stick_moved ∧
  ∀ s' o,
    fallback_process Sample.key_30_released 5 Sample.stick_moved
      = Returns tt s' o →
    key_count (device s') = key_count (device Sample.stick_moved) ∧
    key_mask (device s') = key_mask (device Sample.stick_moved) ∧
    Forall (λ n, is_key_notification n = false) o.
Proof.
  apply (release_of_key_not_down_is_dropped Sample.key_30_released 5
           Sample.stick_moved).
  - reflexivity.
  - reflexivity.
  - intros Hnone. vm_compute in Hnone. discriminate Hnone.
  - vm_compute. reflexivity.
Defined.

(** C6, as stated, fails: on the sample keyboard with pointing stick, with
    a stick motion pending, the release of key 30, whose bit is clear,
    notifies the pointer motion of the flush it starts with. *)
Lemma release_of_key_not_down_notifies_pending_motion :
  value_of (process_events [(mk_input_event EV_REL REL_X 3, 4)]
              Sample.keyboard_mouse) = Some tt ∧
  get_key_type (ev_code Sample.key_30_released) = EVDEV_KEY_TYPE_KEY ∧
  long_bit_is_set (key_mask (device Sample.stick_moved))
    (ev_code Sample.key_30_released) = false ∧
  output_of (fallback_process Sample.key_30_released 5 Sample.stick_moved)
    = [pointer_notify_motion 5 3%Q 0%Q].
Proof. repeat split; vm_compute; reflexivity. Qed.

Section Relative.
Context `{Collaborators}.

Lemma to_int_in_range z : INT_MIN ≤ z ≤ INT_MAX → to_int z = z.
Proof.
  unfold to_int, INT_MIN, INT_MAX, UINT32_MOD.
  change (2 ^ 31) with 2147483648. change (2 ^ 32) with 4294967296.
  intros Hz. rewrite Z.mod_small; lia.
Qed.

(** C7 (amended). A REL_WHEEL event with value v flushes the pending
    event and then notifies a vertical scroll of -v * 10, for every v with
    -214748364 <= v <= 214748364 (the product is taken in [int]); a
    REL_HWHEEL event flushes the pending event and then notifies a
    horizontal scroll of v * 10 when v is -1 or 1, and nothing more for any
    other v. *)
Theorem wheel_events_flush_then_scroll (v time : Z) (s : state) :
  (-214748364 ≤ v ≤ 214748364 →
   fallback_process (mk_input_event EV_REL REL_WHEEL v) time s =
     (evdev_flush_pending_event time;;
      notify (pointer_notify_axis time LIBINPUT_POINTER_AXIS_SCROLL_VERTICAL
                (- v * 10))) s) ∧
  fallback_process (mk_input_event EV_REL REL_HWHEEL v) time s =
    (evdev_flush_pending_event time;;
     if bool_decide (v = -1 ∨ v = 1) then
       notify (pointer_notify_axis time LIBINPUT_POINTER_AXIS_SCROLL_HORIZONTAL
                 (v * 10))
     else mret tt) s.
Proof.
  split.
  - intros Hv. unfold fallback_process, evdev_process_relative.
    cbn [ev_type ev_code ev_value].
    change (EV_REL =? EV_REL) with true.
    change (REL_WHEEL =? REL_X) with false.
    change (REL_WHEEL =? REL_Y) with false.
    change (REL_WHEEL =? REL_WHEEL) with true. cbv iota.
    unfold DEFAULT_AXIS_STEP_DISTANCE.
    rewrite (to_int_in_range (-1 * v))
      by (unfold INT_MIN, INT_MAX; change (2 ^ 31) with 2147483648; lia).
    rewrite (to_int_in_range (-1 * v * 10))
      by (unfold INT_MIN, INT_MAX; change (2 ^ 31) with 2147483648; lia).
    by replace (-1 * v * 10) with (- v * 10) by lia.
  - unfold fallback_process, evdev_process_relative.
    cbn [ev_type ev_code ev_value].
    change (EV_REL =? EV_REL) with true.
    change (REL_HWHEEL =? REL_X) with false.
    change (REL_HWHEEL =? REL_Y) with false.
    change (REL_HWHEEL =? REL_WHEEL) with false.
    change (REL_HWHEEL =? REL_HWHEEL) with true. cbv iota.
    unfold DEFAULT_AXIS_STEP_DISTANCE.
    destruct (Z.eqb_spec v (-1)) as [->|Hm]; [done|].
    destruct (Z.eqb_spec v 1) as [->|Hp]; [done|].
    rewrite bool_decide_eq_false_2 by lia. done.
Qed.

End Relative.

Lemma wheel_events_flush_then_scroll_witness :
  fallback_process (mk_input_event EV_REL REL_WHEEL 1) 5 Sample.stick_moved =
    (evdev_flush_pending_event 5;;
     notify (pointer_notify_axis 5 LIBINPUT_POINTER_AXIS_SCROLL_VERTICAL
               (- 1 * 10))) Sample.stick_moved.
Proof.
  apply (proj1 (wheel_events_flush_then_scroll 1 5 Sample.stick_moved)). lia.
Defined.

(** C7, as stated, fails: for the wheel value 2147483647 the product with
    10 does not fit an [int]; the scroll notified on the sample keyboard
    with pointing stick has the wrapped value 10 and not -21474836470. *)
Lemma wheel_scroll_wraps_around :
  output_of
    (fallback_process (mk_input_event EV_REL REL_WHEEL 2147483647) 5
       Sample.keyboard_mouse)
  = [pointer_notify_axis 5 LIBINPUT_POINTER_AXIS_SCROLL_VERTICAL 10] ∧
  - 2147483647 * 10 ≠ 10.
Proof. split; [vm_compute; reflexivity|lia]. Qed.

Section Leds.
Context `{Collaborators}.

Lemma land_bit leds k :
  0 ≤ k →
  (if Z.land leds (2 ^ k) =? 0 then 0 else 1) = Z.b2z (Z.testbit leds k).
Proof.
  intros Hk.
  assert (Hland : Z.land leds (2 ^ k) = Z.b2z (Z.testbit leds k) * 2 ^ k).
  { apply Z.bits_inj'. intros n Hn.
    rewrite Z.land_spec, Z.pow2_bits_eqb by lia.
    destruct (Z.testbit leds k) eqn:Hbit; simpl Z.b2z.
    - rewrite Z.mul_1_l, Z.pow2_bits_eqb by lia.
      destruct (Z.eqb_spec k n) as [<-|]; [by rewrite Hbit|].
      apply andb_false_r.
    - rewrite Z.bits_0. destruct (Z.eqb_spec k n) as [<-|]; [by rewrite Hbit|].
      apply andb_false_r. }
  rewrite Hland. destruct (Z.testbit leds k); simpl Z.b2z.
  - assert (0 < 2 ^ k) by (apply Z.pow_pos_nonneg; lia).
    destruct (Z.eqb_spec (1 * 2 ^ k) 0); [lia|done].
  - done.
Qed.

(** C10. evdev_device_led_update makes no write on a device without the
    KEYBOARD capability; on a device with it, it makes one write to the
    device's descriptor, of three EV_LED events, for LED_NUML, LED_CAPSL
    and LED_SCROLLL in this order, each with value 1 when the bit of its
    lock is set in the request and 0 otherwise, followed by one
    SYN_REPORT. *)
Theorem led_update_writes (d : evdev_device) (leds : Z) :
  evdev_device_led_update d leds =
  if has_seat_cap d EVDEV_DEVICE_KEYBOARD then
    [(fd d,
      [mk_input_event EV_LED LED_NUML (Z.b2z (Z.testbit leds 0));
       mk_input_event EV_LED LED_CAPSL (Z.b2z (Z.testbit leds 1));
       mk_input_event EV_LED LED_SCROLLL (Z.b2z (Z.testbit leds 2));
       mk_input_event EV_SYN SYN_REPORT 0])]
  else [].
Proof.
  unfold evdev_device_led_update.
  destruct (has_seat_cap d EVDEV_DEVICE_KEYBOARD); simpl; [|done].
  change LIBINPUT_LED_NUM_LOCK with (2 ^ 0).
  change LIBINPUT_LED_CAPS_LOCK with (2 ^ 1).
  change LIBINPUT_LED_SCROLL_LOCK with (2 ^ 2).
  by rewrite !land_bit by lia.
Qed.

End Leds.





Section Configure.
Context `{Collaborators}.

Lemma yields_bind {A B} (R : A → Prop) (Q : B → Prop) (m : M A) (k : A → M B) :
  yields R m → (∀ a, R a → yields Q (k a)) → yields Q (m ≫= k).
Proof.
  intros Hm Hk s b s' o Hr.
  apply bind_returns in Hr as (a & s1 & o1 & o2 & H1 & H2 & ->).
  eapply Hk; [|exact H2]. by eapply Hm.
Qed.

Lemma yields_bind_any {A B} (Q : B → Prop) (m : M A) (k : A → M B) :
  (∀ a, yields Q (k a)) → yields Q (m ≫= k).
Proof.
  intros Hk. apply (yields_bind (λ _, True)); [done|]. intros a _. apply Hk.
Qed.

Lemma yields_mret {A} (Q : A → Prop) (a : A) : Q a → yields Q (mret a).
Proof.
  intros Ha s a' s' o. unfold_M. intros Hr. inversion Hr. by subst.
Qed.

Lemma scan_key_codes_fold (evdev : libevdev) (codes : list Z) (k b : bool) :
  foldl
    (λ (acc : bool * bool) (i : Z),
       if libevdev_has_event_code evdev EV_KEY i then
         match get_key_type i with
         | EVDEV_KEY_TYPE_NONE => acc
         | EVDEV_KEY_TYPE_KEY => (true, snd acc)
         | EVDEV_KEY_TYPE_BUTTON => (fst acc, true)
         end
       else acc)
    (k, b) codes =
  (k || existsb
          (λ code, libevdev_has_event_code evdev EV_KEY code &&
                   bool_decide (get_key_type code = EVDEV_KEY_TYPE_KEY))
          codes,
   b || existsb
          (λ code, libevdev_has_event_code evdev EV_KEY code &&
                   bool_decide (get_key_type code = EVDEV_KEY_TYPE_BUTTON))
          codes).
Proof.
  revert k b. induction codes as [|code codes IH]; intros k b; simpl.
  - by rewrite !orb_false_r.
  - destruct (libevdev_has_event_code evdev EV_KEY code); simpl.
    + destruct (get_key_type code); simpl; rewrite IH; simpl;
        by rewrite ?orb_true_r.
    + by rewrite IH.
Qed.

Lemma scan_key_codes_classes evdev :
  (if libevdev_has_event_type evdev EV_KEY then scan_key_codes evdev
   else (false, false)) =
  (advertises_key_class evdev EVDEV_KEY_TYPE_KEY,
   advertises_key_class evdev EVDEV_KEY_TYPE_BUTTON).
Proof.
  unfold advertises_key_class, scan_key_codes.
  destruct (libevdev_has_event_type evdev EV_KEY); [|done].
  by rewrite scan_key_codes_fold.
Qed.

Lemma configure_absolute_flags evdev env :
  yields
    (λ r, r = None ∨
          r = Some (probed_has_abs evdev, probed_has_mt evdev,
                    probed_has_mt evdev))
    (configure_absolute evdev env).
Proof.
  unfold configure_absolute, probed_has_abs, probed_has_mt.
  destruct (libevdev_has_event_type evdev EV_ABS); simpl negb; cbv iota;
    [|apply yields_mret; by right].
  apply (yields_bind
           (λ a, a = match libevdev_get_abs_info evdev ABS_X with
                     | Some _ => true
                     | None => false
                     end)).
  { destruct (libevdev_get_abs_info evdev ABS_X);
      repeat (apply yields_bind_any; intros ?); by apply yields_mret. }
  intros ? ->.
  apply (yields_bind
           (λ a, a = match libevdev_get_abs_info evdev ABS_Y with
                     | Some _ => true
                     | None => false
                     end)).
  { destruct (libevdev_get_abs_info evdev ABS_Y);
      repeat (apply yields_bind_any; intros ?); by apply yields_mret. }
  intros ? ->.
  destruct (libevdev_has_event_code evdev EV_ABS ABS_MT_POSITION_X &&
            libevdev_has_event_code evdev EV_ABS ABS_MT_POSITION_Y);
    [|apply yields_mret; by right].
  repeat first
    [ apply yields_bind_any; intros ?
    | apply yields_mret; auto
    | match goal with
      | |- yields _ (if ?b then _ else _) => destruct b
      | |- yields _ (match ?x with _ => _ end) => destruct x
      end ].
Qed.

Lemma configure_absolute_preserves evdev env :
  preserves (λ s, (seat_caps (device s), dispatch (device s)))
    (configure_absolute evdev env).
Proof.
  unfold configure_absolute, note_fake_resolution. repeat preserves_step.
Qed.



Lemma configure_fallback evdev env s rc s' o :
  selects_touchpad evdev = false →
  evdev_configure_device evdev env s = Returns rc s' o →
  dispatch (device s') = dispatch (device s) ∧
  (rc = -1 ∧ seat_caps (device s') = seat_caps (device s) ∨
   rc = 0 ∧
   seat_caps (device s') =
     or_if (probed_has_touch evdev && negb (probed_has_button evdev))
       EVDEV_DEVICE_TOUCH
       (or_if (probed_has_keyboard evdev) EVDEV_DEVICE_KEYBOARD
          (or_if ((probed_has_abs evdev || probed_has_rel evdev) &&
                  probed_has_button evdev)
             EVDEV_DEVICE_POINTER (seat_caps (device s))))).
Proof.
  intros Htouchpad Hr. unfold evdev_configure_device in Hr.
  apply bind_returns in Hr as (abs & s1 & o1 & o2 & Habs & Hr & ->).
  pose proof (configure_absolute_preserves _ _ _ _ _ _ Habs) as [= Hcaps Hdisp].
  apply configure_absolute_flags in Habs as [->| ->].
  { revert Hr. unfold_M. intros Hr. inversion Hr; subst. auto. }
  unfold selects_touchpad in Htouchpad.
  rewrite Htouchpad, scan_key_codes_classes in Hr.
  fold (probed_has_rel evdev) (probed_has_button evdev) in Hr.
  change (probed_has_mt evdev || _) with (probed_has_touch evdev) in Hr.
  change (advertises_key_class evdev EVDEV_KEY_TYPE_KEY || _)
    with (probed_has_keyboard evdev) in Hr.
  rewrite <- Hcaps, <- Hdisp. clear Hcaps Hdisp Htouchpad.
  revert Hr. unfold configure_pointer_acceleration, or_if. unfold_M.
  destruct ((probed_has_abs evdev || probed_has_rel evdev) &&
            probed_has_button evdev),
    (probed_has_keyboard evdev),
    (probed_has_touch evdev && negb (probed_has_button evdev)),
    (create_pointer_accelator_filter env);
    simpl; intros Hr; inversion Hr; subst; simpl; auto.
Qed.

Lemma key_type_below_key_max code :
  get_key_type code ≠ EVDEV_KEY_TYPE_NONE → 0 ≤ code < KEY_MAX.
Proof.
  unfold get_key_type.
  destruct (Z.eqb_spec code BTN_TOUCH); [done|].
  repeat match goal with
         | |- context [(?a <=? ?b) && (?c <=? ?d)] =>
             destruct (Z.leb_spec a b), (Z.leb_spec c d); simpl
         end; try done.
  all: intros _;
    unfold KEY_ESC, KEY_MICMUTE, BTN_MISC, BTN_GEAR_UP, KEY_OK,
      KEY_LIGHTS_TOGGLE, BTN_DPAD_UP, BTN_TRIGGER_HAPPY40, KEY_MAX in *; lia.
Qed.

(** The scan of [0, KEY_MAX) misses no code of the KEY or BUTTON class:
    the device advertises the class when EV_KEY is among its event types
    and some code of the class is among its EV_KEY codes. *)
Lemma advertises_key_class_spec evdev class :
  class ≠ EVDEV_KEY_TYPE_NONE →
  advertises_key_class evdev class = true ↔
  libevdev_has_event_type evdev EV_KEY = true ∧
  ∃ code, libevdev_has_event_code evdev EV_KEY code = true ∧
          get_key_type code = class.
Proof.
  intros Hclass. unfold advertises_key_class.
  rewrite andb_true_iff, existsb_exists.
  split; intros [Htype (code & Hcode)]; (split; [done|]); exists code.
  - destruct Hcode as [_ Hcode]. apply andb_true_iff in Hcode as [? Hc].
    by apply bool_decide_eq_true in Hc.
  - destruct Hcode as [Hadv <-]. split.
    + apply list_elem_of_In, elem_of_seqZ.
      pose proof (key_type_below_key_max code Hclass). lia.
    + rewrite Hadv. by apply bool_decide_eq_true.
Qed.

Lemma seat_caps_granted (d : evdev_device) (p k t : bool) :
  seat_caps d =
    or_if t EVDEV_DEVICE_TOUCH
      (or_if k EVDEV_DEVICE_KEYBOARD (or_if p EVDEV_DEVICE_POINTER 0)) →
  has_seat_cap d EVDEV_DEVICE_POINTER = p ∧
  has_seat_cap d EVDEV_DEVICE_KEYBOARD = k ∧
  has_seat_cap d EVDEV_DEVICE_TOUCH = t.
Proof. unfold has_seat_cap. intros ->. by destruct p, k, t. Qed.

Lemma bind_modify_device {A} f (k : unit → M A) s :
  (modify_device f ≫= k) s = k tt (mk_state (f (device s)) (seat s)).
Proof. unfold_M. by destruct (k _ _). Qed.

(** What evdev_device_create does once the descriptor, the device and the
    libevdev handle are there. *)
Lemma create_after_configure env evdev s rc s1 o1 :
  0 ≤ open_restricted env →
  zalloc_device env = true →
  libevdev_new_from_fd env = Some evdev →
  evdev_configure_device evdev env
    (mk_state (initialised_device (open_restricted env)) (seat s))
    = Returns rc s1 o1 →
  evdev_device_create env s =
    if rc =? -1 then Returns NULL s1 o1
    else if seat_caps (device s1) =? 0 then
      Returns EVDEV_UNHANDLED_DEVICE s1 o1
    else
      let d :=
        match dispatch (device s1) with
        | None => set_dispatch (fallback_dispatch_create env) (device s1)
        | Some _ => device s1
        end in
      Returns
        (match dispatch d with
         | None => NULL
         | Some _ => if libinput_add_fd env then Created else NULL
         end)
        (mk_state d (seat s1)) o1.
Proof.
  intros Hfd Hzalloc Hevdev Hconf. unfold evdev_device_create.
  replace (open_restricted env <? 0) with false by lia.
  rewrite Hzalloc, Hevdev. cbn [negb].
  rewrite bind_modify_device, (bind_step _ _ _ _ _ _ Hconf).
  destruct (rc =? -1); [unfold_M; by rewrite app_nil_r|].
  rewrite bind_get_device.
  destruct (seat_caps (device s1) =? 0); [unfold_M; by rewrite app_nil_r|].
  destruct s1 as [d1 seat1]. simpl.
  destruct (dispatch d1) as [disp|] eqn:Hdisp; unfold_M; simpl.
  - rewrite Hdisp. destruct (libinput_add_fd env); simpl; by rewrite app_nil_r.
  - unfold fallback_dispatch_create.
    destruct (malloc_dispatch env); simpl; [|by rewrite app_nil_r].
    destruct (libinput_add_fd env); simpl; by rewrite app_nil_r.
Qed.






Lemma create_created env s s' o :
  evdev_device_create env s = Returns Created s' o →
  ∃ evdev rc s1,
    libevdev_new_from_fd env = Some evdev ∧
    evdev_configure_device evdev env
      (mk_state (initialised_device (open_restricted env)) (seat s))
      = Returns rc s1 o ∧
    rc ≠ -1 ∧
    seat_caps (device s') = seat_caps (device s1).
Proof.
  intros Hr. pose proof Hr as Hcreate. unfold evdev_device_create in Hr.
  destruct (open_restricted env <? 0) eqn:Hfd;
    [revert Hr; unfold_M; intros Hr; by inversion Hr|].
  destruct (zalloc_device env) eqn:Hzalloc;
    [|revert Hr; unfold_M; intros Hr; by inversion Hr].
  destruct (libevdev_new_from_fd env) as [evdev|] eqn:Hevdev;
    [|revert Hr; unfold_M; intros Hr; by inversion Hr].
  cbn [negb] in Hr. rewrite bind_modify_device in Hr.
  apply bind_returns in Hr as (rc & s1 & o1 & o2 & Hconf & _ & _).
  rewrite (create_after_configure env evdev s rc s1 o1) in Hcreate
    by (done || lia).
  exists evdev, rc, s1.
  destruct (Z.eqb_spec rc (-1)); [by inversion Hcreate|].
  destruct (seat_caps (device s1) =? 0); [by inversion Hcreate|].
  inversion Hcreate; subst. repeat split; auto.
  by destruct (dispatch (device s1)).
Qed.

(** C8 (amended). When the touchpad dispatcher does not take the device
    and evdev_configure_device returns 0 on a device that had no capability
    (as evdev_device_create passes it), the device has POINTER iff
    (has-abs or has-rel) and has-button, KEYBOARD iff a KEY-class code or
    an LED is advertised, and TOUCH iff has-touch and not has-button. And
    when evdev_configure_device returns 0 and the device has no
    capability, evdev_device_create returns EVDEV_UNHANDLED_DEVICE; when
    it returns -1 (an allocation failed), evdev_device_create returns
    NULL. *)
Theorem capabilities_granted_by_fallback_configuration
    (evdev : libevdev) (env : environment) (s : state) :
  (∀ s' o,
     selects_touchpad evdev = false →
     seat_caps (device s) = 0 →
     evdev_configure_device evdev env s = Returns 0 s' o →
     has_seat_cap (device s') EVDEV_DEVICE_POINTER =
       (probed_has_abs evdev || probed_has_rel evdev) &&
       probed_has_button evdev ∧
     has_seat_cap (device s') EVDEV_DEVICE_KEYBOARD =
       probed_has_keyboard evdev ∧
     has_seat_cap (device s') EVDEV_DEVICE_TOUCH =
       probed_has_touch evdev && negb (probed_has_button evdev)) ∧
  (∀ rc s1 o1,
     0 ≤ open_restricted env →
     zalloc_device env = true →
     libevdev_new_from_fd env = Some evdev →
     evdev_configure_device evdev env
       (mk_state (initialised_device (open_restricted env)) (seat s))
       = Returns rc s1 o1 →
     (rc = 0 → seat_caps (device s1) = 0 →
      evdev_device_create env s = Returns EVDEV_UNHANDLED_DEVICE s1 o1) ∧
     (rc = -1 → evdev_device_create env s = Returns NULL s1 o1)).
Proof.
  split.
  - intros s' o Htouchpad Hcaps Hconf.
    apply configure_fallback in Hconf as [_ [[? _]|[_ Hgranted]]];
      [done| |done].
    rewrite Hcaps in Hgranted. by apply seat_caps_granted.
  - intros rc s1 o1 Hfd Hzalloc Hevdev Hconf.
    rewrite (create_after_configure env evdev s rc s1 o1) by done.
    split; [intros -> ->|intros ->]; done.
Qed.

(** C9. A device that the fallback capability detection configured never
    has both POINTER and TOUCH: neither after evdev_configure_device, run
    on a device without capabilities when the touchpad dispatcher does not
    take it, nor as evdev_device_create returns it. *)
Theorem pointer_and_touch_are_exclusive
    (evdev : libevdev) (env : environment) (s : state) :
  selects_touchpad evdev = false →
  (∀ rc s' o,
     seat_caps (device s) = 0 →
     evdev_configure_device evdev env s = Returns rc s' o →
     has_seat_cap (device s') EVDEV_DEVICE_POINTER &&
     has_seat_cap (device s') EVDEV_DEVICE_TOUCH = false) ∧
  (∀ s' o,
     libevdev_new_from_fd env = Some evdev →
     evdev_device_create env s = Returns Created s' o →
     has_seat_cap (device s') EVDEV_DEVICE_POINTER &&
     has_seat_cap (device s') EVDEV_DEVICE_TOUCH = false).
Proof.
  intros Htouchpad.
  assert (Hconfigured : ∀ s0 rc s' o,
            seat_caps (device s0) = 0 →
            evdev_configure_device evdev env s0 = Returns rc s' o →
            has_seat_cap (device s') EVDEV_DEVICE_POINTER &&
            has_seat_cap (device s') EVDEV_DEVICE_TOUCH = false).
  { intros s0 rc s' o Hcaps Hconf.
    apply configure_fallback in Hconf as [_ [[_ Hsame]|[_ Hgranted]]];
      [| |done].
    - unfold has_seat_cap. by rewrite Hsame, Hcaps.
    - rewrite Hcaps in Hgranted.
      apply seat_caps_granted in Hgranted as (-> & _ & ->).
      by destruct (probed_has_abs evdev || probed_has_rel evdev),
        (probed_has_touch evdev), (probed_has_button evdev). }
  split; [by apply Hconfigured|].
  intros s' o Hevdev Hcreate.
  apply create_created in Hcreate as (evdev' & rc & s1 & Hevdev' & Hconf & _ & Hcaps).
  rewrite Hevdev in Hevdev'. injection Hevdev' as <-.
  unfold has_seat_cap. rewrite Hcaps.
  by eapply Hconfigured; [|exact Hconf].
Qed.

End Configure.





Lemma capabilities_granted_by_fallback_configuration_witness :
  (has_seat_cap
     (device (state_of
                (evdev_configure_device Sample.keyboard_mouse_evdev
                   (Sample.no_failure Sample.keyboard_mouse_evdev)
                   Sample.initialised)
                Sample.initialised))
     EVDEV_DEVICE_POINTER =
     (probed_has_abs Sample.keyboard_mouse_evdev ||
      probed_has_rel Sample.keyboard_mouse_evdev) &&
     probed_has_button Sample.keyboard_mouse_evdev ∧
   has_seat_cap
     (device (state_of
                (evdev_configure_device Sample.keyboard_mouse_evdev
                   (Sample.no_failure Sample.keyboard_mouse_evdev)
                   Sample.initialised)
                Sample.initialised))
     EVDEV_DEVICE_KEYBOARD =
     probed_has_keyboard Sample.keyboard_mouse_evdev ∧
   has_seat_cap
     (device (state_of
                (evdev_configure_device Sample.keyboard_mouse_evdev
                   (Sample.no_failure Sample.keyboard_mouse_evdev)
                   Sample.initialised)
                Sample.initialised))
     EVDEV_DEVICE_TOUCH =
     probed_has_touch Sample.keyboard_mouse_evdev &&
     negb (probed_has_button Sample.keyboard_mouse_evdev)) ∧
  evdev_device_create (Sample.no_failure Sample.bare_evdev) Sample.boot =
    Returns EVDEV_UNHANDLED_DEVICE
      (state_of
         (evdev_configure_device Sample.bare_evdev
            (Sample.no_failure Sample.bare_evdev) Sample.initialised)
         Sample.initialised)
      (output_of
         (evdev_configure_device Sample.bare_evdev
            (Sample.no_failure Sample.bare_evdev) Sample.initialised)).
Proof.
  split.
  - apply (proj1
             (capabilities_granted_by_fallback_configuration
                Sample.keyboard_mouse_evdev
                (Sample.no_failure Sample.keyboard_mouse_evdev)
                Sample.initialised)
             _
             (output_of
                (evdev_configure_device Sample.keyboard_mouse_evdev
                   (Sample.no_failure Sample.keyboard_mouse_evdev)
                   Sample.initialised))).
    + vm_compute. reflexivity.
    + vm_compute. reflexivity.
    + apply (outcome_eta
               (evdev_configure_device Sample.keyboard_mouse_evdev
                  (Sample.no_failure Sample.keyboard_mouse_evdev)
                  Sample.initialised)).
      vm_compute. reflexivity.
  - apply (proj1
             (proj2
                (capabilities_granted_by_fallback_configuration
                   Sample.bare_evdev (Sample.no_failure Sample.bare_evdev)
                   Sample.boot)
                0 _ _
                ltac:(simpl; lia) eq_refl eq_refl
                (outcome_eta
                   (evdev_configure_device Sample.bare_evdev
                      (Sample.no_failure Sample.bare_evdev) Sample.initialised)
                   0 Sample.initialised
                   ltac:(vm_compute; reflexivity)))).
    + reflexivity.
    + vm_compute. reflexivity.
Defined.

(** C8, as stated, fails: the sample keyboard with pointing stick
    advertises relative axes, a button, keys and LEDs, and is no touchpad;
    when the acceleration filter cannot be created evdev_configure_device
    returns -1 with no capability granted, and evdev_device_create returns
    NULL, the error sentinel, not EVDEV_UNHANDLED_DEVICE. *)
Lemma no_capability_and_error_sentinel :
  selects_touchpad Sample.keyboard_mouse_evdev = false ∧
  (probed_has_abs Sample.keyboard_mouse_evdev ||
   probed_has_rel Sample.keyboard_mouse_evdev) &&
  probed_has_button Sample.keyboard_mouse_evdev = true ∧
  probed_has_keyboard Sample.keyboard_mouse_evdev = true ∧
  value_of
    (evdev_configure_device Sample.keyboard_mouse_evdev
       (Sample.no_filter Sample.keyboard_mouse_evdev) Sample.initialised)
    = Some (-1) ∧
  seat_caps
    (device
       (state_of
          (evdev_configure_device Sample.keyboard_mouse_evdev
             (Sample.no_filter Sample.keyboard_mouse_evdev) Sample.initialised)
          Sample.initialised)) = 0 ∧
  value_of
    (evdev_device_create (Sample.no_filter Sample.keyboard_mouse_evdev)
       Sample.boot) = Some NULL.
Proof. repeat split; vm_compute; reflexivity. Qed.

Lemma pointer_and_touch_are_exclusive_witness :
  has_seat_cap (device Sample.touchscreen) EVDEV_DEVICE_POINTER &&
  has_seat_cap (device Sample.touchscreen) EVDEV_DEVICE_TOUCH = false.
Proof.
  apply (proj2
           (pointer_and_touch_are_exclusive Sample.touchscreen_evdev
              (Sample.no_failure Sample.touchscreen_evdev) Sample.boot
              ltac:(vm_compute; reflexivity))
           Sample.touchscreen
           (output_of
              (evdev_device_create
                 (Sample.no_failure Sample.touchscreen_evdev) Sample.boot))
           eq_refl).
  apply (outcome_eta
           (evdev_device_create (Sample.no_failure Sample.touchscreen_evdev)
              Sample.boot)).
  vm_compute. reflexivity.
Defined.

Section Calibration.
Context `{Collaborators}.

Lemma matrix_to_from_farray6 (values : farray6) :
  matrix_to_farray6 (matrix_from_farray6 values) = values.
Proof. by destruct values. Qed.

(** With the identity the early return of evdev_device_calibrate leaves
    the user matrix as it was. *)
Lemma calibrate_identity s :
  evdev_device_calibrate identity6 s =
  Returns tt
    (mk_state
       (set_calibration matrix_init_identity
          (set_apply_calibration false (device s)))
       (seat s))
    [].
Proof.
  unfold evdev_device_calibrate.
  assert (matrix_is_identity (matrix_from_farray6 identity6) = true) as ->
    by by apply bool_decide_eq_true.
  reflexivity.
Qed.

Lemma set_identity_then_get_matrix s :
  ∃ s',
    evdev_calibration_set_matrix identity6 s
      = Returns LIBINPUT_CONFIG_STATUS_SUCCESS s' [] ∧
    evdev_calibration_get_matrix s' =
      Returns (matrix_to_farray6 (usermatrix (device s)),
               negb (matrix_is_identity (usermatrix (device s)))) s' [].
Proof.
  eexists. split.
  - unfold evdev_calibration_set_matrix.
    by rewrite (bind_step _ _ _ _ _ _ (calibrate_identity s)).
  - reflexivity.
Qed.

(** The round trip holds for every matrix but the identity, whenever the
    set operation returns (both axes have their absinfo). *)
Lemma set_then_get_matrix (values : farray6) s r s' o :
  matrix_from_farray6 values ≠ matrix_init_identity →
  evdev_calibration_set_matrix values s = Returns r s' o →
  evdev_calibration_get_matrix s' = Returns (values, true) s' [].
Proof.
  intros Hvalues Hset.
  assert (Huser : usermatrix (device s') = matrix_from_farray6 values).
  { revert Hset.
    unfold evdev_calibration_set_matrix, evdev_device_calibrate,
      matrix_is_identity.
    rewrite bool_decide_eq_false_2 by done. unfold_M. simpl.
    destruct (absinfo_x (device s)); [|done].
    destruct (absinfo_y (device s)); [|done].
    simpl. intros Hr. by inversion Hr. }
  unfold evdev_calibration_get_matrix, matrix_is_identity.
  rewrite bind_get_device, Huser, matrix_to_from_farray6.
  by rewrite bool_decide_eq_false_2 by done.
Qed.

End Calibration.

(** C2 fails on the code. On the sample touchscreen the user matrix
    1.2 3.4 5.6 7.8 9.10 11.12 is set, then the identity is set: both set
    operations succeed, and the get operation still returns the first
    matrix and reports a calibration, not the identity that was set
    last. *)
Theorem identity_calibration_keeps_previous_user_matrix :
  value_of (evdev_calibration_set_matrix Sample.user_calibration
              Sample.touchscreen)
    = Some LIBINPUT_CONFIG_STATUS_SUCCESS ∧
  value_of (evdev_calibration_set_matrix identity6 Sample.calibrated)
    = Some LIBINPUT_CONFIG_STATUS_SUCCESS ∧
  value_of (evdev_calibration_get_matrix Sample.calibration_reset)
    = Some (Sample.user_calibration, true) ∧
  Sample.user_calibration ≠ identity6.
Proof.
  repeat split; try (vm_compute; reflexivity).
  intros Heq. vm_compute in Heq. discriminate Heq.
Qed.



(** * Event sequences, removal and the list *)

Section Faults.
Context `{Collaborators}.

Lemma never_aborts_bind {A B} (m : M A) (k : A → M B) :
  never_aborts m → (∀ a, never_aborts (k a)) → never_aborts (m ≫= k).
Proof.
  intros Hm Hk s f. unfold mbind, M_bind, bind.
  destruct (m s) as [a s1 o1|f1] eqn:Hms.
  - destruct (k a s1) as [b s2 o2|f2] eqn:Hks; [done|].
    intros [= <-]. by eapply Hk.
  - intros [= <-]. by eapply Hm.
Qed.

Lemma never_aborts_mret {A} (a : A) : never_aborts (mret a).
Proof. intros s f. by unfold_M. Qed.

Lemma never_aborts_notify n : never_aborts (notify n).
Proof. intros s f. by unfold_M. Qed.

Lemma never_aborts_modify_device g : never_aborts (modify_device g).
Proof. intros s f. by unfold_M. Qed.

Lemma never_aborts_put_slot_map m : never_aborts (put_slot_map m).
Proof. intros s f. by unfold_M. Qed.

Lemma never_aborts_get_device : never_aborts get_device.
Proof. intros s f. by unfold_M. Qed.

Lemma never_aborts_get_seat : never_aborts get_seat.
Proof. intros s f. by unfold_M. Qed.

Lemma never_aborts_defined {A} (x : option A) : never_aborts (defined x).
Proof. intros s f. unfold_M. destruct x; [done|by intros [= <-]]. Qed.

Lemma never_aborts_requires b : never_aborts (requires b).
Proof. intros s f. unfold_M. destruct b; [done|by intros [= <-]]. Qed.

Lemma never_aborts_log_bug_kernel : never_aborts log_bug_kernel.
Proof. apply never_aborts_mret. Qed.

Lemma never_aborts_log_bug_libinput : never_aborts log_bug_libinput.
Proof. apply never_aborts_mret. Qed.

End Faults.

Ltac never_aborts_step :=
  first
    [ apply never_aborts_bind; [|intros ?]
    | apply never_aborts_mret
    | apply never_aborts_notify
    | apply never_aborts_modify_device
    | apply never_aborts_put_slot_map
    | apply never_aborts_get_device
    | apply never_aborts_get_seat
    | apply never_aborts_defined
    | apply never_aborts_requires
    | apply never_aborts_log_bug_kernel
    | apply never_aborts_log_bug_libinput
    | match goal with
      | |- never_aborts (if ?b then _ else _) => destruct b eqn:?
      | |- never_aborts (match ?x with _ => _ end) => destruct x eqn:?
      end ].

Section KeyEvents.
Context `{Collaborators}.

Lemma flush_never_aborts time : never_aborts (evdev_flush_pending_event time).
Proof.
  unfold evdev_flush_pending_event, transform_absolute, shift_one.
  repeat never_aborts_step.
Qed.

Lemma touch_button_never_aborts time value :
  never_aborts (evdev_process_touch_button time value).
Proof.
  unfold evdev_process_touch_button.
  repeat first [apply flush_never_aborts | never_aborts_step].
Qed.

Lemma process_relative_never_aborts e time :
  never_aborts (evdev_process_relative e time).
Proof.
  unfold evdev_process_relative.
  repeat first [apply flush_never_aborts | never_aborts_step].
Qed.

Lemma process_absolute_never_aborts e time :
  never_aborts (evdev_process_absolute e time).
Proof.
  unfold evdev_process_absolute, evdev_process_touch,
    evdev_process_absolute_motion.
  repeat first [apply flush_never_aborts | never_aborts_step].
Qed.

Lemma bind_silent {A B} (m : M A) (k : A → M B) s a s1 :
  m s = Returns a s1 [] → (m ≫= k) s = k a s1.
Proof. unfold_M. intros ->. by destruct (k a s1). Qed.

(** An EV_KEY event that is no repeat and not BTN_TOUCH: the flush, then,
    unless it is a release to drop, the bit of the code and the update of
    its press count. *)
Lemma key_event_run (e : input_event) (time : Z) (s : state) :
  ev_type e = EV_KEY → ev_value e ≠ 2 → ev_code e ≠ BTN_TOUCH →
  fallback_process e time s =
    (evdev_flush_pending_event time;;
     if release_is_dropped e (device s) then mret tt
     else
       set_key_down (ev_code e) (ev_value e);;
       match key_event_update e with
       | None => mret tt
       | Some u => apply_update (to_uint32 time) u
       end) s.
Proof.
  intros Htype Hvalue Hcode. unfold fallback_process. rewrite Htype.
  change (EV_KEY =? EV_REL) with false.
  change (EV_KEY =? EV_ABS) with false.
  change (EV_KEY =? EV_KEY) with true. cbv iota.
  unfold evdev_process_key.
  destruct (Z.eqb_spec (ev_value e) 2); [done|].
  destruct (Z.eqb_spec (ev_code e) BTN_TOUCH); [done|].
  destruct (evdev_flush_pending_event time s) as [[] s1 o1|fl] eqn:Hflush;
    [|by rewrite !(bind_stops _ _ _ _ Hflush)].
  rewrite !(bind_step _ _ _ _ _ _ Hflush).
  pose proof (flush_preserves_keys time _ _ _ _ Hflush) as [= Hm _].
  match goal with
  | |- match ?x with _ => _ end = match ?y with _ => _ end =>
      cut (x = y); [by intros ->|]
  end.
  unfold release_is_dropped, key_event_update. rewrite <- Hm.
  destruct (ev_value e =? 0) eqn:Hzero;
    destruct (get_key_type (ev_code e)) eqn:Hclass;
    try (by rewrite (bind_silent (mret false) _ s1 false s1)).
  all: assert (Hrange : in_key_range (ev_code e) = true)
    by (apply key_type_in_key_range; by rewrite Hclass).
  all: rewrite (bind_silent _ _ s1
                  (negb (long_bit_is_set (key_mask (device s1)) (ev_code e)))
                  s1)
    by (unfold is_key_down; unfold_M; by rewrite Hrange).
  all: by destruct (long_bit_is_set (key_mask (device s1)) (ev_code e)).
Qed.

Lemma key_event_update_some e u :
  key_event_update e = Some u →
  update_code u = ev_code e ∧
  is_press u = negb (ev_value e =? 0) ∧
  get_key_type (ev_code e) ≠ EVDEV_KEY_TYPE_NONE.
Proof.
  unfold key_event_update.
  destruct (get_key_type (ev_code e)); [done| |]; intros [= <-]; simpl;
    by destruct (ev_value e =? 0).
Qed.

Lemma key_event_update_none e :
  key_event_update e = None → get_key_type (ev_code e) = EVDEV_KEY_TYPE_NONE.
Proof. unfold key_event_update. by destruct (get_key_type (ev_code e)). Qed.

Lemma is_key_event_true e :
  is_key_event e = true →
  ev_type e = EV_KEY ∧ ev_value e ≠ 2 ∧ ev_code e ≠ BTN_TOUCH.
Proof.
  unfold is_key_event. rewrite !andb_true_iff, !negb_true_iff.
  intros [[Htype Hvalue] Hcode]. repeat split; lia.
Qed.

(** An event that reaches the key bitmap, once the flush has returned. *)
Lemma key_event_after_flush e time s s1 o1 :
  is_key_event e = true →
  evdev_flush_pending_event time s = Returns tt s1 o1 →
  fallback_process e time s =
    if release_is_dropped e (device s) then Returns tt s1 o1
    else if negb (in_key_range (ev_code e)) then Stops UndefinedBehaviour
    else
      match key_event_update e with
      | None => Returns tt (with_key_down (ev_code e) (ev_value e) s1) o1
      | Some u =>
          match apply_update (to_uint32 time) u
                  (with_key_down (ev_code e) (ev_value e) s1) with
          | Returns _ s' o2 => Returns tt s' (o1 ++ o2)
          | Stops f => Stops f
          end
      end.
Proof.
  intros (Htype & Hvalue & Hcode)%is_key_event_true Hflush.
  rewrite key_event_run by done. rewrite (bind_step _ _ _ _ _ _ Hflush).
  destruct (release_is_dropped e (device s));
    [unfold_M; by rewrite app_nil_r|].
  unfold set_key_down.
  destruct (in_key_range (ev_code e)); simpl; [|done].
  rewrite (bind_silent _ _ s1 tt (with_key_down (ev_code e) (ev_value e) s1))
    by done.
  destruct (key_event_update e) as [u|]; [|unfold_M; by rewrite app_nil_r].
  by destruct (apply_update _ _ _) as [[] s' o2|f].
Qed.

(** Every other event leaves the bitmap and the press counts alone,
    notifies no key or button, and fails no assertion. *)
Lemma other_event_never_aborts e time :
  is_key_event e = false → never_aborts (fallback_process e time).
Proof.
  unfold is_key_event, fallback_process. intros Hkey.
  destruct (ev_type e =? EV_REL); [apply process_relative_never_aborts|].
  destruct (ev_type e =? EV_ABS); [apply process_absolute_never_aborts|].
  destruct (ev_type e =? EV_KEY);
    [|repeat first [apply flush_never_aborts | never_aborts_step]].
  unfold evdev_process_key.
  destruct (ev_value e =? 2); [apply never_aborts_mret|].
  destruct (ev_code e =? BTN_TOUCH); [|done].
  repeat first [apply touch_button_never_aborts | never_aborts_step].
Qed.

Lemma other_event_preserves_keys e time :
  is_key_event e = false →
  preserves (λ s, (key_mask (device s), key_count (device s)))
    (fallback_process e time).
Proof.
  unfold is_key_event, fallback_process. intros Hkey.
  destruct (ev_type e =? EV_REL).
  { unfold evdev_process_relative.
    repeat first [apply flush_preserves_keys | preserves_step]. }
  destruct (ev_type e =? EV_ABS).
  { unfold evdev_process_absolute, evdev_process_touch,
      evdev_process_absolute_motion.
    repeat first [apply flush_preserves_keys | preserves_step]. }
  destruct (ev_type e =? EV_KEY);
    [|repeat first [apply flush_preserves_keys | preserves_step]].
  unfold evdev_process_key.
  destruct (ev_value e =? 2); [apply preserves_mret|].
  destruct (ev_code e =? BTN_TOUCH); [|done].
  unfold evdev_process_touch_button.
  repeat first [apply flush_preserves_keys | preserves_step].
Qed.

Lemma other_event_emits_no_key e time :
  is_key_event e = false →
  emits (λ n, is_key_notification n = false) (fallback_process e time).
Proof.
  unfold is_key_event, fallback_process. intros Hkey.
  destruct (ev_type e =? EV_REL).
  { unfold evdev_process_relative.
    repeat first
      [apply flush_emits_no_key | emits_step | by apply emits_notify]. }
  destruct (ev_type e =? EV_ABS).
  { unfold evdev_process_absolute, evdev_process_touch,
      evdev_process_absolute_motion.
    repeat first
      [apply flush_emits_no_key | emits_step | by apply emits_notify]. }
  destruct (ev_type e =? EV_KEY);
    [|repeat first
        [apply flush_emits_no_key | emits_step | by apply emits_notify]].
  unfold evdev_process_key.
  destruct (ev_value e =? 2); [apply emits_mret|].
  destruct (ev_code e =? BTN_TOUCH); [|done].
  unfold evdev_process_touch_button.
  repeat first
    [apply flush_emits_no_key | emits_step | by apply emits_notify].
Qed.

Lemma keys_consistent_same s s' :
  key_mask (device s') = key_mask (device s) →
  key_count (device s') = key_count (device s) →
  keys_consistent s → keys_consistent s'.
Proof.
  unfold keys_consistent, counts_in_uint8, count_at.
  by intros -> ->.
Qed.

Lemma long_bit_set_state_eq mask code pressed :
  0 ≤ code →
  long_bit_is_set (long_set_bit_state mask code pressed) code
  = negb (pressed =? 0).
Proof.
  unfold long_bit_is_set, long_set_bit_state. intros Hcode.
  destruct (pressed =? 0); simpl;
    [apply Z.clearbit_eq|by apply Z.setbit_eq].
Qed.

Lemma long_bit_set_state_ne mask code pressed code' :
  0 ≤ code → code' ≠ code →
  long_bit_is_set (long_set_bit_state mask code pressed) code'
  = long_bit_is_set mask code'.
Proof.
  unfold long_bit_is_set, long_set_bit_state. intros Hcode Hne.
  destruct (pressed =? 0);
    [apply Z.clearbit_neq|apply Z.setbit_neq]; auto.
Qed.

Lemma count_at_with_key_count_eq s code v old :
  count_at s code = Some old →
  count_at (with_key_count code v s) code = Some v.
Proof. apply array_get_set_eq. Qed.

Lemma count_at_with_key_count_ne s code v code' :
  0 ≤ code → code' ≠ code →
  count_at (with_key_count code v s) code' = count_at s code'.
Proof.
  unfold count_at, with_key_count, array_get, array_set. simpl.
  intros Hcode Hne. destruct (code' <? 0) eqn:Hneg; [done|].
  apply list_lookup_insert_ne. lia.
Qed.

Lemma in_key_range_nonneg code : in_key_range code = true → 0 ≤ code.
Proof. unfold in_key_range. intros [? _]%andb_true_iff. lia. Qed.

Lemma press_of_range c e : 0 ≤ press_of c e ≤ 1.
Proof. unfold press_of. destruct (_ && _); lia. Qed.

Lemma presses_nonneg c events : 0 ≤ presses c events.
Proof.
  induction events as [|[e t] events IH]; simpl; [done|].
  pose proof (press_of_range c e). lia.
Qed.

Lemma presses_bound c events : presses c events ≤ Z.of_nat (length events).
Proof.
  induction events as [|[e t] events IH]; simpl; [done|].
  pose proof (press_of_range c e). lia.
Qed.

Lemma press_of_press e :
  is_key_event e = true → (ev_value e =? 0) = false →
  press_of (ev_code e) e = 1.
Proof. unfold press_of. intros -> ->. by rewrite Z.eqb_refl. Qed.

(** One event keeps the bitmap and the press counts consistent, and fails
    no assertion, when the count of its code has room for a press. *)
Lemma fallback_process_keys_consistent e time s :
  keys_consistent s →
  (∀ n, count_at s (ev_code e) = Some n →
        n + press_of (ev_code e) e ≤ 255) →
  match fallback_process e time s with
  | Returns _ s' _ => keys_consistent s'
  | Stops f => f = UndefinedBehaviour
  end.
Proof.
  intros Hs Hroom. destruct (is_key_event e) eqn:Hkey.
  2: { destruct (fallback_process e time s) as [[] s' o|f] eqn:Hr.
       - pose proof (other_event_preserves_keys e time Hkey _ _ _ _ Hr)
           as [= Hm Hc].
         by eapply keys_consistent_same.
       - by eapply other_event_never_aborts. }
  destruct (evdev_flush_pending_event time s) as [[] s1 o1|f] eqn:Hflush.
  2: { apply is_key_event_true in Hkey as (? & ? & ?).
       rewrite key_event_run, (bind_stops _ _ _ _ Hflush) by done.
       by eapply flush_never_aborts. }
  rewrite (key_event_after_flush _ _ _ _ _ Hkey Hflush).
  pose proof (flush_preserves_keys time _ _ _ _ Hflush) as [= Hm Hc].
  assert (Hs1 : keys_consistent s1) by by eapply keys_consistent_same.
  destruct (release_is_dropped e (device s)) eqn:Hdrop; [done|].
  destruct (in_key_range (ev_code e)) eqn:Hrange; simpl; [|done].
  apply in_key_range_nonneg in Hrange as Hcode.
  destruct Hs1 as [Huint8 Hdown].
  destruct (key_event_update e) as [u|] eqn:Hu.
  - apply key_event_update_some in Hu as (Hucode & Hpress & Hclass).
    destruct (count_at s1 (ev_code e)) as [old|] eqn:Hold.
    2: { rewrite apply_update_run, Hucode, Hrange. cbn [negb].
         change (count_at (with_key_down (ev_code e) (ev_value e) s1)
                   (ev_code e))
           with (count_at s1 (ev_code e)).
         by rewrite Hold. }
    pose proof (counts_in_uint8_at _ _ _ Huint8 Hold) as Hbound.
    rewrite (apply_update_run_uint8 _ _ _ old)
      by (rewrite ?Hucode; done).
    rewrite Hucode, Hpress. unfold UINT8_MOD in Hbound.
    destruct (ev_value e =? 0) eqn:Hzero; cbn [negb].
    + (* a release that is not dropped: the bit is set *)
      assert (Hbit : long_bit_is_set (key_mask (device s1)) (ev_code e) = true).
      { unfold release_is_dropped in Hdrop. rewrite Hzero, <- Hm in Hdrop.
        rewrite bool_decide_eq_false_2 in Hdrop by done. simpl in Hdrop.
        by apply negb_false_iff in Hdrop. }
      pose proof (Hdown _ _ Hclass Hbit Hold) as Hpos.
      replace (old =? 0) with false by lia.
      split.
      * apply counts_in_uint8_with_key_count;
          [unfold UINT8_MOD; lia|done].
      * intros code n Hc' Hb Hn. simpl in Hb.
        destruct (decide (code = ev_code e)) as [->|Hne].
        -- rewrite long_bit_set_state_eq in Hb by done.
           by rewrite Hzero in Hb.
        -- rewrite long_bit_set_state_ne in Hb by done.
           rewrite count_at_with_key_count_ne in Hn by done.
           by eapply Hdown.
    + (* a press: the count has room *)
      assert (Hfit : old + 1 ≤ 255).
      { rewrite <- (press_of_press e Hkey Hzero). apply Hroom.
        unfold count_at. rewrite <- Hc. exact Hold. }
      replace (old =? 255) with false by lia.
      split.
      * apply counts_in_uint8_with_key_count;
          [unfold UINT8_MOD; lia|done].
      * intros code n Hc' Hb Hn. simpl in Hb.
        destruct (decide (code = ev_code e)) as [->|Hne].
        -- erewrite count_at_with_key_count_eq in Hn by exact Hold.
           injection Hn as <-. lia.
        -- rewrite long_bit_set_state_ne in Hb by done.
           rewrite count_at_with_key_count_ne in Hn by done.
           by eapply Hdown.
  - apply key_event_update_none in Hu. split; [done|].
    intros code n Hc' Hb Hn. simpl in Hb.
    destruct (decide (code = ev_code e)) as [->|Hne]; [done|].
    rewrite long_bit_set_state_ne in Hb by done.
    by eapply Hdown.
Qed.

Lemma key_balance_app c o1 o2 :
  key_balance c (o1 ++ o2) = key_balance c o1 + key_balance c o2.
Proof.
  unfold key_balance. induction o1 as [|n o1 IH]; simpl; [done|].
  rewrite IH. lia.
Qed.

Lemma key_balance_no_key c o :
  Forall (λ n, is_key_notification n = false) o → key_balance c o = 0.
Proof.
  unfold key_balance. induction 1 as [|n o Hn _ IH]; simpl; [done|].
  rewrite IH. by destruct n.
Qed.

Lemma key_edge_pressed c time u :
  key_edge c (pressed_notification time u) =
    if update_code u =? c then 1 else 0.
Proof. by destruct u. Qed.

Lemma key_edge_released c time u :
  key_edge c (released_notification time u) =
    if update_code u =? c then -1 else 0.
Proof. by destruct u. Qed.

(** One event, for a code whose count has room for a press: the count
    grows by at most the press, and the PRESSED less the RELEASED
    notifications of the code are the change of its being down. *)
Lemma fallback_process_balance e time s s' o c old :
  fallback_process e time s = Returns tt s' o →
  count_at s c = Some old →
  0 ≤ old → old + press_of c e ≤ 255 →
  ∃ new,
    count_at s' c = Some new ∧ 0 ≤ new ≤ old + press_of c e ∧
    key_balance c o = down new - down old.
Proof.
  intros Hr Hold Hold0 Hroom. pose proof (press_of_range c e) as Hpress01.
  destruct (is_key_event e) eqn:Hkey.
  2: { pose proof (other_event_preserves_keys e time Hkey _ _ _ _ Hr)
         as [= _ Hc].
       exists old. unfold count_at. rewrite Hc. split; [done|].
       split; [lia|].
       rewrite key_balance_no_key; [lia|].
       by eapply other_event_emits_no_key. }
  destruct (evdev_flush_pending_event time s) as [[] s1 o1|f] eqn:Hflush.
  2: { apply is_key_event_true in Hkey as (? & ? & ?).
       by rewrite key_event_run, (bind_stops _ _ _ _ Hflush) in Hr. }
  rewrite (key_event_after_flush _ _ _ _ _ Hkey Hflush) in Hr.
  pose proof (flush_preserves_keys time _ _ _ _ Hflush) as [= _ Hc].
  pose proof (key_balance_no_key c _ (flush_emits_no_key time _ _ _ _ Hflush))
    as Ho1.
  assert (Hold1 : count_at s1 c = Some old) by (unfold count_at; by rewrite Hc).
  destruct (release_is_dropped e (device s)).
  { injection Hr as <- <-. exists old. split; [done|lia]. }
  destruct (in_key_range (ev_code e)) eqn:Hrange; simpl in Hr; [|done].
  apply in_key_range_nonneg in Hrange as Hcode.
  destruct (key_event_update e) as [u|] eqn:Hu.
  2: { injection Hr as <- <-. exists old. split; [done|lia]. }
  apply key_event_update_some in Hu as (Hucode & Hpress & _).
  destruct (decide (c = ev_code e)) as [->|Hne].
  - rewrite (apply_update_run_uint8 _ _ _ old) in Hr
      by (rewrite ?Hucode; done || (unfold UINT8_MOD; lia)).
    rewrite Hucode, Hpress in Hr.
    destruct (ev_value e =? 0) eqn:Hzero; cbn [negb] in Hr.
    + destruct (Z.eqb_spec old 0) as [->|Hpos]; [done|].
      injection Hr as <- <-. eexists.
      split; [by eapply count_at_with_key_count_eq|].
      split; [lia|].
      rewrite key_balance_app, Ho1. unfold down.
      destruct (Z.eqb_spec old 1); simpl;
        rewrite ?key_edge_released, ?Hucode, ?Z.eqb_refl;
        repeat match goal with
               | |- context [0 <? ?a] => destruct (Z.ltb_spec 0 a)
               end; lia.
    + rewrite (press_of_press e Hkey Hzero) in Hroom, Hpress01 |- *.
      replace (old =? 255) with false in Hr by lia.
      injection Hr as <- <-. eexists.
      split; [by eapply count_at_with_key_count_eq|].
      split; [lia|].
      rewrite key_balance_app, Ho1. unfold down.
      destruct (Z.eqb_spec old 0); simpl;
        rewrite ?key_edge_pressed, ?Hucode, ?Z.eqb_refl;
        repeat match goal with
               | |- context [0 <? ?a] => destruct (Z.ltb_spec 0 a)
               end; lia.
  - exists old. rewrite apply_update_run, Hucode, Hrange in Hr.
    cbn [negb] in Hr.
    change (count_at (with_key_down (ev_code e) (ev_value e) s1) (ev_code e))
      with (count_at s1 (ev_code e)) in Hr.
    destruct (count_at s1 (ev_code e)) as [old'|] eqn:Hold'; [|done].
    rewrite Hpress in Hr.
    destruct (ev_value e =? 0); cbn [negb] in Hr;
      [destruct (0 <? old') eqn:Hpos; [|done]|];
      injection Hr as <- <-;
      (split; [by rewrite count_at_with_key_count_ne|]);
      (split; [lia|]);
      rewrite key_balance_app, Ho1;
      match goal with
      | |- context [if ?b then _ else _] => destruct b
      end; simpl;
      rewrite ?key_edge_pressed, ?key_edge_released, ?Hucode;
      destruct (Z.eqb_spec (ev_code e) c); try done; lia.
Qed.

Lemma process_events_balance events s s' o c old :
  process_events events s = Returns tt s' o →
  count_at s c = Some old →
  0 ≤ old → old + presses c events ≤ 255 →
  ∃ new,
    count_at s' c = Some new ∧ 0 ≤ new ≤ old + presses c events ∧
    key_balance c o = down new - down old.
Proof.
  revert s o old. induction events as [|[e time] events IH];
    intros s o old Hr Hold Hold0 Hroom; simpl in Hr, Hroom |- *.
  - injection Hr as <- <-. exists old. split; [done|]. simpl. lia.
  - apply bind_returns in Hr as ([] & s1 & o1 & o2 & He & Hes & ->).
    pose proof (presses_nonneg c events) as Hrest.
    destruct (fallback_process_balance _ _ _ _ _ _ _ He Hold Hold0)
      as (mid & Hmid & Hmid0 & Ho1); [lia|].
    destruct (IH _ _ _ Hes Hmid) as (new & Hnew & Hnew0 & Ho2); [lia..|].
    exists new. split; [done|]. split; [lia|].
    rewrite key_balance_app. lia.
Qed.

(** An event leaves the array of press counts its length. *)
Lemma fallback_process_counts_length e time s s' o :
  fallback_process e time s = Returns tt s' o →
  length (key_count (device s')) = length (key_count (device s)).
Proof.
  intros Hr. destruct (is_key_event e) eqn:Hkey.
  { destruct (evdev_flush_pending_event time s) as [[] s1 o1|f] eqn:Hflush.
    2: { apply is_key_event_true in Hkey as (? & ? & ?).
         by rewrite key_event_run, (bind_stops _ _ _ _ Hflush) in Hr. }
    rewrite (key_event_after_flush _ _ _ _ _ Hkey Hflush) in Hr.
    pose proof (flush_preserves_keys time _ _ _ _ Hflush) as [= _ Hc].
    rewrite <- Hc.
    destruct (release_is_dropped e (device s));
      [by injection Hr as <- <-|].
    destruct (in_key_range (ev_code e)); simpl in Hr; [|done].
    destruct (key_event_update e) as [u|]; [|by injection Hr as <- <-].
    rewrite apply_update_run in Hr.
    destruct (in_key_range (update_code u)); [|done]. cbn [negb] in Hr.
    destruct (count_at _ (update_code u)) as [old|]; [|done].
    destruct (is_press u); [|destruct (0 <? old); [|done]];
      injection Hr as <- <-; unfold with_key_count, array_set; simpl;
      by rewrite length_insert. }
  pose proof (other_event_preserves_keys e time Hkey _ _ _ _ Hr) as [= _ Hc].
  by rewrite Hc.
Qed.

Lemma count_at_defined s s' c n' :
  length (key_count (device s')) = length (key_count (device s)) →
  count_at s' c = Some n' → is_Some (count_at s c).
Proof.
  unfold count_at, array_get. intros Hlen.
  destruct (c <? 0); [done|]. intros Hn'%lookup_lt_Some.
  apply lookup_lt_is_Some. by rewrite <- Hlen.
Qed.

(** The presses that remain after an event still fit. *)
Lemma presses_fit_step e time events s s' o :
  counts_in_uint8 s →
  presses_fit ((e, time) :: events) s →
  fallback_process e time s = Returns tt s' o →
  presses_fit events s'.
Proof.
  intros Huint8 Hfit Hr code n' Hn'.
  destruct (count_at_defined s s' code n') as [old Hold];
    [by eapply fallback_process_counts_length|done|].
  pose proof (Hfit _ _ Hold) as Hroom. simpl in Hroom.
  pose proof (presses_nonneg code events) as Hrest.
  pose proof (counts_in_uint8_at _ _ _ Huint8 Hold) as Hbound.
  destruct (fallback_process_balance _ _ _ _ _ code old Hr Hold)
    as (new & Hnew & Hnew0 & _); [lia..|].
  rewrite Hnew in Hn'. injection Hn' as <-. lia.
Qed.

(** X1. The fallback dispatcher keeps the key bitmap and the press counts
    consistent as long as the press counts, which are eight bits wide, do
    not wrap around: from a state in which every key or button whose bit is
    set has a positive press count, no sequence of events whose presses
    fit the counts (no count would exceed 255) makes an assertion of
    update_key_down_count fail, neither the range check of the code nor
    the check that a released key has a positive count; and the state left
    is consistent again. *)
Theorem key_events_fail_no_assertion
    (events : list (input_event * Z)) (s : state) :
  keys_consistent s →
  presses_fit events s →
  returns_in keys_consistent (process_events events s).
Proof.
  unfold returns_in.
  revert s. induction events as [|[e time] events IH]; intros s Hs Hfit;
    [done|].
  simpl.
  assert (Hroom : ∀ n, count_at s (ev_code e) = Some n →
                       n + press_of (ev_code e) e ≤ 255).
  { intros n Hn. pose proof (Hfit _ _ Hn) as Hroom. simpl in Hroom.
    pose proof (presses_nonneg (ev_code e) events). lia. }
  pose proof (fallback_process_keys_consistent e time s Hs Hroom) as Hstep.
  destruct (fallback_process e time s) as [[] s1 o1|f] eqn:Hr.
  - rewrite (bind_step _ _ _ _ _ _ Hr).
    assert (Hfit1 : presses_fit events s1)
      by (eapply presses_fit_step; [apply Hs|exact Hfit|exact Hr]).
    specialize (IH s1 Hstep Hfit1).
    by destruct (process_events events s1).
  - by rewrite (bind_stops _ _ _ _ Hr).
Qed.

(** X2. Along every sequence of events that the fallback dispatcher
    processes, for every code whose press count does not wrap around (the
    count, a value of uint8_t, plus the presses of the code among the
    events is at most 255): the number of PRESSED notifications of the
    code less the number of its RELEASED notifications is 1 when the code
    was up before and is down after (its press count went from 0 to
    positive), -1 when it was down and is up, and 0 otherwise. *)
Theorem press_release_balance
    (events : list (input_event * Z)) (s s' : state) (o : list notification)
    (code old : Z) :
  process_events events s = Returns tt s' o →
  count_at s code = Some old →
  0 ≤ old →
  old + presses code events ≤ 255 →
  ∃ new,
    count_at s' code = Some new ∧
    key_balance code o = down new - down old.
Proof.
  intros Hr Hold Hold0 Hroom.
  destruct (process_events_balance _ _ _ _ _ _ Hr Hold Hold0 Hroom)
    as (new & Hnew & _ & Hbalance).
  by exists new.
Qed.

End KeyEvents.

Section Removed.
Context `{Collaborators}.

Lemma release_pressed_key_run time code s :
  release_pressed_key time code s =
    match count_at s code with
    | None => Stops UndefinedBehaviour
    | Some n =>
        Returns tt s
          (if 0 <? n then
             match get_key_type code with
             | EVDEV_KEY_TYPE_NONE => []
             | EVDEV_KEY_TYPE_KEY =>
                 [keyboard_notify_key time code LIBINPUT_KEY_STATE_RELEASED]
             | EVDEV_KEY_TYPE_BUTTON =>
                 [pointer_notify_button time code
                    LIBINPUT_BUTTON_STATE_RELEASED]
             end
           else [])
    end.
Proof.
  unfold release_pressed_key, get_key_down_count, count_at. unfold_M.
  destruct (array_get (key_count (device s)) code) as [n|]; [|done].
  destruct (0 <? n); [|done]. by destruct (get_key_type code).
Qed.

(** The codes the notifications name are among [codes], in the order of
    [codes]. *)
Lemma for_each_release time codes s :
  NoDup codes →
  (∀ code, code ∈ codes → is_Some (count_at s code)) →
  ∃ o,
    for_each_code codes (release_pressed_key time) s = Returns tt s o ∧
    Forall (is_release_at time) o ∧
    (∀ c n, count_at s c = Some n →
       key_balance c o =
         if bool_decide (c ∈ codes) &&
            negb (bool_decide (get_key_type c = EVDEV_KEY_TYPE_NONE))
         then - down n else 0) ∧
    omap notified_code o = List.filter (is_down s) codes.
Proof.
  induction codes as [|code codes IH]; intros Hnodup Hcounts; simpl.
  { exists []. repeat split; auto. }
  apply NoDup_cons in Hnodup as [Hfresh Hnodup].
  destruct IH as (o & Hrun & Hrel & Hbal & Hcodes); [done| |].
  { intros c Hc. apply Hcounts. by right. }
  destruct (Hcounts code) as [n Hn]; [by left|].
  pose proof (release_pressed_key_run time code s) as Hone.
  rewrite Hn in Hone.
  rewrite (bind_step _ _ _ _ _ _ Hone), Hrun.
  eexists. split; [done|]. split; [|split].
  - apply Forall_app. split; [|done].
    destruct (0 <? n); [|done].
    destruct (get_key_type code) eqn:Hclass; [done| |]; by constructor.
  - intros c m Hm. rewrite key_balance_app, (Hbal _ _ Hm).
    destruct (decide (c = code)) as [->|Hne].
    + rewrite Hn in Hm. injection Hm as <-.
      rewrite (bool_decide_eq_true_2 (code ∈ code :: codes)) by by left.
      rewrite (bool_decide_eq_false_2 (code ∈ codes)) by done.
      unfold down. destruct (0 <? n); simpl;
        destruct (get_key_type code); simpl; rewrite ?Z.eqb_refl; done.
    + assert (Hin : bool_decide (c ∈ code :: codes) = bool_decide (c ∈ codes)).
      { apply bool_decide_ext. rewrite elem_of_cons.
        split; [by intros [?|?]|by right]. }
      rewrite Hin.
      assert (Hzero : ∀ o', o' = [] ∨
                 o' = [keyboard_notify_key time code LIBINPUT_KEY_STATE_RELEASED] ∨
                 o' = [pointer_notify_button time code
                         LIBINPUT_BUTTON_STATE_RELEASED] →
                 key_balance c o' = 0).
      { intros o' [->|[->| ->]]; simpl; [done| |];
          by destruct (Z.eqb_spec code c). }
      rewrite Hzero; [lia|].
      destruct (0 <? n); [|by left]. destruct (get_key_type code); auto.
  - rewrite omap_app, Hcodes. unfold is_down at 2. rewrite Hn.
    destruct (0 <? n); [|done]. by destruct (get_key_type code).
Qed.

Lemma count_at_is_Some s code :
  length (key_count (device s)) = Z.to_nat KEY_CNT →
  code ∈ seqZ 0 KEY_CNT → is_Some (count_at s code).
Proof.
  intros Hlen [Hlo Hhi]%elem_of_seqZ. unfold count_at, array_get.
  replace (code <? 0) with false by lia.
  apply lookup_lt_is_Some. rewrite Hlen. lia.
Qed.

(** X3. release_pressed_keys, which evdev_device_remove calls: when
    clock_gettime fails it notifies nothing. Otherwise it returns (the
    press counts being an array of KEY_CNT entries) and notifies RELEASED,
    with the clock's time in milliseconds, once for every key and button
    whose press count is positive and for nothing else, in ascending order
    of the codes, a key through the keyboard and a button through the
    pointer entry point. In both cases it leaves the device as it was: the
    press counts stay positive. *)
Theorem release_pressed_keys_releases_what_is_down
    (clock : option timespec) (s : state) :
  length (key_count (device s)) = Z.to_nat KEY_CNT →
  ∃ o,
    release_pressed_keys clock s = Returns tt s o ∧
    match clock with
    | None => o = []
    | Some ts =>
        Forall (is_release_at (timespec_to_ms ts)) o ∧
        omap notified_code o = List.filter (is_down s) (seqZ 0 KEY_CNT)
    end.
Proof.
  intros Hlen. unfold release_pressed_keys.
  destruct clock as [ts|]; [|by exists []].
  destruct (for_each_release (timespec_to_ms ts) (seqZ 0 KEY_CNT) s)
    as (o & Hrun & Hrel & _ & Hcodes).
  - apply NoDup_seqZ.
  - intros code. by apply count_at_is_Some.
  - by exists o.
Qed.

(** X4. A device whose press counts start at zero, as evdev_device_create
    leaves them, and that is removed after a sequence of events that
    presses no code more than 255 times (the press counts, eight bits wide,
    do not wrap around): the notifications of the events followed by those
    of release_pressed_keys hold, for every key and button code, as many
    RELEASED as PRESSED notifications of the code. *)
Theorem removal_balances_presses
    (events : list (input_event * Z)) (s s1 : state)
    (o1 : list notification) (ts : timespec) :
  key_count (device s) = replicate (Z.to_nat KEY_CNT) 0 →
  (∀ code, presses code events ≤ 255) →
  process_events events s = Returns tt s1 o1 →
  ∃ o2,
    release_pressed_keys (Some ts) s1 = Returns tt s1 o2 ∧
    ∀ code,
      get_key_type code ≠ EVDEV_KEY_TYPE_NONE →
      key_balance code (o1 ++ o2) = 0.
Proof.
  intros Hzero Hfit Hevents.
  assert (Hstart : ∀ code, code ∈ seqZ 0 KEY_CNT → count_at s code = Some 0).
  { intros code [Hlo Hhi]%elem_of_seqZ. unfold count_at, array_get.
    replace (code <? 0) with false by lia. rewrite Hzero.
    apply lookup_replicate_2. lia. }
  assert (Hend : ∀ code, code ∈ seqZ 0 KEY_CNT →
            ∃ new, count_at s1 code = Some new ∧
                   key_balance code o1 = down new - down 0).
  { intros code Hcode.
    destruct (process_events_balance _ _ _ _ code 0 Hevents (Hstart _ Hcode))
      as (new & Hnew & _ & Ho1); [done|specialize (Hfit code); lia|].
    by exists new. }
  destruct (for_each_release (timespec_to_ms ts) (seqZ 0 KEY_CNT) s1)
    as (o2 & Hrun & _ & Hbal & _).
  - apply NoDup_seqZ.
  - intros code Hcode. destruct (Hend _ Hcode) as (new & -> & _).
    by eexists.
  - exists o2. split; [done|]. intros code Hclass.
    assert (Hcode : code ∈ seqZ 0 KEY_CNT).
    { apply key_type_below_key_max in Hclass. apply elem_of_seqZ.
      unfold KEY_CNT. lia. }
    destruct (Hend _ Hcode) as (new & Hnew & Ho1).
    rewrite key_balance_app, Ho1, (Hbal _ _ Hnew).
    rewrite bool_decide_eq_true_2, bool_decide_eq_false_2 by done.
    cbn [andb negb]. change (down 0) with 0. lia.
Qed.

End Removed.

Lemma key_events_fail_no_assertion_witness :
  returns_in keys_consistent
    (process_events Scenario.typing Sample.keyboard_mouse).
Proof.
  assert (Hzero : Forall (λ n, n = 0) (key_count (device Sample.keyboard_mouse)))
    by compute_done.
  apply (key_events_fail_no_assertion Scenario.typing Sample.keyboard_mouse).
  - split.
    + unfold counts_in_uint8. compute_done.
    + intros code n _ Hbit.
      replace (key_mask (device Sample.keyboard_mouse)) with 0 in Hbit
        by (vm_compute; reflexivity).
      unfold long_bit_is_set in Hbit. by rewrite Z.bits_0 in Hbit.
  - intros code n Hn.
    assert (n = 0) as ->.
    { unfold count_at, array_get in Hn. destruct (code <? 0); [done|].
      by eapply Forall_lookup_1 in Hzero; [|exact Hn]. }
    pose proof (presses_bound code Scenario.typing) as Hbound.
    change (Z.of_nat (length Scenario.typing)) with 10 in Hbound. lia.
Defined.

Lemma press_release_balance_witness :
  ∃ new,
    count_at Scenario.typed 0x110 = Some new ∧
    key_balance 0x110
      (output_of (process_events Scenario.typing Sample.keyboard_mouse))
    = down new - down 0.
Proof.
  apply (press_release_balance Scenario.typing Sample.keyboard_mouse
           Scenario.typed
           (output_of (process_events Scenario.typing Sample.keyboard_mouse))
           0x110 0).
  - apply (outcome_eta (process_events Scenario.typing Sample.keyboard_mouse)).
    vm_compute. reflexivity.
  - vm_compute. reflexivity.
  - done.
  - by vm_compute.
Defined.

Lemma release_pressed_keys_releases_what_is_down_witness :
  ∃ o,
    release_pressed_keys (Some Scenario.removal_time) Scenario.typed
      = Returns tt Scenario.typed o ∧
    Forall (is_release_at (timespec_to_ms Scenario.removal_time)) o ∧
    omap notified_code o =
      List.filter (is_down Scenario.typed) (seqZ 0 KEY_CNT).
Proof.
  apply (release_pressed_keys_releases_what_is_down
           (Some Scenario.removal_time) Scenario.typed).
  vm_compute. reflexivity.
Defined.

Lemma removal_balances_presses_witness :
  ∃ o2,
    release_pressed_keys (Some Scenario.removal_time) Scenario.typed
      = Returns tt Scenario.typed o2 ∧
    ∀ code,
      get_key_type code ≠ EVDEV_KEY_TYPE_NONE →
      key_balance code
        (output_of (process_events Scenario.typing Sample.keyboard_mouse)
         ++ o2) = 0.
Proof.
  apply (removal_balances_presses Scenario.typing Sample.keyboard_mouse
           Scenario.typed
           (output_of (process_events Scenario.typing Sample.keyboard_mouse))
           Scenario.removal_time).
  - vm_compute. reflexivity.
  - intros code. pose proof (presses_bound code Scenario.typing) as Hbound.
    change (Z.of_nat (length Scenario.typing)) with 10 in Hbound. lia.
  - apply (outcome_eta (process_events Scenario.typing Sample.keyboard_mouse)).
    vm_compute. reflexivity.
Defined.

Section Motion.
Context `{Collaborators}.

Lemma to_int_add_l a b : to_int (to_int a + b) = to_int (a + b).
Proof.
  unfold to_int.
  replace ((a - INT_MIN) mod UINT32_MOD + INT_MIN + b - INT_MIN)
    with ((a - INT_MIN) mod UINT32_MOD + b) by lia.
  rewrite Zplus_mod_idemp_l. do 2 f_equal. lia.
Qed.

Lemma flush_none time s :
  pending_event (device s) = EVDEV_NONE →
  evdev_flush_pending_event time s = Returns tt s [].
Proof.
  intros Hp. unfold evdev_flush_pending_event.
  by rewrite bind_get_device, bind_get_seat, Hp.
Qed.

(** One REL_X or REL_Y event on a device with no other event pending. *)
Lemma relative_motion_step e time s :
  is_relative_motion e = true →
  pending_event (device s) = EVDEV_NONE ∨
  pending_event (device s) = EVDEV_RELATIVE_MOTION →
  fallback_process e time s =
    Returns tt
      (mk_state
         (set_pending_event EVDEV_RELATIVE_MOTION
            (if ev_code e =? REL_X then
               set_rel_dx (to_int (rel_dx (device s) + ev_value e)) (device s)
             else
               set_rel_dy (to_int (rel_dy (device s) + ev_value e)) (device s)))
         (seat s))
      [].
Proof.
  unfold is_relative_motion, fallback_process, evdev_process_relative.
  intros [Htype Hcode]%andb_true_iff Hp. rewrite Htype.
  destruct (ev_code e =? REL_X) eqn:Hx.
  - rewrite bind_get_device.
    rewrite (bind_silent _ _ s tt s);
      [done|destruct Hp as [Hp|Hp]; rewrite Hp; [by apply flush_none|done]].
  - simpl in Hcode. rewrite Hcode, bind_get_device.
    rewrite (bind_silent _ _ s tt s);
      [done|destruct Hp as [Hp|Hp]; rewrite Hp; [by apply flush_none|done]].
Qed.

Lemma relative_motion_run events s :
  Forall (λ et, is_relative_motion et.1 = true) events →
  pending_event (device s) = EVDEV_NONE ∨
  pending_event (device s) = EVDEV_RELATIVE_MOTION →
  INT_MIN ≤ rel_dx (device s) ≤ INT_MAX →
  INT_MIN ≤ rel_dy (device s) ≤ INT_MAX →
  process_events events s =
    Returns tt
      (mk_state
         (set_pending_event
            (match events with
             | [] => pending_event (device s)
             | _ => EVDEV_RELATIVE_MOTION
             end)
            (set_rel_dy (to_int (rel_dy (device s) + moved REL_Y events))
               (set_rel_dx (to_int (rel_dx (device s) + moved REL_X events))
                  (device s))))
         (seat s))
      [].
Proof.
  intros Hevents. revert s.
  induction Hevents as [|[e time] events He _ IH]; intros s Hp Hdx Hdy.
  - simpl. rewrite !Z.add_0_r, !to_int_in_range by done.
    by destruct s as [[] ?].
  - cbn [process_events]. simpl in He.
    rewrite (bind_silent _ _ s tt _ (relative_motion_step e time s He Hp)).
    rewrite IH.
    + f_equal. cbn [moved foldr fst device seat]. f_equal.
      unfold is_relative_motion in He.
      apply andb_true_iff in He as [_ Hcode].
      destruct (Z.eqb_spec (ev_code e) REL_X) as [Hx|Hx].
      * rewrite Hx. change (REL_X =? REL_Y) with false.
        cbn [rel_dx rel_dy set_pending_event set_rel_dx pending_event].
        rewrite to_int_add_l, Z.add_0_l, Z.add_assoc.
        destruct events; reflexivity.
      * simpl in Hcode. rewrite Hcode.
        cbn [rel_dx rel_dy set_pending_event set_rel_dy pending_event].
        rewrite to_int_add_l, Z.add_0_l, Z.add_assoc.
        destruct events; reflexivity.
    + by right.
    + destruct (ev_code e =? REL_X); simpl; [|done].
      unfold to_int, INT_MIN, INT_MAX, UINT32_MOD.
      pose proof (Z.mod_pos_bound (rel_dx (device s) + ev_value e - - 2 ^ 31)
                    (2 ^ 32)). lia.
    + destruct (ev_code e =? REL_X); simpl; [done|].
      unfold to_int, INT_MIN, INT_MAX, UINT32_MOD.
      pose proof (Z.mod_pos_bound (rel_dy (device s) + ev_value e - - 2 ^ 31)
                    (2 ^ 32)). lia.
Qed.

(** X5. REL_X and REL_Y events coalesce: on a device with nothing or a
    relative motion pending, a run of such events notifies nothing and
    leaves a relative motion pending whose deltas are the deltas there
    were plus the sums of the values of each axis, wrapped to [int] once,
    whatever the intermediate sums were; the rest of the device and the
    seat stay as they were. *)
Theorem relative_motion_accumulates
    (events : list (input_event * Z)) (s : state) :
  Forall (λ et, is_relative_motion et.1 = true) events →
  pending_event (device s) = EVDEV_NONE ∨
  pending_event (device s) = EVDEV_RELATIVE_MOTION →
  INT_MIN ≤ rel_dx (device s) ≤ INT_MAX →
  INT_MIN ≤ rel_dy (device s) ≤ INT_MAX →
  process_events events s =
    Returns tt
      (mk_state
         (set_pending_event
            (match events with
             | [] => pending_event (device s)
             | _ => EVDEV_RELATIVE_MOTION
             end)
            (set_rel_dy (to_int (rel_dy (device s) + moved REL_Y events))
               (set_rel_dx (to_int (rel_dx (device s) + moved REL_X events))
                  (device s))))
         (seat s))
      [].
Proof. apply relative_motion_run. Qed.

Lemma flush_clears_pending time s s' o :
  evdev_flush_pending_event time s = Returns tt s' o →
  pending_event (device s') = EVDEV_NONE.
Proof.
  unfold evdev_flush_pending_event. rewrite bind_get_device, bind_get_seat.
  destruct (pending_event (device s)) eqn:Hp.
  1: { unfold_M. by intros [= <- _]. }
  all: intros Hr; by apply then_set_pending_event in Hr as [? _].
Qed.

Lemma syn_report_idle code value time s :
  pending_event (device s) = EVDEV_NONE →
  fallback_process (mk_input_event EV_SYN code value) time s = Returns tt s [].
Proof.
  intros Hp. rewrite fallback_process_syn.
  rewrite (bind_silent _ _ s tt s (flush_none time s Hp)).
  unfold evdev_need_touch_frame. rewrite Hp.
  by destruct (negb (has_seat_cap (device s) EVDEV_DEVICE_TOUCH)).
Qed.

(** X6. An EV_SYN event leaves nothing to do for the next one: whenever
    the fallback dispatcher has processed an EV_SYN event, a second one
    that follows it directly (as evdev_device_dispatch sends one before it
    resynchronises) notifies nothing and changes nothing. *)
Theorem syn_report_after_syn_report_is_silent
    (code value time code' value' time' : Z) (s s' : state)
    (o : list notification) :
  fallback_process (mk_input_event EV_SYN code value) time s
    = Returns tt s' o →
  fallback_process (mk_input_event EV_SYN code' value') time' s'
    = Returns tt s' [].
Proof.
  rewrite fallback_process_syn. intros Hr.
  apply bind_returns in Hr as ([] & s1 & o1 & o2 & Hflush & Hframe & _).
  apply flush_clears_pending in Hflush. apply syn_report_idle.
  revert Hframe. destruct (evdev_need_touch_frame (device s)); unfold_M;
    by intros [= <- _].
Qed.

End Motion.

Lemma relative_motion_accumulates_witness :
  process_events Scenario.stick Sample.keyboard_mouse =
    Returns tt
      (mk_state
         (set_pending_event EVDEV_RELATIVE_MOTION
            (set_rel_dy
               (to_int (rel_dy (device Sample.keyboard_mouse)
                        + moved REL_Y Scenario.stick))
               (set_rel_dx
                  (to_int (rel_dx (device Sample.keyboard_mouse)
                           + moved REL_X Scenario.stick))
                  (device Sample.keyboard_mouse))))
         (seat Sample.keyboard_mouse))
      [].
Proof.
  apply (relative_motion_accumulates Scenario.stick Sample.keyboard_mouse).
  - repeat constructor.
  - left. vm_compute. reflexivity.
  - replace (rel_dx (device Sample.keyboard_mouse)) with 0
      by (vm_compute; reflexivity).
    unfold INT_MIN, INT_MAX. lia.
  - replace (rel_dy (device Sample.keyboard_mouse)) with 0
      by (vm_compute; reflexivity).
    unfold INT_MIN, INT_MAX. lia.
Defined.

Lemma syn_report_after_syn_report_is_silent_witness :
  fallback_process (mk_input_event EV_SYN SYN_REPORT 0) 2
    (state_of (fallback_process Sample.syn_report 1 Sample.touch_down_pending)
       Sample.touch_down_pending)
  = Returns tt
      (state_of (fallback_process Sample.syn_report 1 Sample.touch_down_pending)
         Sample.touch_down_pending)
      [].
Proof.
  apply (syn_report_after_syn_report_is_silent SYN_REPORT 0 1 SYN_REPORT 0 2
           Sample.touch_down_pending _
           (output_of
              (fallback_process Sample.syn_report 1 Sample.touch_down_pending))).
  apply (outcome_eta
           (fallback_process Sample.syn_report 1 Sample.touch_down_pending)).
  vm_compute. reflexivity.
Defined.

Ltac preserves_configuration_step :=
  first
    [ preserves_step
    | apply preserves_modify_device; intros ?;
      unfold configuration, array_set; cbn;
      rewrite ?length_insert; reflexivity ].

Section Configuration.
Context `{Collaborators}.

Lemma flush_preserves_configuration time :
  preserves configuration (evdev_flush_pending_event time).
Proof.
  unfold evdev_flush_pending_event, transform_absolute, shift_one.
  repeat preserves_configuration_step.
Qed.

Lemma fallback_process_preserves_configuration e time :
  preserves configuration (fallback_process e time).
Proof.
  unfold fallback_process, evdev_process_relative, evdev_process_absolute,
    evdev_process_touch, evdev_process_absolute_motion, evdev_process_key,
    evdev_process_touch_button, set_key_down, is_key_down,
    evdev_keyboard_notify_key, evdev_pointer_notify_button,
    update_key_down_count.
  repeat first
    [apply flush_preserves_configuration | preserves_configuration_step].
Qed.

Lemma process_events_preserves_configuration events :
  preserves configuration (process_events events).
Proof.
  induction events as [|[e time] events IH]; simpl.
  - apply preserves_mret.
  - apply preserves_bind; [apply fallback_process_preserves_configuration|].
    intros _. apply IH.
Qed.

(** X7. Whatever events the fallback dispatcher processes, it never
    changes what configuration and creation set up: the capabilities, the
    multi-touch flag, the dispatcher, the descriptor, the mtdev handle, the
    axis ranges and the fake-resolution flag, the calibration (whether it
    applies, the matrix in use, the default and the user matrix), and the
    size of the array of press counts. *)
Theorem events_preserve_configuration
    (events : list (input_event * Z)) (s s' : state) (o : list notification) :
  process_events events s = Returns tt s' o →
  configuration s' = configuration s.
Proof. apply process_events_preserves_configuration. Qed.

End Configuration.

Lemma events_preserve_configuration_witness :
  configuration Scenario.typed = configuration Sample.keyboard_mouse.
Proof.
  apply (events_preserve_configuration Scenario.typing Sample.keyboard_mouse
           Scenario.typed
           (output_of (process_events Scenario.typing Sample.keyboard_mouse))).
  apply (outcome_eta (process_events Scenario.typing Sample.keyboard_mouse)).
  vm_compute. reflexivity.
Defined.

Section MatrixRoundTrips.
Context `{Collaborators}.

Lemma calibrate_preserves_default calibration :
  preserves (λ s, default_calibration (device s))
    (evdev_device_calibrate calibration).
Proof. unfold evdev_device_calibrate. repeat preserves_step. Qed.

(** X8. The user matrix round-trips for every matrix but the identity:
    whenever evdev_calibration_set_matrix returns for six floats that are
    not the identity, evdev_calibration_get_matrix gives back the same six
    floats and reports a calibration. *)
Theorem user_matrix_round_trip
    (values : farray6) (s : state) (rc : Z) (s' : state)
    (o : list notification) :
  matrix_from_farray6 values ≠ matrix_init_identity →
  evdev_calibration_set_matrix values s = Returns rc s' o →
  evdev_calibration_get_matrix s' = Returns (values, true) s' [].
Proof. apply set_then_get_matrix. Qed.

(** X9. The default matrix round-trips for every matrix, the identity
    included: whenever evdev_device_set_default_calibration returns,
    evdev_calibration_get_default_matrix gives back the six floats that
    were set, and reports a calibration exactly when they are not the
    identity. *)
Theorem default_matrix_round_trip
    (values : farray6) (s s' : state) (o : list notification) :
  evdev_device_set_default_calibration values s = Returns tt s' o →
  evdev_calibration_get_default_matrix s' =
    Returns (values, negb (matrix_is_identity (matrix_from_farray6 values)))
      s' [].
Proof.
  unfold evdev_device_set_default_calibration.
  rewrite bind_modify_device. intros Hr.
  apply calibrate_preserves_default in Hr. simpl in Hr.
  unfold evdev_calibration_get_default_matrix.
  by rewrite bind_get_device, Hr, matrix_to_from_farray6.
Qed.

(** X10. evdev_calibration_set_matrix is defined exactly when the matrix
    is the identity or the device has both axis ranges, which is what
    evdev_calibration_has_matrix reports: then it returns SUCCESS, notifies
    nothing, and the calibration applies from then on exactly when the
    matrix is not the identity; otherwise it dereferences a null axis
    range. *)
Theorem set_matrix_defined_with_axis_ranges (values : farray6) (s : state) :
  match evdev_calibration_set_matrix values s with
  | Returns rc s' o =>
      rc = LIBINPUT_CONFIG_STATUS_SUCCESS ∧ o = [] ∧
      apply_calibration (device s')
        = negb (matrix_is_identity (matrix_from_farray6 values)) ∧
      matrix_is_identity (matrix_from_farray6 values)
        || evdev_calibration_has_matrix (device s) = true
  | Stops f =>
      f = UndefinedBehaviour ∧
      matrix_is_identity (matrix_from_farray6 values)
        || evdev_calibration_has_matrix (device s) = false
  end.
Proof.
  unfold evdev_calibration_set_matrix, evdev_device_calibrate,
    evdev_calibration_has_matrix.
  destruct (matrix_is_identity (matrix_from_farray6 values)); unfold_M; simpl;
    [done|].
  destruct (absinfo_x (device s)), (absinfo_y (device s)); simpl;
    repeat split; auto.
  all: rewrite ?bool_decide_eq_true_2, ?bool_decide_eq_false_2
    by (eauto || by intros [? ?]); done.
Qed.

(** X11. After the identity has been set as calibration, coordinates pass
    through transform_absolute unchanged, whatever calibration was in use
    before. *)
Theorem identity_calibration_leaves_coordinates (s : state) (x y : Z) :
  ∃ s',
    evdev_calibration_set_matrix identity6 s
      = Returns LIBINPUT_CONFIG_STATUS_SUCCESS s' [] ∧
    transform_absolute x y s' = Returns (x, y) s' [].
Proof.
  eexists. split.
  - unfold evdev_calibration_set_matrix.
    by rewrite (bind_step _ _ _ _ _ _ (calibrate_identity s)).
  - reflexivity.
Qed.

End MatrixRoundTrips.

Lemma user_matrix_round_trip_witness :
  evdev_calibration_get_matrix Sample.calibrated
    = Returns (Sample.user_calibration, true) Sample.calibrated [].
Proof.
  apply (user_matrix_round_trip Sample.user_calibration Sample.touchscreen
           LIBINPUT_CONFIG_STATUS_SUCCESS Sample.calibrated
           (output_of
              (evdev_calibration_set_matrix Sample.user_calibration
                 Sample.touchscreen))).
  - intros Heq. vm_compute in Heq. discriminate Heq.
  - apply (outcome_eta
             (evdev_calibration_set_matrix Sample.user_calibration
                Sample.touchscreen)).
    vm_compute. reflexivity.
Defined.

Lemma default_matrix_round_trip_witness :
  evdev_calibration_get_default_matrix
    (state_of
       (evdev_device_set_default_calibration Sample.user_calibration
          Sample.touchscreen)
       Sample.touchscreen)
  = Returns
      (Sample.user_calibration,
       negb (matrix_is_identity (matrix_from_farray6 Sample.user_calibration)))
      (state_of
         (evdev_device_set_default_calibration Sample.user_calibration
            Sample.touchscreen)
         Sample.touchscreen)
      [].
Proof.
  apply (default_matrix_round_trip Sample.user_calibration Sample.touchscreen _
           (output_of
              (evdev_device_set_default_calibration Sample.user_calibration
                 Sample.touchscreen))).
  apply (outcome_eta
           (evdev_device_set_default_calibration Sample.user_calibration
              Sample.touchscreen)).
  vm_compute. reflexivity.
Defined.

Section Invariants.
Context `{Collaborators}.
Context (I : state → Prop).

Lemma maintains_bind {A B} (m : M A) (k : A → M B) :
  maintains I m → (∀ a, maintains I (k a)) → maintains I (m ≫= k).
Proof.
  intros Hm Hk s b s' o Hs Hr.
  apply bind_returns in Hr as (a & s1 & o1 & o2 & H1 & H2 & ->).
  eapply Hk; [|exact H2]. by eapply Hm.
Qed.

Lemma maintains_same_state {A} (m : M A) :
  (∀ s a s' o, m s = Returns a s' o → s' = s) → maintains I m.
Proof. intros Hm s a s' o Hs Hr. by rewrite (Hm _ _ _ _ Hr). Qed.

Lemma maintains_mret {A} (a : A) : maintains I (mret a).
Proof.
  apply maintains_same_state. unfold_M. intros ???? Hr. by inversion Hr.
Qed.

Lemma maintains_notify n : maintains I (notify n).
Proof.
  apply maintains_same_state. unfold_M. intros ???? Hr. by inversion Hr.
Qed.

Lemma maintains_get_device : maintains I get_device.
Proof.
  apply maintains_same_state. unfold_M. intros ???? Hr. by inversion Hr.
Qed.

Lemma maintains_get_seat : maintains I get_seat.
Proof.
  apply maintains_same_state. unfold_M. intros ???? Hr. by inversion Hr.
Qed.

Lemma maintains_defined {A} (x : option A) : maintains I (defined x).
Proof.
  apply maintains_same_state. unfold_M. destruct x; [|done].
  intros ???? Hr. by inversion Hr.
Qed.

Lemma maintains_requires b : maintains I (requires b).
Proof.
  apply maintains_same_state. unfold_M. destruct b; [|done].
  intros ???? Hr. by inversion Hr.
Qed.

Lemma maintains_assert b : maintains I (assert b).
Proof.
  apply maintains_same_state. unfold_M. destruct b; [|done].
  intros ???? Hr. by inversion Hr.
Qed.

Lemma maintains_log_bug_kernel : maintains I log_bug_kernel.
Proof. apply maintains_mret. Qed.

Lemma maintains_log_bug_libinput : maintains I log_bug_libinput.
Proof. apply maintains_mret. Qed.

Lemma maintains_modify_device g :
  (∀ s, I s → I (mk_state (g (device s)) (seat s))) →
  maintains I (modify_device g).
Proof.
  intros Hg s a s' o Hs. unfold_M. intros Hr. inversion Hr. by apply Hg.
Qed.

Lemma maintains_put_slot_map m :
  (∀ s, I s → I (mk_state (device s) (mk_seat m))) →
  maintains I (put_slot_map m).
Proof.
  intros Hg s a s' o Hs. unfold_M. intros Hr. inversion Hr. by apply Hg.
Qed.

End Invariants.

Ltac maintains_step :=
  first
    [ apply maintains_bind; [|intros ?]
    | apply maintains_mret
    | apply maintains_notify
    | apply maintains_get_device
    | apply maintains_get_seat
    | apply maintains_defined
    | apply maintains_requires
    | apply maintains_assert
    | apply maintains_log_bug_kernel
    | apply maintains_log_bug_libinput
    | apply maintains_modify_device; intros ? Hinv; exact Hinv
    | apply maintains_put_slot_map; intros ? Hinv; exact Hinv
    | match goal with
      | |- maintains _ (if ?b then _ else _) => destruct b eqn:?
      | |- maintains _ (match ?x with _ => _ end) => destruct x eqn:?
      end ].

Section ConfiguredDevice.
Context `{Collaborators}.

(** X12. The loop of evdev_configure_device over the codes below KEY_MAX
    misses no key and no button: it finds a keyboard exactly when the
    device advertises some EV_KEY code that get_key_type classifies as a
    key, and a button exactly when it advertises one that classifies as a
    button, whatever the code. *)
Theorem scan_key_codes_misses_no_code (evdev : libevdev) :
  (fst (scan_key_codes evdev) = true ↔
   ∃ code, libevdev_has_event_code evdev EV_KEY code = true ∧
           get_key_type code = EVDEV_KEY_TYPE_KEY) ∧
  (snd (scan_key_codes evdev) = true ↔
   ∃ code, libevdev_has_event_code evdev EV_KEY code = true ∧
           get_key_type code = EVDEV_KEY_TYPE_BUTTON).
Proof.
  unfold scan_key_codes. rewrite scan_key_codes_fold. cbn [fst snd orb].
  rewrite !existsb_exists.
  split; split.
  1,3: intros (code & _ & [Hadv Hclass%bool_decide_eq_true]%andb_true_iff);
    by exists code.
  all: intros (code & Hadv & Hclass); exists code; split;
    [|rewrite Hadv; by apply bool_decide_eq_true].
  all: apply list_elem_of_In, elem_of_seqZ;
    pose proof (key_type_below_key_max code) as Hbelow;
    rewrite Hclass in Hbelow; specialize (Hbelow ltac:(done)); lia.
Qed.

Lemma fixed_resolution_usable a : resolution (fixed_resolution a) ≠ 0.
Proof.
  unfold fixed_resolution.
  by destruct (Z.eqb_spec (resolution a) 0).
Qed.

Lemma configure_absolute_resolutions evdev env :
  maintains resolutions_usable (configure_absolute evdev env).
Proof.
  unfold configure_absolute, note_fake_resolution.
  repeat first
    [ maintains_step
    | apply maintains_modify_device; intros ? [Hx Hy]; split; simpl;
      [try done|try done]; intros ? [= <-]; apply fixed_resolution_usable ].
Qed.

Lemma raises_bind (b1 b2 b : bool) {A B} (m : M A) (k : A → M B) :
  b = b1 || b2 →
  raises_fake_resolution b1 m →
  (∀ a, raises_fake_resolution b2 (k a)) →
  raises_fake_resolution b (m ≫= k).
Proof.
  intros -> Hm Hk s y s' o Hr.
  apply bind_returns in Hr as (a & s1 & o1 & o2 & H1 & H2 & ->).
  rewrite (Hk _ _ _ _ _ H2), (Hm _ _ _ _ H1). by rewrite orb_assoc.
Qed.

Lemma raises_preserved {A} (m : M A) :
  preserves (λ s, fake_resolution (device s)) m →
  raises_fake_resolution false m.
Proof. intros Hm s a s' o Hr. by rewrite (Hm _ _ _ _ Hr), orb_false_r. Qed.

Lemma raises_stop b {A} (m : M A) :
  (∀ s, value_of (m s) = None) → raises_fake_resolution b m.
Proof. intros Hm s a s' o Hr. specialize (Hm s). by rewrite Hr in Hm. Qed.

Lemma note_fake_resolution_raises a :
  raises_fake_resolution (resolution a =? 0) (note_fake_resolution a).
Proof.
  unfold note_fake_resolution. intros s x s' o.
  destruct (resolution a =? 0); unfold_M; intros Hr; inversion Hr; subst;
    simpl; by rewrite ?orb_true_r, ?orb_false_r.
Qed.

Lemma raises_defined b {A B} (a : A) (k : A → M B) :
  raises_fake_resolution b (k a) →
  raises_fake_resolution b (defined (Some a) ≫= k).
Proof.
  intros Hk s y s' o.
  rewrite (bind_silent (defined (Some a)) k s a s) by done. apply Hk.
Qed.

(** The two assignments that follow each probe of an axis. *)
Lemma probe_raises (a : input_absinfo) {A} (m : M A) :
  preserves (λ s, fake_resolution (device s)) m →
  raises_fake_resolution (resolution a =? 0) (note_fake_resolution a;; m).
Proof.
  intros Hm.
  apply (raises_bind (resolution a =? 0) false); [by rewrite orb_false_r| |].
  - apply note_fake_resolution_raises.
  - intros _. by apply raises_preserved.
Qed.

Lemma configure_absolute_fake_resolution evdev env :
  raises_fake_resolution (probed_fake_resolution evdev)
    (configure_absolute evdev env).
Proof.
  unfold configure_absolute, probed_fake_resolution, reports_no_resolution.
  destruct (libevdev_has_event_type evdev EV_ABS); cbn [negb andb];
    [|apply raises_preserved, preserves_mret].
  rewrite <- orb_assoc.
  eapply raises_bind; [reflexivity| |intros has_abs_x].
  { destruct (libevdev_get_abs_info evdev ABS_X) as [ax|];
      [apply probe_raises; repeat preserves_step
      |apply raises_preserved, preserves_mret]. }
  eapply raises_bind; [reflexivity| |intros has_abs_y].
  { destruct (libevdev_get_abs_info evdev ABS_Y) as [ay|];
      [apply probe_raises; repeat preserves_step
      |apply raises_preserved, preserves_mret]. }
  destruct (libevdev_has_event_code evdev EV_ABS ABS_MT_POSITION_X &&
            libevdev_has_event_code evdev EV_ABS ABS_MT_POSITION_Y);
    cbn [andb]; [|apply raises_preserved, preserves_mret].
  destruct (libevdev_get_abs_info evdev ABS_MT_POSITION_X) as [mx|];
    [|by apply raises_stop].
  apply raises_defined.
  eapply raises_bind; [reflexivity|apply note_fake_resolution_raises|intros _].
  eapply raises_bind; [symmetry; apply orb_false_l| |intros _].
  { apply raises_preserved. repeat preserves_step. }
  destruct (libevdev_get_abs_info evdev ABS_MT_POSITION_Y) as [my|];
    [|by apply raises_stop].
  apply raises_defined.
  apply probe_raises. repeat preserves_step.
Qed.

(** X13. evdev_configure_device, when the touchpad dispatcher does not
    take the device: no axis range it stores has resolution 0 (a resolution
    of 0 that the kernel reports is replaced by 1), and it leaves the
    fake-resolution flag set exactly when the flag was set before or the
    kernel reports resolution 0 for one of the axes it consults: ABS_X,
    ABS_Y, and the two MT position axes when the device has both. *)
Theorem configuration_fixes_resolutions
    (evdev : libevdev) (env : environment) (s : state) (rc : Z) (s' : state)
    (o : list notification) :
  selects_touchpad evdev = false →
  resolutions_usable s →
  evdev_configure_device evdev env s = Returns rc s' o →
  resolutions_usable s' ∧
  fake_resolution (device s') =
    fake_resolution (device s) || probed_fake_resolution evdev.
Proof.
  intros Htouchpad Hs Hr. unfold evdev_configure_device in Hr.
  apply bind_returns in Hr as (abs & s1 & o1 & o2 & Habs & Hr & ->).
  pose proof (configure_absolute_resolutions _ _ _ _ _ _ Hs Habs) as Hs1.
  pose proof (configure_absolute_fake_resolution _ _ _ _ _ _ Habs) as Hfake.
  rewrite <- Hfake. clear Hfake Hs.
  apply configure_absolute_flags in Habs as [->| ->].
  { revert Hr. unfold_M. intros Hr. by inversion Hr; subst. }
  unfold selects_touchpad in Htouchpad. rewrite Htouchpad in Hr.
  revert Hr. generalize s1 Hs1. clear.
  match goal with
  | |- ∀ s1, _ → ?m s1 = _ → _ =>
      assert (Hm : maintains resolutions_usable m ∧
                   preserves (λ s, fake_resolution (device s)) m)
  end.
  { unfold configure_pointer_acceleration.
    split; [repeat maintains_step|repeat preserves_step]. }
  intros s1 Hs1 Hr. destruct Hm as [Hm Hp]. split.
  - by eapply Hm.
  - by eapply Hp.
Qed.

(** X14. A device that evdev_device_create returns (and not one of its
    sentinels) has a descriptor that open_restricted gave, at least one
    capability and a dispatcher, and has been added to the event loop. *)
Theorem created_device_is_usable
    (env : environment) (s s' : state) (o : list notification) :
  evdev_device_create env s = Returns Created s' o →
  0 ≤ open_restricted env ∧
  seat_caps (device s') ≠ 0 ∧
  is_Some (dispatch (device s')) ∧
  libinput_add_fd env = true.
Proof.
  intros Hr. pose proof Hr as Hcreate. unfold evdev_device_create in Hr.
  destruct (open_restricted env <? 0) eqn:Hfd;
    [revert Hr; unfold_M; intros Hr; by inversion Hr|].
  destruct (zalloc_device env) eqn:Hzalloc;
    [|revert Hr; unfold_M; intros Hr; by inversion Hr].
  destruct (libevdev_new_from_fd env) as [evdev|] eqn:Hevdev;
    [|revert Hr; unfold_M; intros Hr; by inversion Hr].
  cbn [negb] in Hr. rewrite bind_modify_device in Hr.
  apply bind_returns in Hr as (rc & s1 & o1 & o2 & Hconf & _ & _).
  rewrite (create_after_configure env evdev s rc s1 o1) in Hcreate
    by (done || lia).
  destruct (Z.eqb_spec rc (-1)); [by inversion Hcreate|].
  destruct (Z.eqb_spec (seat_caps (device s1)) 0) as [|Hcaps];
    [by inversion Hcreate|].
  cbv zeta in Hcreate.
  destruct (dispatch (device s1)) as [disp|] eqn:Hdisp.
  - rewrite Hdisp in Hcreate.
    destruct (libinput_add_fd env); inversion Hcreate; subst; simpl.
    repeat split; [lia|done|by rewrite Hdisp].
  - simpl in Hcreate. unfold fallback_dispatch_create in *.
    destruct (malloc_dispatch env); simpl in Hcreate; [|by inversion Hcreate].
    destruct (libinput_add_fd env); inversion Hcreate; subst; simpl.
    repeat split; [lia|done|by eexists].
Qed.

End ConfiguredDevice.

Lemma configuration_fixes_resolutions_witness :
  resolutions_usable
    (state_of
       (evdev_configure_device Sample.touchscreen_evdev
          (Sample.no_failure Sample.touchscreen_evdev) Sample.initialised)
       Sample.initialised) ∧
  fake_resolution
    (device
       (state_of
          (evdev_configure_device Sample.touchscreen_evdev
             (Sample.no_failure Sample.touchscreen_evdev) Sample.initialised)
          Sample.initialised)) =
    fake_resolution (device Sample.initialised)
    || probed_fake_resolution Sample.touchscreen_evdev.
Proof.
  apply (configuration_fixes_resolutions Sample.touchscreen_evdev
           (Sample.no_failure Sample.touchscreen_evdev) Sample.initialised 0 _
           (output_of
              (evdev_configure_device Sample.touchscreen_evdev
                 (Sample.no_failure Sample.touchscreen_evdev)
                 Sample.initialised))).
  - vm_compute. reflexivity.
  - split; intros a Ha; vm_compute in Ha; discriminate Ha.
  - apply (outcome_eta
             (evdev_configure_device Sample.touchscreen_evdev
                (Sample.no_failure Sample.touchscreen_evdev)
                Sample.initialised)).
    vm_compute. reflexivity.
Defined.

Lemma created_device_is_usable_witness :
  0 ≤ open_restricted (Sample.no_failure Sample.touchscreen_evdev) ∧
  seat_caps (device Sample.touchscreen) ≠ 0 ∧
  is_Some (dispatch (device Sample.touchscreen)) ∧
  libinput_add_fd (Sample.no_failure Sample.touchscreen_evdev) = true.
Proof.
  apply (created_device_is_usable (Sample.no_failure Sample.touchscreen_evdev)
           Sample.boot Sample.touchscreen
           (output_of
              (evdev_device_create (Sample.no_failure Sample.touchscreen_evdev)
                 Sample.boot))).
  apply (outcome_eta
           (evdev_device_create (Sample.no_failure Sample.touchscreen_evdev)
              Sample.boot)).
  vm_compute. reflexivity.
Defined.

Section SeatSlots.
Context `{Collaborators}.

Lemma testbit_acquired m k0 k :
  0 ≤ k0 → 0 ≤ k →
  Z.testbit (Z.lor m (Z.shiftl 1 k0)) k = Z.testbit m k || (k0 =? k).
Proof.
  intros Hk0 Hk.
  by rewrite Z.lor_spec, Z.shiftl_1_l, Z.pow2_bits_eqb by done.
Qed.

Lemma testbit_released m k0 k :
  0 ≤ k0 → 0 ≤ k →
  Z.testbit (Z.land m (Z.lnot (Z.shiftl 1 k0))) k
  = Z.testbit m k && negb (k0 =? k).
Proof.
  intros Hk0 Hk.
  by rewrite Z.land_spec, Z.lnot_spec, Z.shiftl_1_l, Z.pow2_bits_eqb by done.
Qed.

Lemma lookup_insert_cases (held : list Z) (j i : nat) (v k : Z) :
  <[j := v]> held !! i = Some k →
  i = j ∧ k = v ∨ i ≠ j ∧ held !! i = Some k.
Proof.
  intros Hl. destruct (decide (i = j)) as [->|Hne].
  - left. split; [done|].
    apply list_lookup_insert_Some in Hl as [(_ & <- & _)|[? _]]; done.
  - right. split; [done|]. by rewrite list_lookup_insert_ne in Hl.
Qed.

(** A step of the seat slots keeps them consistent, and neither takes nor
    frees a seat slot that is in use by somebody else. *)
Lemma slot_step_consistent touch held m held' m' :
  slots_consistent held m →
  slot_step touch held m held' m' →
  slots_consistent held' m' ∧
  ∀ k, 0 ≤ k → foreign_seat_slot held' m' k ↔ foreign_seat_slot held m k.
Proof.
  intros [Hdistinct Hbits] [[-> ->]|[(_ & j & k0 & Hj & Hk0 & Hfree & -> & ->)
                                    |(_ & j & k0 & Hj & Hk0 & -> & ->)]];
    [done| |].
  - (* a contact takes the free seat slot k0 *)
    assert (Hlen : (j < length held)%nat) by by eapply lookup_lt_Some.
    split; [split|].
    + intros i i' k Hne Hl Hl'.
      apply lookup_insert_cases in Hl as [[? ?]|[Hi Hl]];
        apply lookup_insert_cases in Hl' as [[? ?]|[Hi' Hl']];
        subst; try done.
      * exfalso. destruct (Hbits _ _ Hl') as [_ Hset]; [lia|congruence].
      * exfalso. destruct (Hbits _ _ Hl) as [_ Hset]; [lia|congruence].
      * exact (Hdistinct _ _ _ Hne Hl Hl').
    + intros i k [[-> ->]|[Hi Hl]]%lookup_insert_cases Hk.
      * split; [done|]. rewrite testbit_acquired by lia.
        rewrite Z.eqb_refl. apply orb_true_r.
      * destruct (Hbits _ _ Hl Hk) as [Hrange Hset]. split; [done|].
        rewrite testbit_acquired by lia. by rewrite Hset.
    + intros k Hk. unfold foreign_seat_slot.
      rewrite testbit_acquired by lia. split.
      * intros [Hset Hout]. destruct (Z.eqb_spec k0 k) as [->|Hne].
        { exfalso. apply Hout, list_elem_of_lookup. exists j.
          by apply list_lookup_insert_eq. }
        rewrite orb_false_r in Hset. split; [done|].
        intros [i Hi]%list_elem_of_lookup. apply Hout, list_elem_of_lookup.
        exists i. rewrite list_lookup_insert_ne; [done|].
        intros ->. rewrite Hj in Hi. injection Hi as <-. lia.
      * intros [Hset Hout]. split; [by rewrite Hset|].
        intros [i [[-> ->]|[Hi Hl]]%lookup_insert_cases]%list_elem_of_lookup.
        -- congruence.
        -- apply Hout, list_elem_of_lookup. by exists i.
  - (* a contact gives the seat slot k0 back *)
    split; [split|].
    + intros i i' k Hne Hl Hl'.
      apply lookup_insert_cases in Hl as [[? ?]|[Hi Hl]];
        apply lookup_insert_cases in Hl' as [[? ?]|[Hi' Hl']];
        subst; try done.
      exact (Hdistinct _ _ _ Hne Hl Hl').
    + intros i k [[-> ->]|[Hi Hl]]%lookup_insert_cases Hk; [done|].
      destruct (Hbits _ _ Hl Hk) as [Hrange Hset]. split; [done|].
      rewrite testbit_released, Hset by lia.
      destruct (Z.eqb_spec k0 k) as [->|]; [|done].
      specialize (Hdistinct _ _ _ Hi Hl Hj). lia.
    + intros k Hk. unfold foreign_seat_slot.
      rewrite testbit_released by lia. split.
      * intros [[Hset Hne%negb_true_iff%Z.eqb_neq]%andb_true_iff Hout].
        split; [done|].
        intros [i Hi]%list_elem_of_lookup. apply Hout, list_elem_of_lookup.
        exists i. rewrite list_lookup_insert_ne; [done|].
        intros ->. rewrite Hj in Hi. by injection Hi.
      * intros [Hset Hout].
        assert (Hne : k0 ≠ k).
        { intros ->. apply Hout, list_elem_of_lookup. by exists j. }
        split; [rewrite Hset; by destruct (Z.eqb_spec k0 k)|].
        intros [i [[-> ->]|[Hi Hl]]%lookup_insert_cases]%list_elem_of_lookup.
        -- lia.
        -- apply Hout, list_elem_of_lookup. by exists i.
Qed.

Lemma ffs_from_set n i w :
  ffs_from n i w ≠ 0 →
  i < ffs_from n i w ∧ Z.testbit w (ffs_from n i w - 1) = true.
Proof.
  revert i. induction n as [|n IH]; intros i; simpl; [done|].
  destruct (Z.testbit w i) eqn:Hbit.
  - intros _. split; [lia|]. by replace (i + 1 - 1) with i by lia.
  - intros Hn. destruct (IH _ Hn). split; [lia|done].
Qed.

(** The seat slot a touch-down finds: none, or a bit index whose bit is
    clear in the slot map. *)
Lemma ffs_free m :
  ffs (uint32_not m) - 1 = -1 ∨
  0 ≤ ffs (uint32_not m) - 1 < 32 ∧
  Z.testbit m (ffs (uint32_not m) - 1) = false.
Proof.
  unfold ffs.
  destruct (decide (ffs_from 32 0 (uint32_not m) = 0)) as [->|Hn];
    [by left|right].
  destruct (ffs_from_set _ _ _ Hn) as [Hlo Hset].
  destruct (ffs_from_range 32 0 (uint32_not m)) as [?|Hhi]; [done|].
  split; [lia|].
  rewrite uint32_not_testbit in Hset by lia. by apply negb_true_iff.
Qed.

Lemma held_set_slot (d : evdev_device) seat seat' pending i sl k :
  array_get (mt_slots d) i = Some sl →
  held_seat_slots
    (mk_state
       (set_pending_event pending
          (set_mt_slots (array_set (mt_slots d) i (set_slot_seat_slot k sl)) d))
       seat')
  = <[S (Z.to_nat i) := k]> (held_seat_slots (mk_state d seat)).
Proof.
  intros Hsl. unfold held_seat_slots, array_set. simpl.
  by rewrite list_fmap_insert.
Qed.

Lemma held_lookup_slot (d : evdev_device) seat i sl :
  array_get (mt_slots d) i = Some sl →
  held_seat_slots (mk_state d seat) !! S (Z.to_nat i)
  = Some (slot_seat_slot sl).
Proof.
  unfold held_seat_slots, array_get. simpl.
  destruct (i <? 0); [done|]. intros Hsl.
  by rewrite list_lookup_fmap, Hsl.
Qed.

Lemma held_set_abs (d : evdev_device) seat seat' pending k :
  held_seat_slots
    (mk_state (set_pending_event pending (set_abs_seat_slot k d)) seat')
  = <[0%nat := k]> (held_seat_slots (mk_state d seat)).
Proof. done. Qed.

Lemma slot_step_acquire held m (j : nat) k m' :
  held !! j = Some (-1) →
  k = -1 ∨ 0 ≤ k < 32 ∧ Z.testbit m k = false →
  m' = (if k =? -1 then m else Z.lor m (Z.shiftl 1 k)) →
  slot_step true held m (<[j := k]> held) m'.
Proof.
  intros Hj [->|[Hk Hfree]] ->.
  - left. split; [by apply list_insert_id|done].
  - right; left. split; [done|]. exists j, k.
    by replace (k =? -1) with false by lia.
Qed.

Lemma slot_step_release held m (j : nat) k m' :
  held !! j = Some k →
  k = -1 ∨ 0 ≤ k < 32 →
  m' = (if k =? -1 then m else Z.land m (Z.lnot (Z.shiftl 1 k))) →
  slot_step true held m (<[j := -1]> held) m'.
Proof.
  intros Hj [->|Hk] ->.
  - left. split; [by apply list_insert_id|done].
  - right; right. split; [done|]. exists j, k.
    by replace (k =? -1) with false by lia.
Qed.

Lemma flush_slot_step time s s' o :
  evdev_flush_pending_event time s = Returns tt s' o →
  slot_step (has_seat_cap (device s) EVDEV_DEVICE_TOUCH)
    (held_seat_slots s) (slot_map (seat s))
    (held_seat_slots s') (slot_map (seat s')).
Proof.
  unfold evdev_flush_pending_event.
  rewrite bind_get_device, bind_get_seat.
  pose proof (ffs_free (slot_map (seat s))) as Hffs.
  destruct s as [d st]. cbn [device seat] in *.
  destruct (pending_event d);
    destruct (has_seat_cap d EVDEV_DEVICE_TOUCH) eqn:Hcap;
    cbn [negb]; unfold transform_absolute, shift_one; unfold_M;
    cbn [device seat].
  all: repeat match goal with
       | |- context [array_get ?l ?i] => destruct (array_get l i) eqn:?
       | |- context [pointer_filter ?d] => destruct (pointer_filter d)
       | |- context [filter_dispatch ?f ?m ?t] =>
           destruct (filter_dispatch f m t) as [[? ?] ?]
       end; try done; simpl.
  all: repeat match goal with
       | |- context [negb (?a =? ?b)] => destruct (Z.eqb_spec a b); simpl
       | |- context [?a =? -1] => destruct (Z.eqb_spec a (-1)); simpl
       | |- context [(0 <=? ?a) && (?a <? 32)] =>
           destruct ((0 <=? a) && (a <? 32)) eqn:?; simpl
       | |- context [double_is_zero ?a && double_is_zero ?b] =>
           destruct (double_is_zero a && double_is_zero b); simpl
       | |- context [has_seat_cap ?d ?c] => destruct (has_seat_cap d c); simpl
       | |- context [apply_calibration ?d] =>
           destruct (apply_calibration d); simpl
       | |- context [matrix_mult_vec ?m ?x ?y] =>
           destruct (matrix_mult_vec m x y); simpl
       end; try done.
  all: intros Hr; inversion Hr; subst; clear Hr.
  all: try (left; split; reflexivity).
  all: cbn [seat slot_map].
  all: try match goal with
       | Hsl : array_get (mt_slots ?d0) _ = Some _ |- _ =>
           rewrite (held_set_slot d0 st _ _ _ _ _ Hsl);
           pose proof (held_lookup_slot d0 st _ _ Hsl) as Hlookup
       end.
  all: rewrite ?(held_set_abs d st).
  all: assert (Habs : held_seat_slots (mk_state d st) !! 0%nat
                      = Some (abs_seat_slot d)) by done.
  all: first
    [ apply slot_step_acquire;
      [ congruence
      | exact Hffs
      | by destruct (Z.eqb_spec (ffs (uint32_not (slot_map st)) - 1) (-1)) ]
    | eapply slot_step_release;
      [ first [exact Hlookup | exact Habs]
      | first
          [ by left
          | right;
            match goal with
            | Hin : (0 <=? ?k) && (?k <? 32) = true |- _ =>
                apply andb_true_iff in Hin; lia
            end ]
      | match goal with
        | |- _ = if ?k =? -1 then _ else _ =>
            by destruct (Z.eqb_spec k (-1))
        end ] ].
Qed.

Lemma quiet_run (first tail : M unit) time s s' o :
  first = evdev_flush_pending_event time ∨ first = mret tt →
  quiet tail →
  (first ≫= λ _, tail) s = Returns tt s' o →
  flush_then_quiet time s s' o.
Proof.
  intros Hfirst [Hp He] Hr.
  apply bind_returns in Hr as ([] & s1 & o1 & o2 & H1 & H2 & ->).
  exists s1, o1, o2.
  pose proof (f_equal fst (Hp _ _ _ _ H2)) as Hheld.
  pose proof (f_equal snd (Hp _ _ _ _ H2)) as Hseat.
  split; [|repeat split; auto].
  - destruct Hfirst as [->| ->]; [by left|right].
    revert H1. unfold_M. intros Hr. by inversion Hr.
  - eapply Forall_impl; [by eapply He|]. by intros n [-> ->].
Qed.

Lemma quiet_only (tail : M unit) time s s' o :
  quiet tail →
  tail s = Returns tt s' o →
  flush_then_quiet time s s' o.
Proof.
  intros [Hp He] Hr. exists s, [], o.
  pose proof (f_equal fst (Hp _ _ _ _ Hr)) as Hheld.
  pose proof (f_equal snd (Hp _ _ _ _ Hr)) as Hseat.
  repeat split; auto.
  eapply Forall_impl; [by eapply He|]. by intros n [-> ->].
Qed.

Lemma held_set_position (d : evdev_device) seat i sl sl' :
  array_get (mt_slots d) i = Some sl →
  slot_seat_slot sl' = slot_seat_slot sl →
  held_seat_slots (mk_state (set_mt_slots (array_set (mt_slots d) i sl') d) seat)
  = held_seat_slots (mk_state d seat).
Proof.
  unfold held_seat_slots, array_get, array_set. simpl.
  destruct (i <? 0); [done|]. intros Hsl Heq.
  rewrite list_fmap_insert, Heq. f_equal. apply list_insert_id.
  by rewrite list_lookup_fmap, Hsl.
Qed.

(** A position of the current slot arrives: no flush, and the seat slots
    stay with their contacts. *)
Lemma position_flush_then_quiet (set_position : mt_slot_t → mt_slot_t)
    time s s' o :
  (∀ sl, slot_seat_slot (set_position sl) = slot_seat_slot sl) →
  (d ← get_device;
   sl ← defined (array_get (mt_slots d) (mt_slot d));
   modify_device
     (set_mt_slots (array_set (mt_slots d) (mt_slot d) (set_position sl)));;
   match pending_event d with
   | EVDEV_NONE => modify_device (set_pending_event EVDEV_ABSOLUTE_MT_MOTION)
   | _ => mret tt
   end) s = Returns tt s' o →
  flush_then_quiet time s s' o.
Proof.
  intros Hposition. rewrite bind_get_device.
  destruct (array_get (mt_slots (device s)) (mt_slot (device s))) as [sl|]
    eqn:Hsl; [|done].
  rewrite (bind_silent (defined (Some sl)) _ s sl s) by done.
  rewrite bind_modify_device. intros Hr.
  exists s, [], o. split; [by right|]. split; [done|].
  pose proof (held_set_position (device s) (seat s) _ _ _ Hsl (Hposition sl))
    as Hheld.
  destruct s as [d st]. cbn [device seat] in *.
  destruct (pending_event d); revert Hr; unfold_M; intros Hr; inversion Hr;
    subst; repeat split; auto.
Qed.

Lemma fallback_process_flush_then_quiet e time s s' o :
  fallback_process e time s = Returns tt s' o →
  flush_then_quiet time s s' o.
Proof.
  unfold fallback_process.
  destruct (ev_type e =? EV_REL).
  { unfold evdev_process_relative.
    destruct (ev_code e =? REL_X).
    { rewrite bind_get_device.
      apply quiet_run; [destruct (pending_event (device s)); auto|].
      split; [repeat preserves_step|repeat emits_step]. }
    destruct (ev_code e =? REL_Y).
    { rewrite bind_get_device.
      apply quiet_run; [destruct (pending_event (device s)); auto|].
      split; [repeat preserves_step|repeat emits_step]. }
    destruct (ev_code e =? REL_WHEEL).
    { apply quiet_run; [by left|].
      split; [repeat preserves_step|by apply emits_notify]. }
    destruct (ev_code e =? REL_HWHEEL).
    { apply quiet_run; [by left|].
      split; [repeat preserves_step
             |repeat first [emits_step | by apply emits_notify]]. }
    apply quiet_only. split; [apply preserves_mret|apply emits_mret]. }
  destruct (ev_type e =? EV_ABS).
  { unfold evdev_process_absolute. rewrite bind_get_device.
    destruct (is_mt (device s)).
    - unfold evdev_process_touch.
      destruct (ev_code e =? ABS_MT_SLOT).
      { apply quiet_run; [by left|].
        split; [repeat preserves_step|repeat emits_step]. }
      destruct (ev_code e =? ABS_MT_TRACKING_ID).
      { rewrite bind_get_device.
        apply quiet_run; [destruct (pending_event (device s)); auto|].
        split; [repeat preserves_step|repeat emits_step]. }
      destruct (ev_code e =? ABS_MT_POSITION_X).
      { by apply position_flush_then_quiet. }
      destruct (ev_code e =? ABS_MT_POSITION_Y).
      { by apply position_flush_then_quiet. }
      apply quiet_only. split; [apply preserves_mret|apply emits_mret].
    - apply quiet_only. unfold evdev_process_absolute_motion.
      split; [repeat preserves_step|repeat emits_step]. }
  destruct (ev_type e =? EV_KEY).
  { unfold evdev_process_key.
    destruct (ev_value e =? 2).
    { apply quiet_only. split; [apply preserves_mret|apply emits_mret]. }
    destruct (ev_code e =? BTN_TOUCH).
    { rewrite bind_get_device. destruct (is_mt (device s)); cbn [negb].
      - apply quiet_only. split; [apply preserves_mret|apply emits_mret].
      - unfold evdev_process_touch_button. rewrite bind_get_device.
        apply quiet_run; [destruct (pending_event (device s)); auto|].
        split; [repeat preserves_step|repeat emits_step]. }
    apply quiet_run; [by left|].
    unfold is_key_down, set_key_down, evdev_keyboard_notify_key,
      evdev_pointer_notify_button, update_key_down_count.
    split; [repeat preserves_step
           |repeat first [emits_step | by apply emits_notify]]. }
  destruct (ev_type e =? EV_SYN).
  { rewrite bind_get_device. cbv zeta. intros Hr.
    apply bind_returns in Hr as ([] & s1 & o1 & o2 & Hflush & Hframe & ->).
    exists s1, o1, o2. split; [by left|]. split; [done|].
    destruct (evdev_need_touch_frame (device s)); revert Hframe; unfold_M;
      intros Hr; inversion Hr; subst; repeat split; auto. }
  apply quiet_only. split; [apply preserves_mret|apply emits_mret].
Qed.

Lemma seat_of_slot_map (seat seat' : libinput_seat) :
  slot_map seat' = slot_map seat → seat' = seat.
Proof. destruct seat, seat'. simpl. by intros ->. Qed.

(** One event is one step of the seat slots. *)
Lemma fallback_process_slot_step e time s s' o :
  fallback_process e time s = Returns tt s' o →
  slot_step (has_seat_cap (device s) EVDEV_DEVICE_TOUCH)
    (held_seat_slots s) (slot_map (seat s))
    (held_seat_slots s') (slot_map (seat s')).
Proof.
  intros (s1 & o1 & o2 & Hflush & _ & -> & -> & _)
    %fallback_process_flush_then_quiet.
  destruct Hflush as [Hflush|[-> _]]; [by eapply flush_slot_step|by left].
Qed.

Lemma process_events_seat_slots events s s' o :
  seat_slots_consistent s →
  process_events events s = Returns tt s' o →
  seat_slots_consistent s' ∧
  ∀ k, 0 ≤ k →
    foreign_seat_slot (held_seat_slots s') (slot_map (seat s')) k ↔
    foreign_seat_slot (held_seat_slots s) (slot_map (seat s)) k.
Proof.
  revert s o. induction events as [|[e time] events IH]; intros s o Hs Hr.
  - revert Hr. simpl. unfold_M. intros Hr. by inversion Hr; subst.
  - simpl in Hr.
    apply bind_returns in Hr as ([] & s1 & o1 & o2 & He & Hes & ->).
    apply fallback_process_slot_step in He.
    destruct (slot_step_consistent _ _ _ _ _ Hs He) as [Hs1 Hforeign].
    destruct (IH _ _ Hs1 Hes) as [Hs' Hforeign'].
    split; [done|]. intros k Hk. by rewrite Hforeign', Hforeign.
Qed.

(** X15. The seat slots of a device stay consistent whatever events the
    fallback dispatcher processes: when, before, no two contacts of the
    device (the single contact and the slots of the slot table) hold the
    same seat slot and every seat slot held is a bit index below 32 whose
    bit is set in the seat's slot map, then the same holds after. *)
Theorem seat_slots_stay_consistent
    (events : list (input_event * Z)) (s s' : state) (o : list notification) :
  seat_slots_consistent s →
  process_events events s = Returns tt s' o →
  seat_slots_consistent s'.
Proof. intros Hs Hr. by eapply process_events_seat_slots. Qed.

(** X16. A device neither takes nor frees a seat slot that somebody else
    holds: whatever events the fallback dispatcher processes for a device
    whose seat slots are consistent, the bits of the seat's slot map that
    are set and that no contact of the device holds are the same before
    and after. *)
Theorem foreign_seat_slots_are_left_alone
    (events : list (input_event * Z)) (s s' : state) (o : list notification)
    (k : Z) :
  seat_slots_consistent s →
  process_events events s = Returns tt s' o →
  0 ≤ k →
  foreign_seat_slot (held_seat_slots s') (slot_map (seat s')) k ↔
  foreign_seat_slot (held_seat_slots s) (slot_map (seat s)) k.
Proof.
  intros Hs Hr. by eapply (proj2 (process_events_seat_slots _ _ _ _ Hs Hr)).
Qed.

Lemma fallback_process_without_touch e time s s' o :
  has_seat_cap (device s) EVDEV_DEVICE_TOUCH = false →
  fallback_process e time s = Returns tt s' o →
  Forall (λ n, is_touch_notification n = false ∧
               is_frame_notification n = false) o ∧
  held_seat_slots s' = held_seat_slots s ∧
  seat s' = seat s.
Proof.
  intros Hcap (s1 & o1 & o2 & Hflush & -> & -> & -> & Hquiet)
    %fallback_process_flush_then_quiet.
  assert (Hframe : evdev_need_touch_frame (device s) = false)
    by (unfold evdev_need_touch_frame; by rewrite Hcap).
  assert (Ho2 : Forall (λ n, is_touch_notification n = false ∧
                             is_frame_notification n = false) o2).
  { eapply Forall_impl; [exact Hquiet|]. intros n [-> Hn]. split; [done|].
    destruct (is_frame_notification n); [|done].
    rewrite Hframe in Hn. by specialize (Hn eq_refl). }
  destruct Hflush as [Hflush|[-> ->]]; [|done].
  pose proof (flush_slot_step _ _ _ _ Hflush) as Hstep.
  rewrite Hcap in Hstep.
  destruct Hstep as [[-> Hmap]|[[? _]|[? _]]]; [|done..].
  split; [|split; [done|by apply seat_of_slot_map]].
  apply Forall_app. split; [|done].
  eapply Forall_impl; [by eapply flush_output|].
  intros n [-> Htouch]. split; [|done].
  destruct (is_touch_notification n); [|done].
  destruct (Htouch eq_refl) as [Hcap' _]. congruence.
Qed.

Lemma process_events_without_touch events s s' o :
  has_seat_cap (device s) EVDEV_DEVICE_TOUCH = false →
  process_events events s = Returns tt s' o →
  Forall (λ n, is_touch_notification n = false ∧
               is_frame_notification n = false) o ∧
  held_seat_slots s' = held_seat_slots s ∧
  seat s' = seat s.
Proof.
  revert s o. induction events as [|[e time] events IH]; intros s o Hcap Hr.
  - revert Hr. simpl. unfold_M. intros Hr. by inversion Hr; subst.
  - simpl in Hr.
    apply bind_returns in Hr as ([] & s1 & o1 & o2 & He & Hes & ->).
    pose proof (fallback_process_preserves_configuration _ _ _ _ _ _ He)
      as Hconf.
    assert (Hcap1 : has_seat_cap (device s1) EVDEV_DEVICE_TOUCH = false).
    { unfold has_seat_cap, configuration in *. by injection Hconf as ->. }
    destruct (fallback_process_without_touch _ _ _ _ _ Hcap He)
      as (Ho1 & <- & <-).
    destruct (IH _ _ Hcap1 Hes) as (Ho2 & -> & ->).
    split; [by apply Forall_app|done].
Qed.

(** X17. A device without the TOUCH capability is no touch device to the
    seat: whatever events the fallback dispatcher processes for it, it
    notifies no touch-down, touch-motion, touch-up and no touch-frame, its
    contacts take no seat slot, and the seat's slot map stays as it
    was. *)
Theorem device_without_touch_notifies_no_touch
    (events : list (input_event * Z)) (s s' : state) (o : list notification) :
  has_seat_cap (device s) EVDEV_DEVICE_TOUCH = false →
  process_events events s = Returns tt s' o →
  Forall (λ n, is_touch_notification n = false ∧
               is_frame_notification n = false) o ∧
  held_seat_slots s' = held_seat_slots s ∧
  seat s' = seat s.
Proof. apply process_events_without_touch. Qed.

(** A tracking id arrives on a multi-touch device with nothing pending. *)
Lemma tracking_id_idle id time s :
  is_mt (device s) = true →
  pending_event (device s) = EVDEV_NONE →
  fallback_process (mk_input_event EV_ABS ABS_MT_TRACKING_ID id) time s =
    Returns tt
      (mk_state
         (set_pending_event
            (if 0 <=? id then EVDEV_ABSOLUTE_MT_DOWN else EVDEV_ABSOLUTE_MT_UP)
            (device s))
         (seat s))
      [].
Proof.
  intros Hmt Hp. unfold fallback_process. cbn [ev_type].
  change (EV_ABS =? EV_REL) with false. change (EV_ABS =? EV_ABS) with true.
  cbv iota. unfold evdev_process_absolute. rewrite bind_get_device, Hmt.
  unfold evdev_process_touch. cbn [ev_code ev_value].
  change (ABS_MT_TRACKING_ID =? ABS_MT_SLOT) with false.
  change (ABS_MT_TRACKING_ID =? ABS_MT_TRACKING_ID) with true. cbv iota.
  by rewrite bind_get_device, Hp.
Qed.

Lemma flush_mt_down time s sl k :
  has_seat_cap (device s) EVDEV_DEVICE_TOUCH = true →
  pending_event (device s) = EVDEV_ABSOLUTE_MT_DOWN →
  array_get (mt_slots (device s)) (mt_slot (device s)) = Some sl →
  slot_seat_slot sl = -1 →
  lowest_free_slot (slot_map (seat s)) k →
  evdev_flush_pending_event time s =
    Returns tt
      (mk_state
         (set_pending_event EVDEV_NONE
            (set_mt_slots
               (array_set (mt_slots (device s)) (mt_slot (device s))
                  (set_slot_seat_slot k sl))
               (device s)))
         (mk_seat (Z.lor (slot_map (seat s)) (Z.shiftl 1 k))))
      [touch_notify_touch_down time (mt_slot (device s)) k
         (calibrated (device s) (slot_x sl) (slot_y sl)).1
         (calibrated (device s) (slot_x sl) (slot_y sl)).2].
Proof.
  intros Htouch Hp Hsl Hnone Hk. unfold evdev_flush_pending_event.
  rewrite bind_get_device, bind_get_seat, Hp, Htouch. cbv iota.
  rewrite (ffs_lowest_free_slot _ _ Hk).
  destruct Hk as (Hk & _).
  unfold transform_absolute, shift_one, calibrated. unfold_M.
  rewrite Hsl, Hnone.
  replace (k =? -1) with false by lia.
  replace ((0 <=? k) && (k <? 32)) with true
    by (symmetry; apply andb_true_iff; lia).
  simpl. destruct (apply_calibration (device s)); simpl; [|done].
  by destruct (matrix_mult_vec _ _ _).
Qed.

Lemma flush_mt_up time s sl :
  has_seat_cap (device s) EVDEV_DEVICE_TOUCH = true →
  pending_event (device s) = EVDEV_ABSOLUTE_MT_UP →
  array_get (mt_slots (device s)) (mt_slot (device s)) = Some sl →
  0 ≤ slot_seat_slot sl < 32 →
  evdev_flush_pending_event time s =
    Returns tt
      (mk_state
         (set_pending_event EVDEV_NONE
            (set_mt_slots
               (array_set (mt_slots (device s)) (mt_slot (device s))
                  (set_slot_seat_slot (-1) sl))
               (device s)))
         (mk_seat
            (Z.land (slot_map (seat s))
               (Z.lnot (Z.shiftl 1 (slot_seat_slot sl))))))
      [touch_notify_touch_up time (mt_slot (device s)) (slot_seat_slot sl)].
Proof.
  intros Htouch Hp Hsl Hk. unfold evdev_flush_pending_event.
  rewrite bind_get_device, bind_get_seat, Hp, Htouch. cbv iota.
  unfold shift_one. unfold_M. rewrite Hsl.
  replace (slot_seat_slot sl =? -1) with false by lia.
  replace ((0 <=? slot_seat_slot sl) && (slot_seat_slot sl <? 32)) with true
    by (symmetry; apply andb_true_iff; lia).
  done.
Qed.

Lemma syn_report_run time s s1 o1 :
  evdev_flush_pending_event time s = Returns tt s1 o1 →
  fallback_process (mk_input_event EV_SYN SYN_REPORT 0) time s =
    Returns tt s1
      (o1 ++ if evdev_need_touch_frame (device s)
             then [touch_notify_frame time] else []).
Proof.
  intros Hflush. rewrite fallback_process_syn.
  rewrite (bind_step _ _ _ _ _ _ Hflush).
  by destruct (evdev_need_touch_frame (device s)).
Qed.

Lemma slot_map_taken_and_returned m k :
  0 ≤ k → Z.testbit m k = false →
  Z.land (Z.lor m (Z.shiftl 1 k)) (Z.lnot (Z.shiftl 1 k)) = m.
Proof.
  intros Hk Hfree. apply Z.bits_inj'. intros n Hn.
  rewrite testbit_released, testbit_acquired by done.
  destruct (Z.eqb_spec k n) as [->|]; [by rewrite Hfree|].
  by rewrite orb_false_r, andb_true_r.
Qed.

(** X18. A tap on a TOUCH-capable multi-touch device: with nothing
    pending and the contact of the current slot holding no seat slot, a
    tracking id, a SYN_REPORT, the tracking id -1 and a second SYN_REPORT
    notify a touch-down with the lowest free seat slot and the calibrated
    position of the slot, a touch-frame, a touch-up with the same seat
    slot, and a touch-frame; and they leave the device and the seat
    exactly as they were: the seat slot is taken and given back. *)
Theorem tap_takes_and_returns_seat_slot
    (id time time' : Z) (s : state) (sl : mt_slot_t) (k : Z) :
  let d := device s in
  has_seat_cap d EVDEV_DEVICE_TOUCH = true →
  is_mt d = true →
  pending_event d = EVDEV_NONE →
  array_get (mt_slots d) (mt_slot d) = Some sl →
  slot_seat_slot sl = -1 →
  lowest_free_slot (slot_map (seat s)) k →
  0 ≤ id →
  process_events
    [(mk_input_event EV_ABS ABS_MT_TRACKING_ID id, time);
     (mk_input_event EV_SYN SYN_REPORT 0, time);
     (mk_input_event EV_ABS ABS_MT_TRACKING_ID (-1), time');
     (mk_input_event EV_SYN SYN_REPORT 0, time')] s
  = Returns tt s
      [touch_notify_touch_down time (mt_slot d) k
         (calibrated d (slot_x sl) (slot_y sl)).1
         (calibrated d (slot_x sl) (slot_y sl)).2;
       touch_notify_frame time;
       touch_notify_touch_up time' (mt_slot d) k;
       touch_notify_frame time'].
Proof.
  intros d Htouch Hmt Hp Hsl Hnone Hk Hid. subst d.
  cbn [process_events].
  (* the tracking id leaves a touch-down pending *)
  rewrite (bind_step _ _ _ _ _ _ (tracking_id_idle id time s Hmt Hp)).
  replace (0 <=? id) with true by lia.
  set (s1 := mk_state (set_pending_event EVDEV_ABSOLUTE_MT_DOWN (device s))
               (seat s)).
  (* the SYN_REPORT flushes it: the seat slot is taken *)
  pose proof (flush_mt_down time s1 sl k Htouch eq_refl Hsl Hnone Hk) as Hdown.
  rewrite (bind_step _ _ _ _ _ _ (syn_report_run time s1 _ _ Hdown)).
  replace (evdev_need_touch_frame (device s1)) with true
    by (rewrite need_touch_frame_pending;
        exact (eq_sym (andb_true_intro (conj Htouch eq_refl)))).
  match type of Hdown with _ = Returns _ ?s2' _ => set (s2 := s2') end.
  (* the tracking id -1 leaves a touch-up pending *)
  rewrite (bind_step _ _ _ _ _ _ (tracking_id_idle (-1) time' s2 Hmt eq_refl)).
  change (0 <=? -1) with false. cbv iota.
  set (s3 := mk_state (set_pending_event EVDEV_ABSOLUTE_MT_UP (device s2))
               (seat s2)).
  (* the second SYN_REPORT flushes it: the seat slot is given back *)
  assert (Hsl3 : array_get (mt_slots (device s3)) (mt_slot (device s3))
                 = Some (set_slot_seat_slot k sl))
    by by eapply array_get_set_eq.
  destruct Hk as (Hk & Hfree & _).
  pose proof (flush_mt_up time' s3 _ Htouch eq_refl Hsl3 Hk) as Hup.
  rewrite (bind_step _ _ _ _ _ _ (syn_report_run time' s3 _ _ Hup)).
  replace (evdev_need_touch_frame (device s3)) with true
    by (rewrite need_touch_frame_pending;
        exact (eq_sym (andb_true_intro (conj Htouch eq_refl)))).
  unfold_M. cbn [app]. f_equal.
  (* the state is the one the tap started from *)
  subst s3 s2 s1. cbn [device seat slot_map slot_seat_slot
                         set_slot_seat_slot mt_slots mt_slot
                         set_pending_event set_mt_slots].
  rewrite slot_map_taken_and_returned by (done || lia).
  unfold array_set. rewrite list_insert_insert_eq.
  assert (Hsame : set_slot_seat_slot (-1) (set_slot_seat_slot k sl) = sl)
    by (destruct sl; simpl in *; by subst).
  rewrite Hsame, list_insert_id.
  - destruct s as [[] []]. simpl in *. by subst.
  - unfold array_get in Hsl. by destruct (mt_slot (device s) <? 0).
Qed.

Lemma slots_consistent_free held m :
  Forall (λ k, k = -1) held → slots_consistent held m.
Proof.
  intros Hfree. split.
  - intros i j k _ Hi _. by eapply Forall_lookup_1 in Hfree; [|exact Hi].
  - intros i k Hi Hk. by eapply Forall_lookup_1 in Hfree; [|exact Hi].
Qed.

Lemma configure_absolute_idle evdev env :
  maintains starts_idle (configure_absolute evdev env).
Proof.
  unfold configure_absolute, note_fake_resolution.
  repeat first
    [ maintains_step
    | apply maintains_modify_device;
      intros [d seat] (Hp & Hdx & Hdy & Hmask & Hcount & Hheld);
      repeat split; try done; unfold held_seat_slots in *; simpl in *;
      apply Forall_cons in Hheld as [Habs _]; apply Forall_cons;
      split; [done|]; rewrite fmap_replicate; by apply Forall_replicate ].
Qed.

Lemma configure_device_idle evdev env s rc s' o :
  selects_touchpad evdev = false →
  starts_idle s →
  evdev_configure_device evdev env s = Returns rc s' o →
  starts_idle s'.
Proof.
  intros Htouchpad Hs Hr. unfold evdev_configure_device in Hr.
  apply bind_returns in Hr as (abs & s1 & o1 & o2 & Habs & Hr & ->).
  pose proof (configure_absolute_idle _ _ _ _ _ _ Hs Habs) as Hs1.
  apply configure_absolute_flags in Habs as [->| ->].
  { revert Hr. unfold_M. intros Hr. by inversion Hr; subst. }
  unfold selects_touchpad in Htouchpad. rewrite Htouchpad in Hr.
  revert Hr. generalize s1 Hs1. clear.
  match goal with
  | |- ∀ s1, _ → ?m s1 = _ → _ => assert (Hm : maintains starts_idle m)
  end.
  { unfold configure_pointer_acceleration. repeat maintains_step. }
  intros s1 Hs1 Hr. by eapply Hm.
Qed.

(** X19. A device that evdev_device_create returns, the touchpad
    dispatcher not having taken it, starts idle: no event is pending, no
    motion is accumulated, no key or button is down by the bitmap or by the
    press counts, which are KEY_CNT zeros, and no contact holds a seat
    slot. *)
Theorem created_device_starts_idle
    (env : environment) (evdev : libevdev) (s s' : state)
    (o : list notification) :
  libevdev_new_from_fd env = Some evdev →
  selects_touchpad evdev = false →
  evdev_device_create env s = Returns Created s' o →
  starts_idle s'.
Proof.
  intros Hevdev Htouchpad Hcreate. pose proof Hcreate as Hr.
  unfold evdev_device_create in Hr.
  destruct (open_restricted env <? 0) eqn:Hfd;
    [revert Hr; unfold_M; intros Hr; by inversion Hr|].
  destruct (zalloc_device env) eqn:Hzalloc;
    [|revert Hr; unfold_M; intros Hr; by inversion Hr].
  rewrite Hevdev in Hr. cbn [negb] in Hr. rewrite bind_modify_device in Hr.
  apply bind_returns in Hr as (rc & s1 & o1 & o2 & Hconf & _ & _).
  rewrite (create_after_configure env evdev s rc s1 o1) in Hcreate
    by (done || lia).
  assert (Hidle : starts_idle s1).
  { eapply configure_device_idle; [done| |exact Hconf].
    repeat split; auto. by repeat constructor. }
  destruct (rc =? -1); [by inversion Hcreate|].
  destruct (seat_caps (device s1) =? 0); [by inversion Hcreate|].
  cbv zeta in Hcreate.
  destruct (dispatch (device s1)) as [disp|] eqn:Hdisp.
  - rewrite Hdisp in Hcreate.
    destruct (libinput_add_fd env); inversion Hcreate; subst. by destruct s1.
  - simpl in Hcreate.
    destruct (fallback_dispatch_create env); simpl in Hcreate;
      [|by inversion Hcreate].
    destruct (libinput_add_fd env); inversion Hcreate; subst. done.
Qed.

End SeatSlots.

Lemma tap_takes_and_returns_seat_slot_witness :
  process_events
    [(mk_input_event EV_ABS ABS_MT_TRACKING_ID 77, 100);
     (mk_input_event EV_SYN SYN_REPORT 0, 100);
     (mk_input_event EV_ABS ABS_MT_TRACKING_ID (-1), 120);
     (mk_input_event EV_SYN SYN_REPORT 0, 120)] Scenario.shared_seat
  = Returns tt Scenario.shared_seat
      [touch_notify_touch_down 100 (mt_slot (device Scenario.shared_seat)) 1
         (calibrated (device Scenario.shared_seat)
            (slot_x (mk_mt_slot (-1) 0 0)) (slot_y (mk_mt_slot (-1) 0 0))).1
         (calibrated (device Scenario.shared_seat)
            (slot_x (mk_mt_slot (-1) 0 0)) (slot_y (mk_mt_slot (-1) 0 0))).2;
       touch_notify_frame 100;
       touch_notify_touch_up 120 (mt_slot (device Scenario.shared_seat)) 1;
       touch_notify_frame 120].
Proof.
  refine (tap_takes_and_returns_seat_slot 77 100 120 Scenario.shared_seat
            (mk_mt_slot (-1) 0 0) 1 _ _ _ _ _ _ _).
  - vm_compute. reflexivity.
  - vm_compute. reflexivity.
  - vm_compute. reflexivity.
  - vm_compute. reflexivity.
  - reflexivity.
  - split; [lia|]. split; [vm_compute; reflexivity|].
    intros j Hj. assert (j = 0) as -> by lia. vm_compute. reflexivity.
  - lia.
Defined.

Lemma created_device_starts_idle_witness : starts_idle Sample.touchscreen.
Proof.
  apply (created_device_starts_idle
           (Sample.no_failure Sample.touchscreen_evdev)
           Sample.touchscreen_evdev Sample.boot Sample.touchscreen
           (output_of
              (evdev_device_create (Sample.no_failure Sample.touchscreen_evdev)
                 Sample.boot))).
  - reflexivity.
  - vm_compute. reflexivity.
  - apply (outcome_eta
             (evdev_device_create (Sample.no_failure Sample.touchscreen_evdev)
                Sample.boot)).
    vm_compute. reflexivity.
Defined.

Lemma seat_slots_stay_consistent_witness :
  seat_slots_consistent Scenario.tapped.
Proof.
  apply (seat_slots_stay_consistent Scenario.two_finger_tap
           Scenario.shared_seat Scenario.tapped
           (output_of
              (process_events Scenario.two_finger_tap Scenario.shared_seat))).
  - apply slots_consistent_free. compute_done.
  - apply (outcome_eta
             (process_events Scenario.two_finger_tap Scenario.shared_seat)).
    vm_compute. reflexivity.
Defined.

Lemma foreign_seat_slots_are_left_alone_witness :
  foreign_seat_slot (held_seat_slots Scenario.tapped)
    (slot_map (seat Scenario.tapped)) 2 ↔
  foreign_seat_slot (held_seat_slots Scenario.shared_seat)
    (slot_map (seat Scenario.shared_seat)) 2.
Proof.
  apply (foreign_seat_slots_are_left_alone Scenario.two_finger_tap
           Scenario.shared_seat Scenario.tapped
           (output_of
              (process_events Scenario.two_finger_tap Scenario.shared_seat))
           2).
  - apply slots_consistent_free. compute_done.
  - apply (outcome_eta
             (process_events Scenario.two_finger_tap Scenario.shared_seat)).
    vm_compute. reflexivity.
  - lia.
Defined.

Lemma device_without_touch_notifies_no_touch_witness :
  Forall (λ n, is_touch_notification n = false ∧
               is_frame_notification n = false)
    (output_of (process_events Scenario.typing Sample.keyboard_mouse)) ∧
  held_seat_slots Scenario.typed = held_seat_slots Sample.keyboard_mouse ∧
  seat Scenario.typed = seat Sample.keyboard_mouse.
Proof.
  apply (device_without_touch_notifies_no_touch Scenario.typing
           Sample.keyboard_mouse Scenario.typed
           (output_of (process_events Scenario.typing Sample.keyboard_mouse))).
  - vm_compute. reflexivity.
  - apply (outcome_eta (process_events Scenario.typing Sample.keyboard_mouse)).
    vm_compute. reflexivity.
Defined.

Section Taps.
Context `{Collaborators}.

Lemma process_events_app events1 events2 s s1 o1 :
  process_events events1 s = Returns tt s1 o1 →
  process_events (events1 ++ events2) s =
    match process_events events2 s1 with
    | Returns b s2 o2 => Returns b s2 (o1 ++ o2)
    | Stops f => Stops f
    end.
Proof.
  revert s o1. induction events1 as [|[e time] events1 IH]; intros s o1.
  - simpl. unfold_M. intros Hr. inversion Hr; subst.
    by destruct (process_events events2 s1).
  - cbn [process_events app]. intros Hr.
    apply bind_returns in Hr as ([] & s0 & o0 & o0' & He & Hes & ->).
    rewrite (bind_step _ _ _ _ _ _ He), (IH _ _ Hes).
    destruct (process_events events2 s1); [|done]. by rewrite app_assoc.
Qed.

Lemma flush_relative time s f :
  pending_event (device s) = EVDEV_RELATIVE_MOTION →
  pointer_filter (device s) = Some f →
  evdev_flush_pending_event time s =
    let r := filter_dispatch f
               (double_of_int (rel_dx (device s)),
                double_of_int (rel_dy (device s))) time in
    Returns tt
      (mk_state
         (set_pending_event EVDEV_NONE
            (set_pointer_filter (Some r.2)
               (set_rel_dy 0 (set_rel_dx 0 (device s)))))
         (seat s))
      (if double_is_zero r.1.1 && double_is_zero r.1.2 then []
       else [pointer_notify_motion time r.1.1 r.1.2]).
Proof.
  intros Hp Hf. unfold evdev_flush_pending_event.
  rewrite bind_get_device, bind_get_seat, Hp. cbv iota. unfold_M.
  rewrite Hf. cbv zeta.
  destruct (filter_dispatch f _ time) as [[dx dy] f']. simpl.
  by destruct (double_is_zero dx && double_is_zero dy).
Qed.

(** X20. A frame of pointer motion: on a device with an acceleration
    filter, nothing pending and no motion accumulated, one or more REL_X
    and REL_Y events followed by a SYN_REPORT hand the filter one motion,
    the sums of the values of each axis wrapped to [int], at the time of
    the SYN_REPORT; they notify the filtered motion once, or nothing when
    the filter makes it zero in both axes; and they leave the device as it
    was but for the filter's next state. *)
Theorem pointer_motion_frame
    (events : list (input_event * Z)) (time : Z) (s : state)
    (f : motion_filter) :
  events ≠ [] →
  Forall (λ et, is_relative_motion et.1 = true) events →
  pending_event (device s) = EVDEV_NONE →
  rel_dx (device s) = 0 →
  rel_dy (device s) = 0 →
  pointer_filter (device s) = Some f →
  process_events (events ++ [(mk_input_event EV_SYN SYN_REPORT 0, time)]) s =
    Returns tt
      (mk_state (set_pointer_filter (Some (filtered f events time).2) (device s))
         (seat s))
      (if double_is_zero (filtered f events time).1.1 &&
          double_is_zero (filtered f events time).1.2
       then []
       else [pointer_notify_motion time (filtered f events time).1.1
               (filtered f events time).1.2]).
Proof.
  intros Hevents Hrel Hp Hdx Hdy Hf.
  rewrite (process_events_app _ _ _ _ _
             (relative_motion_run events s Hrel (or_introl Hp)
                ltac:(rewrite Hdx; unfold INT_MIN, INT_MAX; lia)
                ltac:(rewrite Hdy; unfold INT_MIN, INT_MAX; lia))).
  rewrite Hdx, Hdy, !Z.add_0_l.
  destruct events as [|et events]; [done|].
  cbn [process_events].
  erewrite (bind_step (fallback_process _ _));
    [|apply syn_report_run, (flush_relative _ _ f); [done|exact Hf]].
  rewrite need_touch_frame_pending.
  cbn [device pending_event set_pending_event pending_is_absolute].
  rewrite andb_false_r. unfold_M. cbn [app]. rewrite !app_nil_r.
  unfold filtered. cbv zeta.
  cbn [device seat rel_dx rel_dy set_pending_event set_rel_dx set_rel_dy].
  f_equal. destruct s as [[] ?]. simpl in *. by subst.
Qed.

(** X21. The key and button notifications of an event carry the time of
    the event reduced to 32 bits, the width of the time parameter of
    evdev_keyboard_notify_key and evdev_pointer_notify_button. *)
Theorem key_notifications_carry_32_bit_time
    (e : input_event) (time : Z) (s s' : state) (o : list notification) :
  fallback_process e time s = Returns tt s' o →
  Forall (λ n, ∀ t, key_time n = Some t → t = time mod 2 ^ 32) o.
Proof.
  intros Hr. destruct (is_key_event e) eqn:Hkey.
  2: { eapply Forall_impl; [by eapply other_event_emits_no_key|].
       intros n Hn t. by destruct n. }
  destruct (evdev_flush_pending_event time s) as [[] s1 o1|f] eqn:Hflush.
  2: { apply is_key_event_true in Hkey as (? & ? & ?).
       by rewrite key_event_run, (bind_stops _ _ _ _ Hflush) in Hr. }
  assert (Ho1 : Forall (λ n, ∀ t, key_time n = Some t → t = time mod 2 ^ 32) o1).
  { eapply Forall_impl; [by eapply flush_emits_no_key|].
    intros n Hn t. by destruct n. }
  rewrite (key_event_after_flush _ _ _ _ _ Hkey Hflush) in Hr.
  destruct (release_is_dropped e (device s)); [by inversion Hr; subst|].
  destruct (negb (in_key_range (ev_code e))); [done|].
  destruct (key_event_update e) as [u|]; [|by inversion Hr; subst].
  rewrite apply_update_run in Hr.
  destruct (negb (in_key_range (update_code u))); [done|].
  destruct (count_at _ _) as [old|]; [|done].
  destruct (is_press u).
  - inversion Hr; subst. apply Forall_app. split; [done|].
    destruct (_ =? 1); [|done]. constructor; [|done].
    intros t. destruct u; simpl; by intros [= <-].
  - destruct (0 <? old); [|done].
    inversion Hr; subst. apply Forall_app. split; [done|].
    destruct (_ =? 0); [|done]. constructor; [|done].
    intros t. destruct u; simpl; by intros [= <-].
Qed.

(** BTN_TOUCH arrives on a single-touch device with nothing pending. *)
Lemma btn_touch_idle value time s :
  value ≠ 2 →
  is_mt (device s) = false →
  pending_event (device s) = EVDEV_NONE →
  fallback_process (mk_input_event EV_KEY BTN_TOUCH value) time s =
    Returns tt
      (mk_state
         (set_pending_event
            (if value =? 0 then EVDEV_ABSOLUTE_TOUCH_UP
             else EVDEV_ABSOLUTE_TOUCH_DOWN)
            (device s))
         (seat s))
      [].
Proof.
  intros Hvalue Hmt Hp. unfold fallback_process. cbn [ev_type].
  change (EV_KEY =? EV_REL) with false. change (EV_KEY =? EV_ABS) with false.
  change (EV_KEY =? EV_KEY) with true. cbv iota.
  unfold evdev_process_key. cbn [ev_code ev_value].
  replace (value =? 2) with false by lia.
  change (BTN_TOUCH =? BTN_TOUCH) with true. cbv iota.
  rewrite bind_get_device, Hmt. cbn [negb].
  unfold evdev_process_touch_button. rewrite bind_get_device, Hp.
  by destruct (value =? 0).
Qed.

(** A coordinate arrives on a single-touch device while a touch-down is
    pending. *)
Lemma abs_position_pending (set_position : Z → evdev_device → evdev_device)
    code value time s :
  (code = ABS_X ∧ set_position = set_abs_x ∨
   code = ABS_Y ∧ set_position = set_abs_y) →
  is_mt (device s) = false →
  pending_event (device s) = EVDEV_ABSOLUTE_TOUCH_DOWN →
  fallback_process (mk_input_event EV_ABS code value) time s =
    Returns tt (mk_state (set_position value (device s)) (seat s)) [].
Proof.
  intros Hcode Hmt Hp. unfold fallback_process. cbn [ev_type].
  change (EV_ABS =? EV_REL) with false. change (EV_ABS =? EV_ABS) with true.
  cbv iota. unfold evdev_process_absolute. rewrite bind_get_device, Hmt.
  unfold evdev_process_absolute_motion. cbn [ev_code ev_value].
  destruct Hcode as [[-> ->]|[-> ->]].
  - change (ABS_X =? ABS_X) with true. cbv iota.
    rewrite bind_modify_device, bind_get_device.
    cbn [device pending_event set_abs_x set_abs_y]. by rewrite Hp.
  - change (ABS_Y =? ABS_X) with false. change (ABS_Y =? ABS_Y) with true.
    cbv iota.
    rewrite bind_modify_device, bind_get_device.
    cbn [device pending_event set_abs_x set_abs_y]. by rewrite Hp.
Qed.

Lemma flush_touch_down time s k :
  has_seat_cap (device s) EVDEV_DEVICE_TOUCH = true →
  pending_event (device s) = EVDEV_ABSOLUTE_TOUCH_DOWN →
  abs_seat_slot (device s) = -1 →
  lowest_free_slot (slot_map (seat s)) k →
  evdev_flush_pending_event time s =
    Returns tt
      (mk_state (set_pending_event EVDEV_NONE (set_abs_seat_slot k (device s)))
         (mk_seat (Z.lor (slot_map (seat s)) (Z.shiftl 1 k))))
      [touch_notify_touch_down time (-1) k
         (calibrated (device s) (abs_x (device s)) (abs_y (device s))).1
         (calibrated (device s) (abs_x (device s)) (abs_y (device s))).2].
Proof.
  intros Htouch Hp Hnone Hk. unfold evdev_flush_pending_event.
  rewrite bind_get_device, bind_get_seat, Hp, Htouch. cbv iota.
  rewrite (ffs_lowest_free_slot _ _ Hk).
  destruct Hk as (Hk & _).
  unfold transform_absolute, shift_one, calibrated. unfold_M.
  rewrite Hnone.
  replace (k =? -1) with false by lia.
  replace ((0 <=? k) && (k <? 32)) with true
    by (symmetry; apply andb_true_iff; lia).
  simpl. destruct (apply_calibration (device s)); simpl; [|done].
  by destruct (matrix_mult_vec _ _ _).
Qed.

Lemma flush_touch_up time s :
  has_seat_cap (device s) EVDEV_DEVICE_TOUCH = true →
  pending_event (device s) = EVDEV_ABSOLUTE_TOUCH_UP →
  0 ≤ abs_seat_slot (device s) < 32 →
  evdev_flush_pending_event time s =
    Returns tt
      (mk_state (set_pending_event EVDEV_NONE (set_abs_seat_slot (-1) (device s)))
         (mk_seat
            (Z.land (slot_map (seat s))
               (Z.lnot (Z.shiftl 1 (abs_seat_slot (device s)))))))
      [touch_notify_touch_up time (-1) (abs_seat_slot (device s))].
Proof.
  intros Htouch Hp Hk. unfold evdev_flush_pending_event.
  rewrite bind_get_device, bind_get_seat, Hp, Htouch. cbv iota.
  unfold shift_one. unfold_M.
  replace (abs_seat_slot (device s) =? -1) with false by lia.
  replace ((0 <=? abs_seat_slot (device s)) && (abs_seat_slot (device s) <? 32))
    with true by (symmetry; apply andb_true_iff; lia).
  done.
Qed.

(** X22. A tap on a TOUCH-capable single-touch device: with nothing
    pending and the contact holding no seat slot, BTN_TOUCH pressed, an
    ABS_X and an ABS_Y coordinate, a SYN_REPORT, BTN_TOUCH released and a
    second SYN_REPORT notify a touch-down in slot -1 with the lowest free
    seat slot at the calibrated coordinates, a touch-frame, a touch-up with
    the same seat slot, and a touch-frame; the device keeps the two
    coordinates and is otherwise as it was, and so is the seat. *)
Theorem single_touch_tap
    (x y time time' : Z) (s : state) (k : Z) :
  let d := device s in
  has_seat_cap d EVDEV_DEVICE_TOUCH = true →
  is_mt d = false →
  pending_event d = EVDEV_NONE →
  abs_seat_slot d = -1 →
  lowest_free_slot (slot_map (seat s)) k →
  process_events
    [(mk_input_event EV_KEY BTN_TOUCH 1, time);
     (mk_input_event EV_ABS ABS_X x, time);
     (mk_input_event EV_ABS ABS_Y y, time);
     (mk_input_event EV_SYN SYN_REPORT 0, time);
     (mk_input_event EV_KEY BTN_TOUCH 0, time');
     (mk_input_event EV_SYN SYN_REPORT 0, time')] s
  = Returns tt (mk_state (set_abs_y y (set_abs_x x d)) (seat s))
      [touch_notify_touch_down time (-1) k
         (calibrated d x y).1 (calibrated d x y).2;
       touch_notify_frame time;
       touch_notify_touch_up time' (-1) k;
       touch_notify_frame time'].
Proof.
  intros d Htouch Hmt Hp Hnone Hk. subst d.
  cbn [process_events].
  rewrite (bind_step _ _ _ _ _ _ (btn_touch_idle 1 time s ltac:(lia) Hmt Hp)).
  change (1 =? 0) with false. cbv iota.
  erewrite (bind_step (fallback_process _ _));
    [|by apply (abs_position_pending set_abs_x); [left|..]].
  erewrite (bind_step (fallback_process _ _));
    [|by apply (abs_position_pending set_abs_y); [right|..]].
  erewrite (bind_step (fallback_process _ _));
    [|by apply syn_report_run, (flush_touch_down _ _ k)].
  rewrite need_touch_frame_pending.
  cbn [device seat pending_event set_pending_event set_abs_x set_abs_y
         pending_is_absolute].
  erewrite (bind_step (fallback_process _ _));
    [|by apply (btn_touch_idle 0)].
  change (0 =? 0) with true. cbv iota.
  destruct Hk as (Hk & Hfree & _).
  erewrite (bind_step (fallback_process _ _));
    [|by apply syn_report_run, flush_touch_up].
  rewrite need_touch_frame_pending.
  unfold_M. cbn [app].
  replace (has_seat_cap _ EVDEV_DEVICE_TOUCH) with true by (by rewrite <- Htouch).
  replace (has_seat_cap _ EVDEV_DEVICE_TOUCH) with true by (by rewrite <- Htouch).
  cbn [andb app device seat slot_map abs_seat_slot pending_event
         set_pending_event set_abs_seat_slot pending_is_absolute].
  rewrite slot_map_taken_and_returned by (done || lia).
  f_equal. destruct s as [[] []]. simpl in *. by subst.
Qed.

End Taps.

Lemma pointer_motion_frame_witness :
  process_events
    (Scenario.stick ++ [(mk_input_event EV_SYN SYN_REPORT 0, 70)])
    Sample.keyboard_mouse =
    Returns tt
      (mk_state
         (set_pointer_filter (Some (filtered tt Scenario.stick 70).2)
            (device Sample.keyboard_mouse))
         (seat Sample.keyboard_mouse))
      (if double_is_zero (filtered tt Scenario.stick 70).1.1 &&
          double_is_zero (filtered tt Scenario.stick 70).1.2
       then []
       else [pointer_notify_motion 70 (filtered tt Scenario.stick 70).1.1
               (filtered tt Scenario.stick 70).1.2]).
Proof.
  apply (pointer_motion_frame Scenario.stick 70 Sample.keyboard_mouse tt).
  - discriminate.
  - repeat constructor.
  - vm_compute. reflexivity.
  - vm_compute. reflexivity.
  - vm_compute. reflexivity.
  - vm_compute. reflexivity.
Defined.

Lemma key_notifications_carry_32_bit_time_witness :
  Forall (λ n, ∀ t, key_time n = Some t → t = 4294967306 mod 2 ^ 32)
    (output_of
       (fallback_process (Scenario.key_event 30 1) 4294967306
          Sample.keyboard_mouse)).
Proof.
  apply (key_notifications_carry_32_bit_time (Scenario.key_event 30 1)
           4294967306 Sample.keyboard_mouse
           (state_of
              (fallback_process (Scenario.key_event 30 1) 4294967306
                 Sample.keyboard_mouse)
              Sample.keyboard_mouse)).
  apply (outcome_eta
           (fallback_process (Scenario.key_event 30 1) 4294967306
              Sample.keyboard_mouse)).
  vm_compute. reflexivity.
Defined.

Lemma single_touch_tap_witness :
  process_events
    [(mk_input_event EV_KEY BTN_TOUCH 1, 100);
     (mk_input_event EV_ABS ABS_X 700, 100);
     (mk_input_event EV_ABS ABS_Y 900, 100);
     (mk_input_event EV_SYN SYN_REPORT 0, 100);
     (mk_input_event EV_KEY BTN_TOUCH 0, 120);
     (mk_input_event EV_SYN SYN_REPORT 0, 120)] Scenario.single_touch
  = Returns tt
      (mk_state (set_abs_y 900 (set_abs_x 700 (device Scenario.single_touch)))
         (seat Scenario.single_touch))
      [touch_notify_touch_down 100 (-1) 1
         (calibrated (device Scenario.single_touch) 700 900).1
         (calibrated (device Scenario.single_touch) 700 900).2;
       touch_notify_frame 100;
       touch_notify_touch_up 120 (-1) 1;
       touch_notify_frame 120].
Proof.
  refine (single_touch_tap 700 900 100 120 Scenario.single_touch 1 _ _ _ _ _).
  - vm_compute. reflexivity.
  - vm_compute. reflexivity.
  - vm_compute. reflexivity.
  - vm_compute. reflexivity.
  - split; [lia|]. split; [vm_compute; reflexivity|].
    intros j Hj. assert (j = 0) as -> by lia. vm_compute. reflexivity.
Defined.

(** * The list of libinput-util.c *)
Section Lists.
Import LibinputUtil Links.

Lemma assign_run (a : Z) (f : list_t → list_t) (h : gmap Z list_t) (l : list_t) :
  h !! a = Some l → assign (Some a) f h = Some (<[a := f l]> h).
Proof. unfold assign. simpl. by intros ->. Qed.

Lemma next_of_insert h a l b :
  next_of (<[a := l]> h) b = if decide (b = a) then next l else next_of h b.
Proof.
  unfold next_of. destruct (decide (b = a)) as [->|Hne].
  - by rewrite lookup_insert_eq.
  - by rewrite lookup_insert_ne.
Qed.

Lemma prev_of_insert h a l b :
  prev_of (<[a := l]> h) b = if decide (b = a) then prev l else prev_of h b.
Proof.
  unfold prev_of. destruct (decide (b = a)) as [->|Hne].
  - by rewrite lookup_insert_eq.
  - by rewrite lookup_insert_ne.
Qed.

(** X23. list_init makes the struct an empty list: on a pointer to a
    struct it returns, list_empty answers true afterwards, the struct is
    its own successor and predecessor, and no other struct is written. *)
Theorem list_init_makes_empty_list (list : Z) (h : gmap Z list_t) :
  is_Some (h !! list) →
  ∃ h',
    list_init (Some list) h = Some h' ∧
    list_empty (Some list) h' = Some true ∧
    next_of h' list = Some list ∧ prev_of h' list = Some list ∧
    ∀ a, a ≠ list → h' !! a = h !! a.
Proof.
  intros [l Hl]. unfold list_init.
  rewrite (assign_run _ _ _ _ Hl). cbn [mbind option_bind].
  erewrite assign_run by apply lookup_insert_eq.
  eexists. split; [done|]. unfold list_empty, deref, next_of, prev_of. simpl.
  rewrite lookup_insert_eq. simpl.
  repeat split; [by rewrite bool_decide_eq_true_2|].
  intros a Ha. by rewrite !lookup_insert_ne.
Qed.

Lemma next_of_Some h a n :
  next_of h a = Some n → ∃ l, h !! a = Some l ∧ next l = Some n.
Proof.
  unfold next_of. destruct (h !! a) as [l|]; [|done]. simpl. by exists l.
Qed.

Lemma prev_of_Some h a p :
  prev_of h a = Some p → ∃ l, h !! a = Some l ∧ prev l = Some p.
Proof.
  unfold prev_of. destruct (h !! a) as [l|]; [|done]. simpl. by exists l.
Qed.

(** What list_insert does to the links. *)
Lemma list_insert_links (list elm n : Z) (h : gmap Z list_t) :
  list ≠ elm → n ≠ elm →
  is_Some (h !! elm) →
  next_of h list = Some n →
  is_Some (h !! n) →
  ∃ h',
    list_insert (Some list) (Some elm) h = Some h' ∧
    (∀ a, next_of h' a =
            if decide (a = list) then Some elm
            else if decide (a = elm) then Some n else next_of h a) ∧
    (∀ a, prev_of h' a =
            if decide (a = n) then Some elm
            else if decide (a = elm) then Some list else prev_of h a).
Proof.
  intros Hlist Hn [e0 He0] (l & Hl & Hnext)%next_of_Some [ln Hln].
  unfold list_insert.
  rewrite (assign_run _ _ _ _ He0). cbn [mbind option_bind].
  unfold deref. cbn [mbind option_bind].
  rewrite lookup_insert_ne, Hl by done. cbn [mbind option_bind].
  erewrite assign_run by apply lookup_insert_eq. cbn [mbind option_bind].
  erewrite assign_run by (by rewrite !lookup_insert_ne, Hl).
  cbn [mbind option_bind].
  rewrite lookup_insert_ne, lookup_insert_eq by done.
  cbn [mbind option_bind set_next set_prev next prev]. rewrite Hnext.
  destruct (decide (n = list)) as [->|Hnl].
  - erewrite assign_run by apply lookup_insert_eq.
    eexists. split; [done|].
    split; intros a; rewrite ?next_of_insert, ?prev_of_insert;
      repeat case_decide; subst; simpl; try done.
  - erewrite assign_run by (by rewrite !lookup_insert_ne, Hln).
    eexists. split; [done|].
    split; intros a; rewrite ?next_of_insert, ?prev_of_insert;
      repeat case_decide; subst; simpl; try done.
    + unfold next_of. by rewrite Hln.
    + unfold prev_of. by rewrite Hl.
Qed.

Lemma linked_allocated h nodes a :
  linked h nodes → a ∈ nodes → is_Some (h !! a).
Proof.
  intros Hlinked Ha.
  destruct (Hlinked a Ha) as (p & n & (l & -> & _)%prev_of_Some & _).
  by eexists.
Qed.

(** list_insert keeps a ring a ring: [elm] comes between [list] and the
    former successor of [list]. *)
Lemma list_insert_ring
    (list elm : Z) (h : gmap Z list_t) (nodes : gset Z) :
  linked h nodes →
  list ∈ nodes →
  elm ∉ nodes →
  is_Some (h !! elm) →
  ∃ h' n,
    next_of h list = Some n ∧
    list_insert (Some list) (Some elm) h = Some h' ∧
    linked h' ({[elm]} ∪ nodes) ∧
    next_of h' list = Some elm ∧ prev_of h' elm = Some list ∧
    next_of h' elm = Some n ∧ prev_of h' n = Some elm.
Proof.
  intros Hlinked Hlist Helm Halloc.
  destruct (Hlinked list Hlist)
    as (p & n & Hp & Hn & Hpin & Hnin & Hpnext & Hnprev).
  assert (Hne : n ≠ elm) by (by intros ->).
  assert (Hle : list ≠ elm) by (by intros ->).
  destruct (list_insert_links list elm n h Hle Hne Halloc Hn)
    as (h' & Hrun & Hnext' & Hprev'); [by eapply linked_allocated|].
  exists h', n. split; [done|]. split; [done|].
  assert (Hlnext : next_of h' list = Some elm)
    by (rewrite Hnext'; by case_decide).
  split; [|repeat split].
  - intros a [->%elem_of_singleton|Ha]%elem_of_union.
    { exists list, n. rewrite !Hnext', !Hprev'.
      repeat case_decide; subst; try done. repeat split; set_solver. }
    destruct (Hlinked a Ha)
      as (pa & na & Hpa & Hna & Hpain & Hnain & Hpanext & Hnaprev).
    assert (Hae : a ≠ elm) by (by intros ->).
    assert (Hpae : pa ≠ elm) by (by intros ->).
    assert (Hnae : na ≠ elm) by (by intros ->).
    destruct (decide (a = list)) as [->|Hal].
    + assert (pa = p) as -> by congruence.
      assert (na = n) as -> by congruence.
      destruct (decide (list = n)) as [<-|Hln].
      * exists elm, elm. rewrite !Hnext', !Hprev'.
        repeat case_decide; subst; try done. repeat split; set_solver.
      * assert (Hpl : p ≠ list) by (intros ->; congruence).
        exists p, elm. rewrite !Hnext', !Hprev'.
        repeat case_decide; subst; try done. repeat split; set_solver.
    + destruct (decide (a = n)) as [->|Han].
      * assert (Hnn : na ≠ n) by (intros ->; congruence).
        exists elm, na. rewrite !Hnext', !Hprev'.
        repeat case_decide; subst; try done. repeat split; set_solver.
      * assert (Hpal : pa ≠ list) by (intros ->; congruence).
        assert (Hnan : na ≠ n) by (intros ->; congruence).
        exists pa, na. rewrite !Hnext', !Hprev'.
        repeat case_decide; subst; try done. repeat split; set_solver.
  - done.
  - rewrite Hprev'. by repeat case_decide.
  - rewrite Hnext'. by repeat case_decide.
  - rewrite Hprev'. by case_decide.
Qed.

(** X24. list_insert on a linked list: for a struct [list] of a linked
    ring and a struct [elm] outside it, list_insert(list, elm) returns; it
    puts elm between list and the former successor of list, so that the
    ring with elm is linked again; and list_empty(list) answers false
    afterwards. *)
Theorem list_insert_links_element
    (list elm : Z) (h : gmap Z list_t) (nodes : gset Z) :
  linked h nodes →
  list ∈ nodes →
  elm ∉ nodes →
  is_Some (h !! elm) →
  ∃ h' n,
    next_of h list = Some n ∧
    list_insert (Some list) (Some elm) h = Some h' ∧
    linked h' ({[elm]} ∪ nodes) ∧
    next_of h' list = Some elm ∧ prev_of h' elm = Some list ∧
    next_of h' elm = Some n ∧ prev_of h' n = Some elm ∧
    list_empty (Some list) h' = Some false.
Proof.
  intros Hlinked Hlist Helm Halloc.
  destruct (list_insert_ring list elm h nodes Hlinked Hlist Helm Halloc)
    as (h' & n & Hn & Hrun & Hring & Hlnext & Hpe & Hne & Hpn).
  exists h', n. repeat split; try done.
  assert (Hle : list ≠ elm) by (by intros ->).
  apply next_of_Some in Hlnext as (l' & Hl' & Hnext).
  unfold list_empty, deref. simpl. rewrite Hl'. simpl. rewrite Hnext.
  rewrite bool_decide_eq_false_2; [done|congruence].
Qed.

Lemma deref_links (a : Z) (h : gmap Z list_t) :
  is_Some (h !! a) →
  ∃ l, deref (Some a) h = Some l ∧
       prev l = prev_of h a ∧ next l = next_of h a.
Proof.
  intros [l Hl]. exists l. unfold deref, prev_of, next_of. simpl.
  by rewrite Hl.
Qed.

Lemma assign_next (a : Z) (v : option Z) (h : gmap Z list_t) :
  is_Some (h !! a) →
  ∃ h',
    assign (Some a) (set_next v) h = Some h' ∧
    (∀ b, is_Some (h' !! b) ↔ is_Some (h !! b)) ∧
    (∀ b, next_of h' b = if decide (b = a) then v else next_of h b) ∧
    (∀ b, prev_of h' b = prev_of h b).
Proof.
  intros [l Hl]. rewrite (assign_run _ _ _ _ Hl). eexists. split; [done|].
  split; [|split]; intros b.
  - rewrite lookup_insert_is_Some.
    split; [intros [<-|[_ ?]]; [by eexists|done]|].
    destruct (decide (a = b)); [by left|by right].
  - by rewrite next_of_insert.
  - rewrite prev_of_insert. case_decide; subst; [|done].
    unfold prev_of. by rewrite Hl.
Qed.

Lemma assign_prev (a : Z) (v : option Z) (h : gmap Z list_t) :
  is_Some (h !! a) →
  ∃ h',
    assign (Some a) (set_prev v) h = Some h' ∧
    (∀ b, is_Some (h' !! b) ↔ is_Some (h !! b)) ∧
    (∀ b, prev_of h' b = if decide (b = a) then v else prev_of h b) ∧
    (∀ b, next_of h' b = next_of h b).
Proof.
  intros [l Hl]. rewrite (assign_run _ _ _ _ Hl). eexists. split; [done|].
  split; [|split]; intros b.
  - rewrite lookup_insert_is_Some.
    split; [intros [<-|[_ ?]]; [by eexists|done]|].
    destruct (decide (a = b)); [by left|by right].
  - by rewrite prev_of_insert.
  - rewrite next_of_insert. case_decide; subst; [|done].
    unfold next_of. by rewrite Hl.
Qed.

(** What list_remove does to the links. *)
Lemma list_remove_links (elm p n : Z) (h : gmap Z list_t) :
  prev_of h elm = Some p →
  next_of h elm = Some n →
  is_Some (h !! p) →
  is_Some (h !! n) →
  ∃ h',
    list_remove (Some elm) h = Some h' ∧
    (∀ a, next_of h' a =
            if decide (a = elm) then None
            else if decide (a = p) then Some n else next_of h a) ∧
    (∀ a, prev_of h' a =
            if decide (a = elm) then None
            else if decide (a = n) then Some p else prev_of h a).
Proof.
  intros Hp Hn Hpa Hna.
  assert (Hea : is_Some (h !! elm)).
  { apply prev_of_Some in Hp as (l & -> & _). by eexists. }
  unfold list_remove.
  destruct (deref_links elm h Hea) as (e & -> & Hep & Hen).
  cbn [mbind option_bind]. rewrite Hep, Hen, Hp, Hn.
  destruct (assign_next p (Some n) h Hpa) as (h1 & -> & Ha1 & Hn1 & Hp1).
  cbn [mbind option_bind].
  destruct (deref_links elm h1) as (e1 & -> & He1p & He1n); [by apply Ha1|].
  cbn [mbind option_bind].
  assert (next e1 = Some n) as ->
    by (rewrite He1n, Hn1; by case_decide).
  assert (prev e1 = Some p) as -> by by rewrite He1p, Hp1.
  destruct (assign_prev n (Some p) h1) as (h2 & -> & Ha2 & Hp2 & Hn2);
    [by apply Ha1|].
  cbn [mbind option_bind].
  destruct (assign_next elm None h2) as (h3 & -> & Ha3 & Hn3 & Hp3);
    [by apply Ha2, Ha1|].
  cbn [mbind option_bind].
  destruct (assign_prev elm None h3) as (h4 & -> & Ha4 & Hp4 & Hn4);
    [by apply Ha3, Ha2, Ha1|].
  eexists. split; [done|]. split; intros a.
  - rewrite Hn4, Hn3. case_decide; [done|]. by rewrite Hn2, Hn1.
  - rewrite Hp4. case_decide; [done|]. by rewrite Hp3, Hp2, Hp1.
Qed.

(** X25. list_remove on a linked list: for a struct [elm] of a linked
    ring, list_remove(elm) returns; it links the predecessor and the
    successor of elm to each other, so that the ring without elm is linked
    again, and sets both pointers of elm to NULL. *)
Theorem list_remove_unlinks_element
    (elm : Z) (h : gmap Z list_t) (nodes : gset Z) :
  linked h nodes →
  elm ∈ nodes →
  ∃ h' p n,
    prev_of h elm = Some p ∧ next_of h elm = Some n ∧
    list_remove (Some elm) h = Some h' ∧
    linked h' (nodes ∖ {[elm]}) ∧
    next_of h' elm = None ∧ prev_of h' elm = None ∧
    (p ≠ elm → next_of h' p = Some n ∧ prev_of h' n = Some p).
Proof.
  intros Hlinked Helm.
  destruct (Hlinked elm Helm)
    as (p & n & Hp & Hn & Hpin & Hnin & Hpnext & Hnprev).
  destruct (list_remove_links elm p n h Hp Hn)
    as (h' & Hrun & Hnext' & Hprev'); [by eapply linked_allocated..|].
  exists h', p, n. split; [done|]. split; [done|]. split; [done|].
  split; [|repeat split].
  - intros a [Ha Hae%not_elem_of_singleton]%elem_of_difference.
    destruct (Hlinked a Ha)
      as (pa & na & Hpa & Hna & Hpain & Hnain & Hpanext & Hnaprev).
    assert (Hmem : ∀ b, b ∈ nodes → b ≠ elm → b ∈ nodes ∖ {[elm]})
      by (intros b ? ?; apply elem_of_difference; split;
          [done|by apply not_elem_of_singleton]).
    exists (if decide (a = n) then p else pa),
           (if decide (a = p) then n else na).
    rewrite !Hnext', !Hprev'.
    repeat case_decide; try congruence;
      repeat split; try congruence; apply Hmem; try done; congruence.
  - rewrite Hnext'. by case_decide.
  - rewrite Hprev'. by case_decide.
  - rewrite Hnext'. by repeat case_decide.
  - rewrite Hprev'. repeat case_decide; try done. subst. congruence.
Qed.

(** X26. list_insert followed by list_remove of the same struct is a
    round trip: for a struct [list] of a linked ring and a struct [elm]
    outside it, both calls return, every struct but elm has the successor
    and the predecessor it had before, and elm is left with both pointers
    NULL. *)
Theorem list_insert_then_remove_restores_links
    (list elm : Z) (h : gmap Z list_t) (nodes : gset Z) :
  linked h nodes →
  list ∈ nodes →
  elm ∉ nodes →
  is_Some (h !! elm) →
  ∃ h1 h2,
    list_insert (Some list) (Some elm) h = Some h1 ∧
    list_remove (Some elm) h1 = Some h2 ∧
    (∀ a, a ≠ elm →
       next_of h2 a = next_of h a ∧ prev_of h2 a = prev_of h a) ∧
    next_of h2 elm = None ∧ prev_of h2 elm = None.
Proof.
  intros Hlinked Hlist Helm Halloc.
  destruct (Hlinked list Hlist)
    as (p & n & Hp & Hn & Hpin & Hnin & Hpnext & Hnprev).
  assert (Hne : n ≠ elm) by (by intros ->).
  assert (Hle : list ≠ elm) by (by intros ->).
  destruct (list_insert_links list elm n h Hle Hne Halloc Hn)
    as (h1 & Hinsert & Hnext1 & Hprev1); [by eapply linked_allocated|].
  destruct (list_remove_links elm list n h1)
    as (h2 & Hremove & Hnext2 & Hprev2).
  { rewrite Hprev1. by repeat case_decide. }
  { rewrite Hnext1. by repeat case_decide. }
  { assert (Hl : next_of h1 list = Some elm)
      by (rewrite Hnext1; by case_decide).
    apply next_of_Some in Hl as (l & -> & _). by eexists. }
  { assert (Hl : prev_of h1 n = Some elm)
      by (rewrite Hprev1; by case_decide).
    apply prev_of_Some in Hl as (l & -> & _). by eexists. }
  exists h1, h2. split; [done|]. split; [done|]. split; [|split].
  - intros a Ha. rewrite Hnext2, Hprev2, Hnext1, Hprev1.
    repeat case_decide; subst; try done; split; congruence.
  - rewrite Hnext2. by case_decide.
  - rewrite Hprev2. by case_decide.
Qed.

Lemma sample_store_linked : linked sample_store {[1]}.
Proof.
  intros a ->%elem_of_singleton. exists 1, 1.
  repeat split; try (vm_compute; reflexivity); by apply elem_of_singleton.
Qed.

Lemma sample_list_linked : linked sample_list {[1; 2]}.
Proof.
  intros a [->%elem_of_singleton| ->%elem_of_singleton]%elem_of_union.
  - exists 2, 2. repeat split; try (vm_compute; reflexivity); set_solver.
  - exists 1, 1. repeat split; try (vm_compute; reflexivity); set_solver.
Qed.


End Lists.

Lemma list_init_makes_empty_list_witness :
  ∃ h',
    LibinputUtil.list_init (Some 2) Links.sample_store = Some h' ∧
    LibinputUtil.list_empty (Some 2) h' = Some true ∧
    Links.next_of h' 2 = Some 2 ∧ Links.prev_of h' 2 = Some 2 ∧
    ∀ a, a ≠ 2 → h' !! a = Links.sample_store !! a.
Proof.
  apply (list_init_makes_empty_list 2 Links.sample_store).
  vm_compute. by eexists.
Defined.

Lemma list_insert_links_element_witness :
  ∃ h' n,
    Links.next_of Links.sample_store 1 = Some n ∧
    LibinputUtil.list_insert (Some 1) (Some 2) Links.sample_store = Some h' ∧
    Links.linked h' ({[2]} ∪ {[1]}) ∧
    Links.next_of h' 1 = Some 2 ∧ Links.prev_of h' 2 = Some 1 ∧
    Links.next_of h' 2 = Some n ∧ Links.prev_of h' n = Some 2 ∧
    LibinputUtil.list_empty (Some 1) h' = Some false.
Proof.
  apply (list_insert_links_element 1 2 Links.sample_store {[1]}).
  - exact sample_store_linked.
  - by apply elem_of_singleton.
  - by intros ?%elem_of_singleton.
  - vm_compute. by eexists.
Defined.

Lemma list_remove_unlinks_element_witness :
  ∃ h' p n,
    Links.prev_of Links.sample_list 2 = Some p ∧
    Links.next_of Links.sample_list 2 = Some n ∧
    LibinputUtil.list_remove (Some 2) Links.sample_list = Some h' ∧
    Links.linked h' ({[1; 2]} ∖ {[2]}) ∧
    Links.next_of h' 2 = None ∧ Links.prev_of h' 2 = None ∧
    (p ≠ 2 → Links.next_of h' p = Some n ∧ Links.prev_of h' n = Some p).
Proof.
  apply (list_remove_unlinks_element 2 Links.sample_list {[1; 2]}).
  - exact sample_list_linked.
  - set_solver.
Defined.

Lemma list_insert_then_remove_restores_links_witness :
  ∃ h1 h2,
    LibinputUtil.list_insert (Some 1) (Some 2) Links.sample_store = Some h1 ∧
    LibinputUtil.list_remove (Some 2) h1 = Some h2 ∧
    (∀ a, a ≠ 2 →
       Links.next_of h2 a = Links.next_of Links.sample_store a ∧
       Links.prev_of h2 a = Links.prev_of Links.sample_store a) ∧
    Links.next_of h2 2 = None ∧ Links.prev_of h2 2 = None.
Proof.
  apply (list_insert_then_remove_restores_links 1 2 Links.sample_store {[1]}).
  - exact sample_store_linked.
  - by apply elem_of_singleton.
  - by intros ?%elem_of_singleton.
  - vm_compute. by eexists.
Defined.

